(** * FILDOS storage allowance and persistence engine

    A shallow embedding of [src/utils/calculateStorageMetrics.ts] and of the
    payment-action part of the storage manager component, with the
    JavaScript values they compute on:

    - [bigint] is [Z]; bigint division truncates toward zero and raises a
      [RangeError] on a zero divisor;
    - [number] is an IEEE 754 binary64 value, taken from the Standard
      Library's executable specification [SpecFloat] at precision 53 and
      maximal exponent 1024, so that [Number(b)], [/] and the comparisons
      round exactly as the JavaScript engine does;
    - a call that can throw returns a [JsResult]. *)

From Stdlib Require Import ZArith Bool List String Lia.
From Stdlib Require Import Floats.SpecFloat.
From Stdlib Require Import Reals Lra.
Import ListNotations.

Local Open Scope Z_scope.

(** ** JavaScript values *)

Module Js.

Inductive Error :=
| RangeError
| TypeError
| Rejected (reason : string).

Inductive JsResult (A : Type) :=
| Ok (a : A)
| Throw (e : Error).
Arguments Ok {A} a.
Arguments Throw {A} e.

Definition bind {A B} (r : JsResult A) (k : A -> JsResult B) : JsResult B :=
  match r with
  | Ok a => k a
  | Throw e => Throw e
  end.

(** [try { body } catch { handler }] for a body whose effect is its value. *)
Definition try_catch {A} (body : JsResult A) (handler : Error -> A) : A :=
  match body with
  | Ok a => a
  | Throw e => handler e
  end.

(** *** number: binary64 *)

Definition prec : Z := 53.
Definition emax : Z := 1024.

Definition number := spec_float.

Definition Infinity : number := S754_infinity false.
Definition NaN : number := S754_nan.
Definition zero : number := S754_zero false.

(** [Number(b)] for a bigint [b]: the nearest binary64, ties to even. *)
Definition Number (b : Z) : number := binary_normalize prec emax b 0 false.

(** [x / y] on numbers. *)
Definition div (x y : number) : number := SFdiv prec emax x y.

(** [x <= y] on numbers (false when either side is NaN). *)
Definition leb (x y : number) : bool := SFleb x y.

(** The integer [n] with [n * 2^-k] the value of a finite number of
    negative exponent [-k]; used to compare a number with a bigint
    without rounding either. *)
Definition signed (s : bool) (m : positive) : Z := cond_Zopp s (Zpos m).

(** [IsLessThan] between a number and a bigint compares the mathematical
    values; [None] is its [undefined] (a NaN operand). *)
Definition compare_bigint (x : number) (b : Z) : option comparison :=
  match x with
  | S754_nan => None
  | S754_infinity s => Some (if s then Lt else Gt)
  | S754_zero _ => Some (0 ?= b)
  | S754_finite s m e =>
      if 0 <=? e then Some (signed s m * 2 ^ e ?= b)
      else Some (signed s m ?= b * 2 ^ (- e))
  end.

(** [x >= b] for a number [x] and a bigint [b]. *)
Definition geb_bigint (x : number) (b : Z) : bool :=
  match compare_bigint x b with
  | Some Lt | None => false
  | Some _ => true
  end.

(** [BigInt(x)] for a number [x]: a [RangeError] unless [x] is an integer. *)
Definition BigInt (x : number) : JsResult Z :=
  match x with
  | S754_nan | S754_infinity _ => Throw RangeError
  | S754_zero _ => Ok 0
  | S754_finite s m e =>
      if 0 <=? e then Ok (signed s m * 2 ^ e)
      else if Zpos m mod 2 ^ (- e) =? 0 then Ok (signed s m / 2 ^ (- e))
      else Throw RangeError
  end.

(** *** bigint *)

(** [a / b] on bigints. *)
Definition bigint_div (a b : Z) : JsResult Z :=
  if b =? 0 then Throw RangeError else Ok (Z.quot a b).

(** [!b] for an optional bigint property: [undefined] and [0n] are falsy. *)
Definition falsy (b : option Z) : bool :=
  match b with
  | None => true
  | Some v => v =? 0
  end.

End Js.

Import Js.

Notation "x <- c1 ;; c2" := (Js.bind c1 (fun x => c2))
  (at level 61, c1 at next level, right associativity).

(** ** The value of a binary64 and the rounding that produces it

    The definitions below describe what [binary_round_aux], the rounding
    routine behind [Number(b)] and [/], computes: a non-negative real [x] is
    located on the grid of step [2^e] by an integer code that keeps a round
    bit and a sticky bit, and is rounded to the nearest grid point, ties to
    the even mantissa. *)

Module Binary64.

(** [2^e] for any integer exponent. *)
Definition bpow (e : Z) : R := powerRZ 2 e.

(** The real value of a finite number; zeros, infinities and NaN read 0. *)
Definition val (f : spec_float) : R :=
  match f with
  | S754_finite s m e => (IZR (cond_Zopp s (Zpos m)) * bpow e)%R
  | _ => 0%R
  end.

Definition loc_code (l : location) : Z :=
  match l with
  | loc_Exact => 0
  | loc_Inexact Lt => 1
  | loc_Inexact Eq => 2
  | loc_Inexact Gt => 3
  end.

(** A truncated mantissa with its round and sticky bits, as one integer. *)
Definition rec_code (mrs : shr_record) : Z :=
  4 * shr_m mrs + (if shr_r mrs then 2 else 0) + (if shr_s mrs then 1 else 0).

(** [coded x v e]: [v] is [x / 2^(e-2)] when that is an even integer, and
    otherwise the odd integer next to it. *)
Definition coded (x : R) (v e : Z) : Prop :=
  if Z.even v then x = (IZR v * bpow (e - 2))%R
  else (IZR (v - 1) * bpow (e - 2) < x < IZR (v + 1) * bpow (e - 2))%R.

(** One right shift that keeps the sticky bit. *)
Definition sshr (v : Z) : Z := 2 * (v / 4) + (if v mod 4 =? 0 then 0 else 1).

(** Round a code to the nearest mantissa, ties to even. *)
Definition rne (v : Z) : Z :=
  round_nearest_even (v / 4)
    (loc_of_shr_record (Build_shr_record 0 (2 <=? v mod 4) (Z.odd v))).

(** [e] is the exponent at which binary64 represents numbers of the
    magnitude of [x]. *)
Definition cexp_of (x : R) (e : Z) : Prop :=
  -1074 <= e /\ (x < bpow (e + 53))%R /\ (-1074 < e -> (bpow (e + 52) <= x)%R).

(** The end of [binary_round_aux]: renormalise the rounded mantissa [a] at
    exponent [e] and detect overflow. *)
Definition finish (s : bool) (a e : Z) : spec_float :=
  let '(mrs, e') := shr_fexp 53 1024 a e loc_Exact in
  match shr_m mrs with
  | Z0 => S754_zero s
  | Zpos m => if e' <=? 1024 - 53 then S754_finite s m e' else S754_infinity s
  | Zneg _ => S754_nan
  end.

(** A mantissa and an exponent as a number of sign [s]. *)
Definition mk (s : bool) (a e : Z) : spec_float :=
  match a with
  | Z0 => S754_zero s
  | Zpos m => if e <=? 971 then S754_finite s m e else S754_infinity s
  | Zneg _ => S754_nan
  end.

Definition canon (a e : Z) : Prop :=
  0 <= a < 2 ^ 53 /\ -1074 <= e /\ (-1074 < e -> 2 ^ 52 <= a).

(** [f] is the binary64 nearest to the non-negative real [x]. *)
Definition rounds_to (x : R) (f : spec_float) : Prop :=
  exists v e, coded x v e /\ cexp_of x e /\ f = finish false (rne v) e.

(** +0, a positive finite number or +Infinity. *)
Definition nonneg_shape (f : spec_float) : Prop :=
  f = S754_zero false
  \/ (exists m e, f = S754_finite false m e)
  \/ f = S754_infinity false.

(** A zero or a finite number. *)
Definition is_finite (f : spec_float) : bool :=
  match f with
  | S754_zero _ | S754_finite _ _ _ => true
  | _ => false
  end.

End Binary64.

(** ** Data model *)

(** [costs] of the allowance check; only the per-epoch cost is read. *)
Record Costs := { perEpoch : Z }.

(** The balance snapshot returned by the payment-market service. *)
Module PandoraBalanceData.
Record t := mk {
  rateAllowanceNeeded : Z;
  lockupAllowanceNeeded : Z;
  currentRateAllowance : Z;
  currentLockupAllowance : Z;
  currentRateUsed : Z;
  currentLockupUsed : Z;
  depositAmountNeeded : Z;
  costs : Costs
}.
End PandoraBalanceData.

Module StorageCalculationResult.
Record t := mk {
  rateNeeded : Z;
  rateUsed : Z;
  currentStorageBytes : Z;
  currentStorageGB : number;
  totalLockupNeeded : Z;
  depositNeeded : Z;
  persistenceDaysLeft : number;
  persistenceDaysLeftAtCurrentRate : number;
  isRateSufficient : bool;
  isLockupSufficient : bool;
  isSufficient : bool;
  currentRateAllowanceGB : number;
  currentLockupAllowance : Z
}.
End StorageCalculationResult.

(** The constants that the engine imports from the storage SDK; all are
    bigints. *)
Record TimeConstants := {
  EPOCHS_PER_DAY : Z;
  EPOCHS_PER_MONTH : Z
}.

Record SizeConstants := {
  TiB : Z;
  GiB : Z
}.

Record Sdk := {
  TIME_CONSTANTS : TimeConstants;
  SIZE_CONSTANTS : SizeConstants
}.

(** ** The engine: calculateStorageMetrics.ts *)

Module STORAGE_CONSTANTS.
(** Price per TB per month in wei (2 USDFC) *)
Definition PRICE_PER_TB_PER_MONTH : Z := 2 * 10 ^ 18.
(** Price per TB per month in wei (3 USDFC) *)
Definition PRICE_PER_TB_PER_MONTH_CDN : Z := 3 * 10 ^ 18.
End STORAGE_CONSTANTS.

Section Engine.

(** The imported SDK constants and the [withCDN] flag of the
    application's configuration. *)
Variable sdk : Sdk.
Variable withCDN : bool.

Definition getPricePerTBPerMonth : Z :=
  if withCDN
  then STORAGE_CONSTANTS.PRICE_PER_TB_PER_MONTH_CDN
  else STORAGE_CONSTANTS.PRICE_PER_TB_PER_MONTH.

(** The storage capacity in GB that a rate allowance supports. *)
Definition calculateRateAllowanceGB (rateAllowance : Z) : JsResult number :=
  let monthlyRate := rateAllowance * EPOCHS_PER_MONTH (TIME_CONSTANTS sdk) in
  bytesThatCanBeStored <-
    bigint_div (monthlyRate * TiB (SIZE_CONSTANTS sdk)) getPricePerTBPerMonth ;;
  Ok (div (Number bytesThatCanBeStored) (Number (GiB (SIZE_CONSTANTS sdk)))).

(** Current storage usage from the rate in use.  The body of the [try]
    assigns [currentStorageBytes] first; when the conversion or the
    division throws, neither variable has been assigned and both keep
    their initial zero. *)
Definition calculateCurrentStorageUsage
    (pandoraBalance : PandoraBalanceData.t) (storageCapacity : number)
    : Z * number :=
  if (PandoraBalanceData.currentRateUsed pandoraBalance >? 0)
     && (PandoraBalanceData.rateAllowanceNeeded pandoraBalance >? 0)
  then
    try_catch
      (capacity <- BigInt storageCapacity ;;
       currentStorageBytes <-
         bigint_div
           (PandoraBalanceData.currentRateUsed pandoraBalance * capacity)
           (PandoraBalanceData.rateAllowanceNeeded pandoraBalance) ;;
       Ok (currentStorageBytes,
           div (Number currentStorageBytes) (Number (GiB (SIZE_CONSTANTS sdk)))))
      (fun _ => (0, Js.zero))
  else (0, Js.zero).

(** The service call that fetches the snapshot for a capacity, a CDN flag
    and a persistence period; it may reject. *)
Definition AllowanceCheck :=
  number -> bool -> number -> JsResult PandoraBalanceData.t.

Definition calculateStorageMetrics
    (checkAllowanceForStorage : AllowanceCheck)
    (persistencePeriodDays storageCapacity : number)
    (minDaysThreshold : Z)
    : JsResult StorageCalculationResult.t :=
  pandoraBalance <-
    checkAllowanceForStorage storageCapacity withCDN persistencePeriodDays ;;
  let rateNeeded := perEpoch (PandoraBalanceData.costs pandoraBalance) in
  let lockupPerDay := EPOCHS_PER_DAY (TIME_CONSTANTS sdk) * rateNeeded in
  let lockupPerDayAtCurrentRate :=
    EPOCHS_PER_DAY (TIME_CONSTANTS sdk) * PandoraBalanceData.currentRateUsed pandoraBalance in
  let currentLockupRemaining :=
    PandoraBalanceData.currentLockupAllowance pandoraBalance
    - PandoraBalanceData.currentLockupUsed pandoraBalance in
  let persistenceDaysLeft :=
    div (Number currentLockupRemaining) (Number lockupPerDay) in
  let persistenceDaysLeftAtCurrentRate :=
    if lockupPerDayAtCurrentRate >? 0
    then div (Number currentLockupRemaining) (Number lockupPerDayAtCurrentRate)
    else if currentLockupRemaining >? 0 then Infinity else Js.zero in
  let '(currentStorageBytes, currentStorageGB) :=
    calculateCurrentStorageUsage pandoraBalance storageCapacity in
  let isRateSufficient :=
    PandoraBalanceData.currentRateAllowance pandoraBalance >=? rateNeeded in
  let isLockupSufficient := geb_bigint persistenceDaysLeft minDaysThreshold in
  let isSufficient := isRateSufficient && isLockupSufficient in
  currentRateAllowanceGB <-
    calculateRateAllowanceGB
      (PandoraBalanceData.currentRateAllowance pandoraBalance) ;;
  let depositNeeded := PandoraBalanceData.depositAmountNeeded pandoraBalance in
  Ok {|
    StorageCalculationResult.rateNeeded := rateNeeded;
    StorageCalculationResult.rateUsed :=
      PandoraBalanceData.currentRateUsed pandoraBalance;
    StorageCalculationResult.currentStorageBytes := currentStorageBytes;
    StorageCalculationResult.currentStorageGB := currentStorageGB;
    StorageCalculationResult.totalLockupNeeded :=
      PandoraBalanceData.lockupAllowanceNeeded pandoraBalance;
    StorageCalculationResult.depositNeeded := depositNeeded;
    StorageCalculationResult.persistenceDaysLeft := persistenceDaysLeft;
    StorageCalculationResult.persistenceDaysLeftAtCurrentRate :=
      persistenceDaysLeftAtCurrentRate;
    StorageCalculationResult.isRateSufficient := isRateSufficient;
    StorageCalculationResult.isLockupSufficient := isLockupSufficient;
    StorageCalculationResult.isSufficient := isSufficient;
    StorageCalculationResult.currentRateAllowanceGB := currentRateAllowanceGB;
    StorageCalculationResult.currentLockupAllowance :=
      PandoraBalanceData.currentLockupAllowance pandoraBalance
  |}.

End Engine.

(** ** The payment actions of the storage manager component

    A component is the function from its props to what it renders; of a
    card only the title and the button are kept, of a button what a click
    runs. *)

(** The argument of the transaction-submission callback [onPayment]. *)
Record PaymentArgs := {
  lockupAllowance : Z;
  epochRateAllowance : Z;
  depositAmount : Z
}.

(** What a click runs: the awaited calls, in order. *)
Inductive Effect :=
| OnPayment (args : PaymentArgs)
| HandleRefetchBalances.

Record Button := {
  onClick : list Effect;
  disabled : bool;
  label : string
}.

(** A card with a call-to-action button. *)
Record ActionCard := {
  title : string;
  button : Button
}.

(** The data of the balances hook that the action section reads: the two
    wallet balances and, spread into the same object, the storage metrics. *)
Module UseBalancesResponse.
Record t := mk {
  filBalance : Z;
  usdfcBalance : Z;
  storage : StorageCalculationResult.t
}.
End UseBalancesResponse.

(** Component for handling lockup deposit action *)
Definition LockupIncreaseAction
    (totalLockupNeeded depositNeeded rateNeeded : option Z)
    (isProcessingPayment : bool) : option ActionCard :=
  if falsy totalLockupNeeded || falsy depositNeeded || falsy rateNeeded
  then None
  else
    match totalLockupNeeded, depositNeeded, rateNeeded with
    | Some totalLockupNeeded, Some depositNeeded, Some rateNeeded =>
        Some {|
          title := "Additional USDFC Required";
          button := {|
            onClick :=
              [ OnPayment {| lockupAllowance := totalLockupNeeded;
                             epochRateAllowance := rateNeeded;
                             depositAmount := depositNeeded |};
                HandleRefetchBalances ];
            disabled := isProcessingPayment;
            label := if isProcessingPayment
                     then "Processing transactions..."
                     else "Deposit & Increase Lockup"
          |}
        |}
    | _, _, _ => None
    end.

(** Component for handling rate deposit action *)
Definition RateIncreaseAction
    (currentLockupAllowance rateNeeded : option Z)
    (isProcessingPayment : bool) : option ActionCard :=
  if falsy currentLockupAllowance || falsy rateNeeded
  then None
  else
    match currentLockupAllowance, rateNeeded with
    | Some currentLockupAllowance, Some rateNeeded =>
        Some {|
          title := "Rate Allowance Increase Required";
          button := {|
            onClick :=
              [ OnPayment {| lockupAllowance := currentLockupAllowance;
                             epochRateAllowance := rateNeeded;
                             depositAmount := 0 |};
                HandleRefetchBalances ];
            disabled := isProcessingPayment;
            label := if isProcessingPayment
                     then "Increasing Rate..."
                     else "Increase Rate"
          |}
        |}
    | _, _ => None
    end.

(** A child of the final [<div>] of the action section: [cond && <C ... />]
    is skipped when [cond] is false; a mounted child component renders a
    card or nothing. *)
Inductive Slot :=
| Skipped
| LockupIncrease (rendered : option ActionCard)
| RateIncrease (rendered : option ActionCard)
| DepositAndIncrease (card : ActionCard).

(** What the action section returns. *)
Inductive View :=
| Null
| Sufficient (persistenceDaysLeft : number)
| TokensRequired (filRequired usdfcRequired : bool)
| Actions (slots : list Slot).

(** Section for payment actions *)
Definition ActionSection
    (balances : option UseBalancesResponse.t)
    (isLoading isProcessingPayment : bool) : View :=
  match balances with
  | None => Null
  | Some balances =>
    if isLoading then Null else
    let s := UseBalancesResponse.storage balances in
    if StorageCalculationResult.isSufficient s
    then Sufficient (StorageCalculationResult.persistenceDaysLeft s)
    else
    if (UseBalancesResponse.filBalance balances =? 0)
       || (UseBalancesResponse.usdfcBalance balances =? 0)
    then TokensRequired (UseBalancesResponse.filBalance balances =? 0)
                        (UseBalancesResponse.usdfcBalance balances =? 0)
    else
      Actions
        [ if StorageCalculationResult.isRateSufficient s
             && negb (StorageCalculationResult.isLockupSufficient s)
          then LockupIncrease
                 (LockupIncreaseAction
                    (Some (StorageCalculationResult.totalLockupNeeded s))
                    (Some (StorageCalculationResult.depositNeeded s))
                    (Some (StorageCalculationResult.rateNeeded s))
                    isProcessingPayment)
          else Skipped;
          if negb (StorageCalculationResult.isRateSufficient s)
             && StorageCalculationResult.isLockupSufficient s
          then RateIncrease
                 (RateIncreaseAction
                    (Some (StorageCalculationResult.currentLockupAllowance s))
                    (Some (StorageCalculationResult.rateNeeded s))
                    isProcessingPayment)
          else Skipped;
          if negb (StorageCalculationResult.isRateSufficient s)
             && negb (StorageCalculationResult.isLockupSufficient s)
          then DepositAndIncrease {|
                 title := "Insufficient Storage Balance";
                 button := {|
                   onClick :=
                     [ OnPayment {|
                         lockupAllowance :=
                           StorageCalculationResult.totalLockupNeeded s;
                         epochRateAllowance :=
                           StorageCalculationResult.rateNeeded s;
                         depositAmount :=
                           StorageCalculationResult.depositNeeded s |};
                       HandleRefetchBalances ];
                   disabled := isProcessingPayment;
                   label := if isProcessingPayment
                            then "Processing transactions..."
                            else "Deposit & Increase Allowances"
                 |}
               |}
          else Skipped ]
  end.

(** The remediation branches of the section, and those a view took. *)
Inductive Branch :=
| NoRemediation
| DepositAndExtendLockup
| RaiseRateOnly
| DepositAndRaiseRate.

Definition slotBranch (s : Slot) : list Branch :=
  match s with
  | Skipped => []
  | LockupIncrease _ => [DepositAndExtendLockup]
  | RateIncrease _ => [RaiseRateOnly]
  | DepositAndIncrease _ => [DepositAndRaiseRate]
  end.

Definition branchesTaken (v : View) : list Branch :=
  match v with
  | Null => []
  | Sufficient _ => [NoRemediation]
  | TokensRequired _ _ => []
  | Actions slots => flat_map slotBranch slots
  end.

(** The specification's four-way case distinction: the branch it assigns
    to a pair of sufficiency flags. *)
Definition branchOfFlags (isRateSufficient isLockupSufficient : bool)
    : Branch :=
  match isRateSufficient, isLockupSufficient with
  | true, true => NoRemediation
  | true, false => DepositAndExtendLockup
  | false, true => RaiseRateOnly
  | false, false => DepositAndRaiseRate
  end.

(** The specification's remediation of each branch, as the payment it
    asks for: the deposit branches submit the lockup allowance, rate and
    deposit needed; the rate-only branch keeps the current lockup allowance
    and deposits nothing. *)
Definition branchPayments (branch : Branch) (s : StorageCalculationResult.t)
    : list PaymentArgs :=
  match branch with
  | NoRemediation => []
  | DepositAndExtendLockup | DepositAndRaiseRate =>
      [ {| lockupAllowance := StorageCalculationResult.totalLockupNeeded s;
           epochRateAllowance := StorageCalculationResult.rateNeeded s;
           depositAmount := StorageCalculationResult.depositNeeded s |} ]
  | RaiseRateOnly =>
      [ {| lockupAllowance := StorageCalculationResult.currentLockupAllowance s;
           epochRateAllowance := StorageCalculationResult.rateNeeded s;
           depositAmount := 0 |} ]
  end.

(** The payments a view can submit: the [onPayment] calls of its buttons. *)
Definition effectPayments (e : Effect) : list PaymentArgs :=
  match e with
  | OnPayment args => [args]
  | HandleRefetchBalances => []
  end.

Definition cardPayments (c : option ActionCard) : list PaymentArgs :=
  match c with
  | Some c => flat_map effectPayments (onClick (button c))
  | None => []
  end.

Definition slotPayments (s : Slot) : list PaymentArgs :=
  match s with
  | Skipped => []
  | LockupIncrease c | RateIncrease c => cardPayments c
  | DepositAndIncrease c => cardPayments (Some c)
  end.

Definition payments (v : View) : list PaymentArgs :=
  match v with
  | Actions slots => flat_map slotPayments slots
  | _ => []
  end.

(** ** Scenarios

    Concrete constants, snapshots and balances for the examples. *)

(** The constants of the specification's runway scenario: five epochs per
    day (and thirty such days per month), binary size units. *)
Definition sdkScenario : Sdk := {|
  TIME_CONSTANTS := {| EPOCHS_PER_DAY := 5; EPOCHS_PER_MONTH := 150 |};
  SIZE_CONSTANTS := {| TiB := 2 ^ 40; GiB := 2 ^ 30 |}
|}.

(** A snapshot with a lockup allowance of 1000 of which 100 is used, at a
    required rate [rate], with a current rate allowance [allowance] and a
    deposit of [deposit] still needed. *)
Definition scenarioBalance (allowance rate deposit : Z)
    : PandoraBalanceData.t := {|
  PandoraBalanceData.rateAllowanceNeeded := rate;
  PandoraBalanceData.lockupAllowanceNeeded := 3000;
  PandoraBalanceData.currentRateAllowance := allowance;
  PandoraBalanceData.currentLockupAllowance := 1000;
  PandoraBalanceData.currentRateUsed := 0;
  PandoraBalanceData.currentLockupUsed := 100;
  PandoraBalanceData.depositAmountNeeded := deposit;
  PandoraBalanceData.costs := {| perEpoch := rate |}
|}.

(** A snapshot that also has a rate [used] in use, for a rate allowance
    [needed] at the target capacity. *)
Definition usageBalance (used needed : Z) : PandoraBalanceData.t := {|
  PandoraBalanceData.rateAllowanceNeeded := needed;
  PandoraBalanceData.lockupAllowanceNeeded := 3000;
  PandoraBalanceData.currentRateAllowance := 10;
  PandoraBalanceData.currentLockupAllowance := 1000;
  PandoraBalanceData.currentRateUsed := used;
  PandoraBalanceData.currentLockupUsed := 100;
  PandoraBalanceData.depositAmountNeeded := 500;
  PandoraBalanceData.costs := {| perEpoch := needed |}
|}.

(** A service that answers every allowance check with [pandoraBalance]. *)
Definition answer (pandoraBalance : PandoraBalanceData.t) : AllowanceCheck :=
  fun _ _ _ => Ok pandoraBalance.

(** A persistence period of thirty days and a capacity of ten GiB. *)
Definition thirtyDays : number := Number 30.
Definition tenGiB : number := Number (10 * 2 ^ 30).

(** The metrics of the scenario for a snapshot and a threshold, or of an
    empty snapshot should the call throw. *)
Definition scenarioMetrics (pandoraBalance : PandoraBalanceData.t)
    (minDaysThreshold : Z) : StorageCalculationResult.t :=
  match calculateStorageMetrics sdkScenario false (answer pandoraBalance)
          thirtyDays tenGiB minDaysThreshold with
  | Ok r => r
  | Throw _ =>
      StorageCalculationResult.mk 0 0 0 Js.zero 0 0 Js.zero Js.zero
        false false false Js.zero 0
  end.

(** The balances the action section reads in the scenario: the two wallet
    balances next to the scenario's metrics. *)
Definition scenarioBalances (filBalance usdfcBalance : Z)
    (pandoraBalance : PandoraBalanceData.t) (minDaysThreshold : Z)
    : UseBalancesResponse.t := {|
  UseBalancesResponse.filBalance := filBalance;
  UseBalancesResponse.usdfcBalance := usdfcBalance;
  UseBalancesResponse.storage := scenarioMetrics pandoraBalance minDaysThreshold
|}.

(** ** More of the JavaScript values

    The operations that the code outside the claims uses: the product and
    the difference of numbers, [>], truthiness and [String.includes]. *)

Module JsOps.

(** [x * y] on numbers. *)
Definition mul (x y : number) : number := SFmul Js.prec Js.emax x y.

(** [x - y] on numbers. *)
Definition sub (x y : number) : number := SFsub Js.prec Js.emax x y.

(** [x > y] on numbers (false when either side is NaN). *)
Definition gtb (x y : number) : bool := SFltb y x.

(** A number in a condition: [0], [-0] and [NaN] are falsy. *)
Definition truthy (x : number) : bool :=
  match x with
  | S754_zero _ | S754_nan => false
  | _ => true
  end.

(** A string in a condition: the empty string is falsy. *)
Definition nonempty (s : string) : bool :=
  match s with
  | EmptyString => false
  | String _ _ => true
  end.

(** [s.includes(sub)], on strings as their UTF-8 bytes. *)
Fixpoint includes (s sub : string) : bool :=
  if String.prefix sub s then true
  else match s with
       | EmptyString => false
       | String _ rest => includes rest sub
       end.

(** [a === b] for values that are a string or [null]. *)
Definition strictEq (a b : option string) : bool :=
  match a, b with
  | None, None => true
  | Some x, Some y => String.eqb x y
  | _, _ => false
  end.

(** [a?.f]: the property of an object that may be missing. *)
Definition optional {A B} (a : option A) (f : A -> B) : option B :=
  match a with
  | Some a => Some (f a)
  | None => None
  end.

(** [a ?? d]. *)
Definition orElse {A} (a : option A) (d : A) : A :=
  match a with
  | Some a => a
  | None => d
  end.

End JsOps.

Import JsOps.

(** ** The application's configuration *)

Module Config.
Record t := mk {
  storageCapacity : number;
  persistencePeriod : number;
  minDaysThreshold : number;
  withCDN : bool
}.
End Config.

(** ** calculateStorageMetrics with its default parameters

    A call leaves out any of the three optional arguments; those left out
    are initialised from the configuration, left to right, before the body
    runs, and a throw among them rejects the call. *)
Definition calculateStorageMetricsCall
    (sdk : Sdk) (config : Config.t) (checkAllowanceForStorage : AllowanceCheck)
    (persistencePeriodDays storageCapacity : option number)
    (minDaysThreshold : option Z)
    : JsResult StorageCalculationResult.t :=
  let persistencePeriodDays :=
    orElse persistencePeriodDays (Config.persistencePeriod config) in
  let storageCapacity :=
    orElse storageCapacity
      (mul (Config.storageCapacity config) (Number (GiB (SIZE_CONSTANTS sdk)))) in
  minDaysThreshold <-
    match minDaysThreshold with
    | Some threshold => Ok threshold
    | None => BigInt (Config.minDaysThreshold config)
    end ;;
  calculateStorageMetrics sdk (Config.withCDN config) checkAllowanceForStorage
    persistencePeriodDays storageCapacity minDaysThreshold.

(** ** The other sections of the storage manager component *)

(** The badge of an allowance: ["..."] while loading. *)
Inductive AllowanceBadge :=
| PendingBadge
| SufficientBadge
| InsufficientBadge.

(** Component for displaying an allowance status *)
Definition AllowanceItem (itemLabel : string) (isSufficient : option bool)
    (isLoading : bool) : string * AllowanceBadge :=
  (itemLabel,
   if isLoading then PendingBadge
   else match isSufficient with
        | Some true => SufficientBadge
        | _ => InsufficientBadge
        end).

(** The two warning cards of the allowance section, with the figures they
    show before formatting. *)
Inductive Warning :=
| RateInsufficient (maxGB : number) (coveredGB usingGB : option number)
| LockupInsufficient (maxDays : number) (coveredDays : option number)
    (noticeDays : number) (usingGB : option number) (deposit : Z)
    (moreDays : number).

Record AllowanceStatusView := {
  allowanceItems : list (string * AllowanceBadge);
  warnings : list Warning
}.

(** [!x] for a flag of an object that may be missing. *)
Definition notFlag (x : option bool) : bool :=
  match x with
  | Some true => false
  | _ => true
  end.

(** Section displaying allowance status *)
Definition AllowanceStatusSection (config : Config.t)
    (balances : option UseBalancesResponse.t) (isLoading : bool)
    : AllowanceStatusView :=
  let s := optional balances UseBalancesResponse.storage in
  {|
    allowanceItems :=
      [ AllowanceItem "Rate Allowance"
          (optional s StorageCalculationResult.isRateSufficient) isLoading;
        AllowanceItem "Lockup Allowance"
          (optional s StorageCalculationResult.isLockupSufficient) isLoading ];
    warnings :=
      (if negb isLoading
          && notFlag (optional s StorageCalculationResult.isRateSufficient)
       then [ RateInsufficient (Config.storageCapacity config)
                (optional s StorageCalculationResult.currentRateAllowanceGB)
                (optional s StorageCalculationResult.currentStorageGB) ]
       else [])
      ++
      (if negb isLoading
          && notFlag (optional s StorageCalculationResult.isLockupSufficient)
       then [ LockupInsufficient (Config.persistencePeriod config)
                (optional s StorageCalculationResult.persistenceDaysLeft)
                (Config.minDaysThreshold config)
                (optional s StorageCalculationResult.currentStorageGB)
                (orElse (optional s StorageCalculationResult.depositNeeded) 0)
                (sub (Config.persistencePeriod config)
                   (orElse
                      (optional s StorageCalculationResult.persistenceDaysLeft)
                      Js.zero)) ]
       else [])
  |}.

(** The share of the covered storage that is in use, in percent; the same
    expression feeds the progress bars of the storage status section and of
    the sidebar. *)
Definition storageUsagePercent (balances : option UseBalancesResponse.t)
    : number :=
  match balances with
  | Some balances =>
      let s := UseBalancesResponse.storage balances in
      if truthy (StorageCalculationResult.currentRateAllowanceGB s)
      then mul (div (StorageCalculationResult.currentStorageGB s)
                    (StorageCalculationResult.currentRateAllowanceGB s))
               (Number 100)
      else Js.zero
  | None => Js.zero
  end.

Inductive BadgeVariant :=
| DefaultVariant
| DestructiveVariant.

(** The variant of a persistence badge: [days && days > 7]. *)
Definition persistenceVariant (days : option number) : BadgeVariant :=
  match days with
  | Some days =>
      if truthy days && gtb days (Number 7)
      then DefaultVariant else DestructiveVariant
  | None => DestructiveVariant
  end.

Record StorageStatusView := {
  progress : option number;
  maxUsageVariant : BadgeVariant;
  currentUsageVariant : BadgeVariant
}.

(** Section displaying storage status *)
Definition StorageStatusSection (balances : option UseBalancesResponse.t)
    (isLoading : bool) : StorageStatusView :=
  let s := optional balances UseBalancesResponse.storage in
  {|
    progress := if negb isLoading then Some (storageUsagePercent balances)
                else None;
    maxUsageVariant :=
      persistenceVariant
        (optional s StorageCalculationResult.persistenceDaysLeft);
    currentUsageVariant :=
      persistenceVariant
        (optional s StorageCalculationResult.persistenceDaysLeftAtCurrentRate)
  |}.

(** The marks that the payment status carries, as UTF-8: a cross mark
    (U+274C) and a white heavy check mark (U+2705). *)
Definition crossMark : string :=
  String (Ascii.ascii_of_nat 226) (String (Ascii.ascii_of_nat 157) (String (Ascii.ascii_of_nat 140) EmptyString)).
Definition checkMark : string :=
  String (Ascii.ascii_of_nat 226) (String (Ascii.ascii_of_nat 156) (String (Ascii.ascii_of_nat 133) EmptyString)).

Inductive Tone :=
| Red
| Green
| Blue.

(** The colour of the status card; its border and its text each evaluate
    the same chain of conditions. *)
Definition statusTone (status : string) : Tone :=
  if includes status crossMark then Red
  else if includes status checkMark then Green
  else Blue.

Record StatusCard := {
  borderTone : Tone;
  textTone : Tone;
  statusText : string
}.

(** Header section with title and USDFC faucet button: the two faucet
    buttons are there on the calibration network only. *)
Definition StorageBalanceHeader (chainId : option Z) : bool :=
  match chainId with
  | Some id => id =? 314159
  | None => false
  end.

Record StorageManagerView := {
  faucets : bool;
  storageStatus : StorageStatusView;
  allowanceStatus : AllowanceStatusView;
  actionSection : View;
  statusCard : option StatusCard
}.

(** Component to display and manage token payments for storage.  Its
    inputs are what its hooks return: the account, the balances query and
    the payment mutation.  The wallet balances section, which is text
    only, is left out of the view. *)
Definition StorageManager (config : Config.t)
    (isConnected : bool) (chainId : option Z)
    (data : option UseBalancesResponse.t) (isBalanceLoading : bool)
    (isProcessingPayment : bool) (status : string)
    : option StorageManagerView :=
  if negb isConnected then None
  else Some {|
    faucets := StorageBalanceHeader chainId;
    storageStatus := StorageStatusSection data isBalanceLoading;
    allowanceStatus := AllowanceStatusSection config data isBalanceLoading;
    actionSection := ActionSection data isBalanceLoading isProcessingPayment;
    statusCard :=
      if nonempty status
      then Some {| borderTone := statusTone status;
                   textTone := statusTone status;
                   statusText := status |}
      else None
  |}.

(** The buttons of a view of the action section. *)
Definition cardButtons (c : option ActionCard) : list Button :=
  match c with
  | Some c => [button c]
  | None => []
  end.

Definition slotButtons (s : Slot) : list Button :=
  match s with
  | Skipped => []
  | LockupIncrease c | RateIncrease c => cardButtons c
  | DepositAndIncrease c => [button c]
  end.

Definition buttons (v : View) : list Button :=
  match v with
  | Actions slots => flat_map slotButtons slots
  | _ => []
  end.

(** ** The home page: page.tsx *)

Inductive Tab :=
| ManageStorage
| Upload
| ProofSet.

Definition Tab_eqb (a b : Tab) : bool :=
  match a, b with
  | ManageStorage, ManageStorage | Upload, Upload | ProofSet, ProofSet => true
  | _, _ => false
  end.

(** The panels are the storage manager, the file uploader and the proof
    set viewer. *)
Inductive Panel :=
| StorageManagerPanel
| FileUploaderPanel
| ViewProofSetsPanel.

Record TabButton := {
  tabLabel : string;
  selects : Tab;
  highlighted : bool
}.

Inductive HomeBody :=
| ConnectPrompt
| Content (tabButtons : list TabButton) (panel : option Panel).

Record HomeView := {
  networkWarning : bool;
  body : HomeBody
}.

(** The page for an account and the tab held in its state; [panel] is
    [None] where the chain of conditions yields [false]. *)
Definition Home (isConnected : bool) (chainId : option Z) (activeTab : Tab)
    : HomeView := {|
  networkWarning :=
    match chainId with
    | Some id => negb (id =? 314159)
    | None => true
    end;
  body :=
    if negb isConnected then ConnectPrompt
    else Content
      [ {| tabLabel := "Manage Storage"; selects := ManageStorage;
           highlighted := Tab_eqb activeTab ManageStorage |};
        {| tabLabel := "Upload File"; selects := Upload;
           highlighted := Tab_eqb activeTab Upload |};
        {| tabLabel := "View Proof Sets"; selects := ProofSet;
           highlighted := Tab_eqb activeTab ProofSet |} ]
      (if Tab_eqb activeTab ManageStorage then Some StorageManagerPanel
       else if Tab_eqb activeTab Upload then Some FileUploaderPanel
       else if Tab_eqb activeTab ProofSet then Some ViewProofSetsPanel
       else None)
|}.

(** A click on a tab button calls [setActiveTab] with its tab; the tab
    held after a run of clicks, from the initial ["manage-storage"]. *)
Definition clickTab (button : TabButton) (activeTab : Tab) : Tab :=
  selects button.

Definition initialTab : Tab := ManageStorage.

Definition afterClicks (clicks : list TabButton) : Tab :=
  fold_left (fun activeTab button => clickTab button activeTab) clicks initialTab.

(** ** The sidebar: sidebar.tsx *)

Record NavItem := {
  navLabel : string;
  route : option string
}.

Definition sidebarItems : list NavItem := [
  {| navLabel := "My Drive"; route := None |};
  {| navLabel := "Shared with me"; route := Some "shared"%string |};
  {| navLabel := "Public Folders"; route := Some "public"%string |};
  {| navLabel := "Proof Sets"; route := Some "proof-sets"%string |}
].

Definition fileTypes : list NavItem := [
  {| navLabel := "Documents"; route := Some "documents"%string |};
  {| navLabel := "Images"; route := Some "images"%string |};
  {| navLabel := "Videos"; route := Some "videos"%string |};
  {| navLabel := "Archives"; route := Some "archives"%string |};
  {| navLabel := "Embeds"; route := Some "embeds"%string |}
].

Record NavLink := {
  linkLabel : string;
  href : string;
  active : bool
}.

(** A link of the navigation list: the dashboard itself for an item
    without route. *)
Definition sidebarLink (segment : option string) (item : NavItem) : NavLink := {|
  linkLabel := navLabel item;
  href := match route item with
          | Some r => if nonempty r then ("/dashboard/" ++ r)%string else "/dashboard"
          | None => "/dashboard"
          end;
  active := strictEq segment (route item)
|}.

(** A link of the file type list; [`/dashboard/${null}`] reads
    ["/dashboard/null"]. *)
Definition fileTypeLink (segment : option string) (item : NavItem) : NavLink := {|
  linkLabel := navLabel item;
  href := ("/dashboard/" ++ orElse (route item) "null")%string;
  active := strictEq segment (route item)
|}.

Record SidebarView := {
  navigation : list NavLink;
  storageLink : NavLink;
  usage : option number;
  fileTypeLinks : list NavLink
}.

(** The sidebar for the selected layout segment and the balances query. *)
Definition Sidebar (segment : option string)
    (data : option UseBalancesResponse.t) (isBalanceLoading : bool)
    : SidebarView := {|
  navigation := map (sidebarLink segment) sidebarItems;
  storageLink := {| linkLabel := "Storage"; href := "/dashboard/storage";
                    active := strictEq segment (Some "storage"%string) |};
  usage := if negb isBalanceLoading then Some (storageUsagePercent data)
           else None;
  fileTypeLinks := map (fileTypeLink segment) fileTypes
|}.

(** All the links of the sidebar, top to bottom. *)
Definition sidebarLinks (v : SidebarView) : list NavLink :=
  navigation v ++ [storageLink v] ++ fileTypeLinks v.

(** ** More scenarios *)

(** A configuration of ten GB kept for thirty days, with a notice of ten
    days and no CDN. *)
Definition scenarioConfig : Config.t := {|
  Config.storageCapacity := Number 10;
  Config.persistencePeriod := Number 30;
  Config.minDaysThreshold := Number 10;
  Config.withCDN := false
|}.

(** A snapshot with a rate allowance of 10^16 per epoch, of which 5 is
    used while 10 is required, and the lockup of the other scenarios. *)
Definition fundedBalance : PandoraBalanceData.t := {|
  PandoraBalanceData.rateAllowanceNeeded := 10;
  PandoraBalanceData.lockupAllowanceNeeded := 3000;
  PandoraBalanceData.currentRateAllowance := 10 ^ 16;
  PandoraBalanceData.currentLockupAllowance := 1000;
  PandoraBalanceData.currentRateUsed := 5;
  PandoraBalanceData.currentLockupUsed := 100;
  PandoraBalanceData.depositAmountNeeded := 0;
  PandoraBalanceData.costs := {| perEpoch := 10 |}
|}.

(** * Facts about binary64 rounding

    [Number(b)] and the quotient of two finite numbers are roundings in the
    sense of [rounds_to]; roundings are unique and monotone. *)

Module Rounding.

Import Binary64.

(** Push [IZR] through sums, differences and products. *)
Ltac push_IZR :=
  repeat (rewrite plus_IZR || rewrite minus_IZR || rewrite mult_IZR).

(** ** Powers of two *)

Lemma bpow_pos e : (0 < bpow e)%R.
Proof. apply powerRZ_lt; lra. Qed.

Lemma bpow_add a b : bpow (a + b) = (bpow a * bpow b)%R.
Proof. apply powerRZ_add; lra. Qed.

Lemma bpow_succ e : bpow (e + 1) = (2 * bpow e)%R.
Proof. rewrite bpow_add. unfold bpow at 2. simpl. lra. Qed.

Lemma bpow_IZR k : 0 <= k -> bpow k = IZR (2 ^ k).
Proof.
  intros Hk. unfold bpow.
  destruct k as [|p|p]; [reflexivity| |lia].
  symmetry. apply (Zpower_pos_powerRZ 2 p).
Qed.

Lemma bpow_le a b : a <= b -> (bpow a <= bpow b)%R.
Proof.
  intros H. replace b with (a + (b - a)) by lia.
  rewrite bpow_add, (bpow_IZR (b - a)) by lia.
  assert (1 <= 2 ^ (b - a)) by (apply Z.lt_pred_le, Z.pow_pos_nonneg; lia).
  apply IZR_le in H0. pose proof (bpow_pos a). nra.
Qed.

Lemma bpow_lt a b : a < b -> (bpow a < bpow b)%R.
Proof.
  intros H. apply Rlt_le_trans with (bpow (a + 1)).
  - rewrite bpow_succ. pose proof (bpow_pos a). lra.
  - apply bpow_le. lia.
Qed.

Lemma bpow_lt_inv a b : (bpow a < bpow b)%R -> a < b.
Proof.
  intros H. destruct (Z_lt_le_dec a b) as [|Hle]; [assumption|].
  apply bpow_le in Hle. lra.
Qed.

(** ** The number of binary digits *)

Lemma digits2_pos_bounds p :
  2 ^ (Zpos (digits2_pos p) - 1) <= Zpos p < 2 ^ Zpos (digits2_pos p).
Proof.
  induction p as [p IH|p IH|]; simpl digits2_pos.
  - rewrite Pos2Z.inj_succ.
    replace (Z.succ (Zpos (digits2_pos p)) - 1) with (Z.succ (Zpos (digits2_pos p) - 1)) by lia.
    rewrite !Z.pow_succ_r by lia. lia.
  - rewrite Pos2Z.inj_succ.
    replace (Z.succ (Zpos (digits2_pos p)) - 1) with (Z.succ (Zpos (digits2_pos p) - 1)) by lia.
    rewrite !Z.pow_succ_r by lia. lia.
  - simpl. lia.
Qed.

(** ** Right shifts that keep the round and sticky bits *)

Lemma rec_code_of_loc m l : rec_code (shr_record_of_loc m l) = 4 * m + loc_code l.
Proof. destruct l as [|[]]; unfold rec_code; simpl; lia. Qed.

Lemma quarters v : exists m c, v = 4 * m + c /\ (c = 0 \/ c = 1 \/ c = 2 \/ c = 3).
Proof.
  exists (v / 4), (v mod 4). pose proof (Z.div_mod v 4). pose proof (Z.mod_pos_bound v 4). lia.
Qed.

Lemma sshr_quarters m c :
  0 <= c < 4 -> sshr (4 * m + c) = 2 * m + (if c =? 0 then 0 else 1).
Proof.
  intros Hc. unfold sshr.
  replace ((4 * m + c) / 4) with m by (apply Z.div_unique with c; lia).
  replace ((4 * m + c) mod 4) with c by (apply Z.mod_unique with m; lia).
  reflexivity.
Qed.

(** [shr_1] is the sticky shift of the code and halves the mantissa. *)
Lemma shr_1_code mrs :
  0 <= shr_m mrs ->
  rec_code (shr_1 mrs) = sshr (rec_code mrs) /\ shr_m (shr_1 mrs) = shr_m mrs / 2.
Proof.
  destruct mrs as [m r s]. simpl. intros Hm.
  assert (Hc : 0 <= (if r then 2 else 0) + (if s then 1 else 0) < 4)
    by (destruct r, s; lia).
  unfold rec_code at 2. cbn [shr_m shr_r shr_s].
  rewrite <- Z.add_assoc, sshr_quarters by assumption.
  destruct m as [|[p|p|]|p]; try lia; destruct r, s; unfold rec_code; cbn;
    split; try reflexivity; try lia;
    try (apply Z.div_unique with 1; lia);
    try (apply Z.div_unique with 0; lia).
Qed.

(** A sticky shift codes the same real one exponent higher. *)
Lemma coded_sshr x v e : coded x v e -> coded x (sshr v) (e + 1).
Proof.
  destruct (quarters v) as (m & c & -> & Hc).
  rewrite sshr_quarters by lia.
  unfold coded.
  replace (e + 1 - 2) with (e - 2 + 1) by lia. rewrite bpow_succ.
  pose proof (bpow_pos (e - 2)) as HB. set (B := bpow (e - 2)) in *.
  assert (Hm2 : Z.even (2 * m) = true) by (rewrite Z.even_mul; reflexivity).
  assert (Hm4 : Z.even (4 * m) = true) by (rewrite Z.even_mul; reflexivity).
  destruct Hc as [-> | [-> | [-> | ->]]]; cbn [Z.eqb];
    rewrite !Z.even_add, ?Hm2, ?Hm4; cbn [Z.even Bool.eqb];
    push_IZR;
    intros H; nra.
Qed.

Lemma iter_pos_shr_1 (p : positive) : forall mrs x e,
  0 <= shr_m mrs -> coded x (rec_code mrs) e ->
  let mrs' := SpecFloat.iter_pos shr_1 p mrs in
  coded x (rec_code mrs') (e + Zpos p) /\ 0 <= shr_m mrs'
  /\ shr_m mrs' = shr_m mrs / 2 ^ Zpos p.
Proof.
  assert (step : forall mrs x e, 0 <= shr_m mrs -> coded x (rec_code mrs) e ->
            coded x (rec_code (shr_1 mrs)) (e + 1) /\ 0 <= shr_m (shr_1 mrs)
            /\ shr_m (shr_1 mrs) = shr_m mrs / 2).
  { intros mrs x e Hm Hx. destruct (shr_1_code mrs Hm) as [Hc Hd].
    rewrite Hc, Hd. repeat split; [apply coded_sshr; assumption|].
    apply Z.div_pos; lia. }
  induction p as [p IH|p IH|]; intros mrs x e Hm Hx; cbn [SpecFloat.iter_pos].
  - destruct (step mrs x e Hm Hx) as (H1 & H2 & H3).
    destruct (IH _ _ _ H2 H1) as (H4 & H5 & H6).
    destruct (IH _ _ _ H5 H4) as (H7 & H8 & H9).
    cbv zeta. repeat split; [|assumption|].
    + replace (e + Zpos p~1) with (e + 1 + Zpos p + Zpos p) by lia. assumption.
    + rewrite H9, H6, H3.
      rewrite !Z.div_div by (try lia; apply Z.pow_pos_nonneg; lia).
      f_equal. rewrite <- Z.pow_add_r by lia.
      replace (Zpos p~1) with (Z.succ (Zpos p + Zpos p)) by lia.
      rewrite Z.pow_succ_r by lia. reflexivity.
  - destruct (IH _ _ _ Hm Hx) as (H4 & H5 & H6).
    destruct (IH _ _ _ H5 H4) as (H7 & H8 & H9).
    cbv zeta. repeat split; [|assumption|].
    + replace (e + Zpos p~0) with (e + Zpos p + Zpos p) by lia. assumption.
    + rewrite H9, H6.
      rewrite !Z.div_div by (try lia; apply Z.pow_pos_nonneg; lia).
      f_equal. rewrite <- Z.pow_add_r by lia. f_equal. lia.
  - destruct (step mrs x e Hm Hx) as (H1 & H2 & H3). cbv zeta.
    repeat split; assumption.
Qed.

(** ** The first shift of [binary_round_aux] reaches the binary64 exponent *)

Lemma fexp_eq e : fexp 53 1024 e = Z.max (e - 53) (-1074).
Proof. reflexivity. Qed.

Lemma Zdigits2_bounds m :
  0 < m -> 2 ^ (Zdigits2 m - 1) <= m < 2 ^ Zdigits2 m.
Proof. destruct m as [|p|p]; try lia. intros _. apply digits2_pos_bounds. Qed.

Lemma Zdigits2_pos m : 0 < m -> 0 < Zdigits2 m.
Proof. destruct m; simpl; lia. Qed.

Lemma Zdigits2_unique m d :
  0 < d -> 2 ^ (d - 1) <= m < 2 ^ d -> Zdigits2 m = d.
Proof.
  intros Hd Hm.
  assert (0 < m) by (assert (0 < 2 ^ (d - 1)) by (apply Z.pow_pos_nonneg; lia); lia).
  pose proof (Zdigits2_bounds m H) as Hb. pose proof (Zdigits2_pos m H) as Hp.
  destruct (Z.lt_trichotomy (Zdigits2 m) d) as [Hlt | [Heq | Hgt]]; [|assumption|].
  - assert (2 ^ Zdigits2 m <= 2 ^ (d - 1)) by (apply Z.pow_le_mono_r; lia). lia.
  - assert (2 ^ d <= 2 ^ (Zdigits2 m - 1)) by (apply Z.pow_le_mono_r; lia). lia.
Qed.

Lemma coded_bounds x m c e :
  0 <= c < 4 -> coded x (4 * m + c) e ->
  (IZR m * bpow e <= x < IZR (m + 1) * bpow e)%R.
Proof.
  intros Hc. unfold coded.
  replace (bpow e) with (4 * bpow (e - 2))%R
    by (replace e with (e - 2 + 1 + 1) at 2 by lia; rewrite !bpow_succ; lra).
  pose proof (bpow_pos (e - 2)) as HB. set (B := bpow (e - 2)) in *.
  assert (Hm4 : Z.even (4 * m) = true) by (rewrite Z.even_mul; reflexivity).
  assert (Hcs : c = 0 \/ c = 1 \/ c = 2 \/ c = 3) by lia.
  destruct Hcs as [-> | [-> | [-> | ->]]];
    rewrite !Z.even_add, ?Hm4; cbn [Z.even Bool.eqb];
    push_IZR;
    intros H; nra.
Qed.

Lemma loc_code_range l : 0 <= loc_code l < 4.
Proof. destruct l as [|[]]; simpl; lia. Qed.

(** From a code at an exponent that is fine enough, [shr_fexp] produces the
    code of the same real at its binary64 exponent. *)
Lemma shr_fexp_spec m e l x :
  0 <= m -> coded x (4 * m + loc_code l) e ->
  e <= fexp 53 1024 (Zdigits2 m + e) ->
  coded x (rec_code (fst (shr_fexp 53 1024 m e l))) (snd (shr_fexp 53 1024 m e l))
  /\ 0 <= shr_m (fst (shr_fexp 53 1024 m e l))
  /\ cexp_of x (snd (shr_fexp 53 1024 m e l)).
Proof.
  intros Hm Hx He.
  assert (Hc : cexp_of x (fexp 53 1024 (Zdigits2 m + e))).
  { pose proof (coded_bounds x m _ e (loc_code_range l) Hx) as Hb.
    rewrite fexp_eq in *. unfold cexp_of.
    destruct (Z.eq_dec m 0) as [-> | Hm0].
    - cbn [Zdigits2] in *. cbn [Z.add] in He |- *.
      assert (e <= -1074) by lia.
      replace (Z.max (e - 53) (-1074)) with (-1074) by lia.
      split; [lia|]. split; [|lia].
      apply Rlt_le_trans with (bpow e); [cbn in Hb; lra|apply bpow_le; lia].
    - assert (Hpos : 0 < m) by lia.
      pose proof (Zdigits2_bounds m Hpos) as Hd. pose proof (Zdigits2_pos m Hpos) as Hp.
      set (d := Zdigits2 m) in *.
      assert (H1 : (bpow (d - 1) <= IZR m)%R)
        by (rewrite bpow_IZR by lia; apply IZR_le; lia).
      assert (H2 : (IZR (m + 1) <= bpow d)%R)
        by (rewrite bpow_IZR by lia; apply IZR_le; lia).
      pose proof (bpow_pos e) as HB.
      assert (H3 : (bpow (d - 1 + e) <= x)%R) by (rewrite bpow_add; nra).
      assert (H4 : (x < bpow (d + e))%R) by (rewrite bpow_add; nra).
      split; [lia|]. split.
      + apply Rlt_le_trans with (1 := H4). apply bpow_le. lia.
      + intros Hgt. apply Rle_trans with (2 := H3). apply bpow_le. lia. }
  unfold shr_fexp, shr.
  remember (fexp 53 1024 (Zdigits2 m + e)) as c eqn:Ec.
  destruct (c - e) as [|p|p] eqn:En; cbn [fst snd].
  - replace e with c by lia. rewrite rec_code_of_loc.
    split; [replace c with e by lia; assumption|].
    split; [destruct l as [|[]]; assumption|assumption].
  - assert (Hm' : 0 <= shr_m (shr_record_of_loc m l)) by (destruct l as [|[]]; assumption).
    assert (Hx' : coded x (rec_code (shr_record_of_loc m l)) e)
      by (rewrite rec_code_of_loc; assumption).
    destruct (iter_pos_shr_1 p _ x e Hm' Hx') as (H1 & H2 & _).
    replace (e + Zpos p) with c in * by lia.
    split; [assumption|]. split; assumption.
  - lia.
Qed.

(** ** Rounding the code to the nearest even mantissa *)

Lemma rne_quarters m c :
  0 <= c < 4 ->
  rne (4 * m + c) =
  if c <=? 1 then m else if c =? 2 then (if Z.even m then m else m + 1) else m + 1.
Proof.
  intros Hc. unfold rne.
  replace ((4 * m + c) / 4) with m by (apply Z.div_unique with c; lia).
  replace ((4 * m + c) mod 4) with c by (apply Z.mod_unique with m; lia).
  assert (Hm4 : Z.even (4 * m) = true) by (rewrite Z.even_mul; reflexivity).
  assert (Hcs : c = 0 \/ c = 1 \/ c = 2 \/ c = 3) by lia.
  destruct Hcs as [-> | [-> | [-> | ->]]];
    rewrite <- Z.negb_even, Z.even_add, Hm4; reflexivity.
Qed.

Lemma rne_rec mrs :
  round_nearest_even (shr_m mrs) (loc_of_shr_record mrs) = rne (rec_code mrs).
Proof.
  destruct mrs as [m r s]. unfold rec_code. cbn [shr_m shr_r shr_s].
  rewrite <- Z.add_assoc, rne_quarters by (destruct r, s; lia).
  destruct r, s; reflexivity.
Qed.

Lemma rne_range m c : 0 <= c < 4 -> m <= rne (4 * m + c) <= m + 1.
Proof.
  intros Hc. rewrite rne_quarters by assumption.
  destruct (c <=? 1); [lia|]. destruct (c =? 2); [|lia]. destruct (Z.even m); lia.
Qed.

Lemma rne_mono v w : v <= w -> rne v <= rne w.
Proof.
  destruct (quarters v) as (m & c & -> & Hc).
  destruct (quarters w) as (m' & c' & -> & Hc'). intros H.
  destruct (Z.eq_dec m m') as [<- | Hne].
  - rewrite !rne_quarters by lia.
    destruct Hc as [-> | [-> | [-> | ->]]], Hc' as [-> | [-> | [-> | ->]]];
      try lia; cbn; destruct (Z.even m); lia.
  - pose proof (rne_range m c ltac:(lia)). pose proof (rne_range m' c' ltac:(lia)). lia.
Qed.

Lemma rne_exact m : rne (4 * m) = m.
Proof. replace (4 * m) with (4 * m + 0) by lia. rewrite rne_quarters by lia. reflexivity. Qed.

(** At one exponent the code is monotone in the real. *)
Lemma coded_mono x y v w e : coded x v e -> coded y w e -> (x <= y)%R -> v <= w.
Proof.
  unfold coded. pose proof (bpow_pos (e - 2)) as HB. set (B := bpow (e - 2)) in *.
  intros Hx Hy Hxy.
  destruct (Z_le_gt_dec v w) as [|Hgt]; [assumption|exfalso].
  destruct (Z.even v) eqn:Ev, (Z.even w) eqn:Ew.
  - subst x y. assert (IZR w + 1 <= IZR v)%R by (rewrite <- plus_IZR; apply IZR_le; lia). nra.
  - subst x. assert (IZR (w + 1) <= IZR v)%R by (apply IZR_le; lia). nra.
  - subst y. assert (IZR w <= IZR (v - 1))%R by (apply IZR_le; lia). nra.
  - assert (w + 2 <= v).
    { assert (v <> w + 1); [|lia]. intros ->.
      rewrite Z.even_add, Ew in Ev. discriminate. }
    assert (IZR (w + 1) <= IZR (v - 1))%R by (apply IZR_le; lia). nra.
Qed.

Lemma coded_exact m e : coded (IZR m * bpow e) (4 * m) e.
Proof.
  unfold coded. rewrite Z.even_mul. cbn [Z.even orb].
  replace e with (e - 2 + 1 + 1) at 1 by lia. rewrite !bpow_succ, mult_IZR. lra.
Qed.

(** The rounded mantissa has at most 53 bits, or is 2^53, and is normal
    above the least exponent. *)
Lemma rounded_canon x v e :
  (0 <= x)%R -> coded x v e -> cexp_of x e ->
  0 <= rne v <= 2 ^ 53 /\ (-1074 < e -> 2 ^ 52 <= rne v).
Proof.
  intros Hx Hv (He & Hlt & Hge).
  assert (H0 : 0 <= v).
  { apply (coded_mono 0 x (4 * 0) v e); [|assumption|assumption].
    replace 0%R with (IZR 0 * bpow e)%R at 1 by lra. apply coded_exact. }
  assert (H1 : v <= 4 * 2 ^ 53).
  { apply (coded_mono x (bpow (e + 53)) v _ e); [assumption| |lra].
    rewrite bpow_add, (bpow_IZR 53), Rmult_comm by lia. apply coded_exact. }
  split.
  - split; [rewrite <- (rne_exact 0)|rewrite <- (rne_exact (2 ^ 53))];
      apply rne_mono; lia.
  - intros Hgt. specialize (Hge Hgt). rewrite <- (rne_exact (2 ^ 52)).
    apply rne_mono.
    apply (coded_mono (bpow (e + 52)) x _ v e); [|assumption|assumption].
    rewrite bpow_add, (bpow_IZR 52), Rmult_comm by lia. apply coded_exact.
Qed.

Lemma Zdigits2_le_53 a : 0 < a < 2 ^ 53 -> Zdigits2 a <= 53.
Proof.
  intros Ha. pose proof (Zdigits2_bounds a ltac:(lia)) as Hb.
  destruct (Z_le_gt_dec (Zdigits2 a) 53) as [|Hgt]; [assumption|exfalso].
  assert (2 ^ 53 <= 2 ^ (Zdigits2 a - 1)) by (apply Z.pow_le_mono_r; lia). lia.
Qed.

(** The second shift only renormalises a mantissa that rounded up to 2^53. *)
Lemma finish_eq s a e :
  -1074 <= e -> 0 <= a <= 2 ^ 53 ->
  finish s a e = if a =? 2 ^ 53 then mk s (2 ^ 52) (e + 1) else mk s a e.
Proof.
  intros He Ha. unfold finish, shr_fexp.
  destruct (Z.eqb_spec a (2 ^ 53)) as [-> | Hne].
  - change (Zdigits2 (2 ^ 53)) with 54. rewrite fexp_eq.
    replace (Z.max (54 + e - 53) (-1074) - e) with 1 by lia.
    cbn -[Z.leb Z.add]. reflexivity.
  - assert (Hn : Z.max (Zdigits2 a + e - 53) (-1074) - e <= 0).
    { destruct (Z.eq_dec a 0) as [-> | Hz]; [cbn [Zdigits2]; lia|].
      pose proof (Zdigits2_le_53 a ltac:(lia)). lia. }
    rewrite fexp_eq. unfold shr.
    destruct (Z.max (Zdigits2 a + e - 53) (-1074) - e) as [|p|p]; try lia;
      cbn [shr_record_of_loc shr_m]; reflexivity.
Qed.

(** [binary_round_aux] rounds the real it is given the location of. *)
Lemma binary_round_aux_spec m e l x :
  0 <= m -> coded x (4 * m + loc_code l) e ->
  e <= fexp 53 1024 (Zdigits2 m + e) ->
  rounds_to x (binary_round_aux 53 1024 false m e l).
Proof.
  intros Hm Hx He.
  destruct (shr_fexp_spec m e l x Hm Hx He) as (H1 & H2 & H3).
  unfold binary_round_aux.
  destruct (shr_fexp 53 1024 m e l) as [mrs' e'] eqn:E1. cbn [fst snd] in *.
  exists (rec_code mrs'), e'. split; [assumption|]. split; [assumption|].
  rewrite rne_rec. reflexivity.
Qed.

(** Two roundings of ordered non-negative reals, in normal form. *)
Lemma rounds_to_order x y f g :
  (0 <= x <= y)%R -> rounds_to x f -> rounds_to y g ->
  exists a e b e',
    f = mk false a e /\ g = mk false b e' /\ canon a e /\ canon b e'
    /\ (e < e' \/ (e = e' /\ a <= b)).
Proof.
  intros [Hx Hxy] (v & e1 & Hv & Hc1 & ->) (w & e2 & Hw & Hc2 & ->).
  assert (Hy : (0 <= y)%R) by lra.
  destruct (rounded_canon x v e1 Hx Hv Hc1) as (Ha & Ha').
  destruct (rounded_canon y w e2 Hy Hw Hc2) as (Hb & Hb').
  assert (Hle : e1 <= e2).
  { destruct Hc1 as (He1 & _ & Hge1), Hc2 as (He2 & Hlt2 & _).
    destruct (Z_le_gt_dec e1 e2) as [|Hgt]; [assumption|exfalso].
    assert (bpow (e1 + 52) < bpow (e2 + 53))%R by (specialize (Hge1 ltac:(lia)); lra).
    apply bpow_lt_inv in H. lia. }
  assert (Hab : e1 = e2 -> rne v <= rne w).
  { intros <-. apply rne_mono. apply (coded_mono x y v w e1); assumption. }
  destruct Hc1 as (He1 & _), Hc2 as (He2 & _).
  rewrite !finish_eq by assumption.
  change (2 ^ 53) with 9007199254740992 in *. change (2 ^ 52) with 4503599627370496 in *.
  unfold canon. change (2 ^ 53) with 9007199254740992. change (2 ^ 52) with 4503599627370496.
  destruct (Z.eqb_spec (rne v) 9007199254740992) as [Ea | Ea],
           (Z.eqb_spec (rne w) 9007199254740992) as [Eb | Eb].
  - exists 4503599627370496, (e1 + 1), 4503599627370496, (e2 + 1). repeat split; lia.
  - exists 4503599627370496, (e1 + 1), (rne w), e2. repeat split; lia.
  - exists (rne v), e1, 4503599627370496, (e2 + 1). repeat split; lia.
  - exists (rne v), e1, (rne w), e2. repeat split; lia.
Qed.

(** ** Order of the results *)

Lemma mk_le a e b e' :
  canon a e -> canon b e' -> (e < e' \/ (e = e' /\ a <= b)) ->
  SFleb (mk false a e) (mk false b e') = true.
Proof.
  unfold canon. change (2 ^ 53) with 9007199254740992. change (2 ^ 52) with 4503599627370496.
  intros (Ha & He & Ha') (Hb & He' & Hb') Hord.
  destruct a as [|pa|pa], b as [|pb|pb]; try lia; unfold mk.
  - reflexivity.
  - destruct (e' <=? 971); reflexivity.
  - destruct (Z.leb_spec e 971), (Z.leb_spec e' 971); try reflexivity; try lia.
    unfold SFleb, SFcompare.
    destruct (Z.compare_spec e e') as [Heq | Hlt | Hgt]; try reflexivity; try lia.
    change (Pos.compare_cont Eq pa pb) with (Pos.compare pa pb).
    destruct (Pos.compare_spec pa pb); try reflexivity; lia.
Qed.

Lemma mk_val_le a e b e' :
  canon a e -> canon b e' -> (e < e' \/ (e = e' /\ a <= b)) ->
  (IZR a * bpow e <= IZR b * bpow e')%R.
Proof.
  unfold canon. intros (Ha & He & Ha') (Hb & He' & Hb') [Hlt | [<- Hab]].
  - specialize (Hb' ltac:(lia)).
    assert (H1 : (IZR a <= IZR (2 ^ 53))%R) by (apply IZR_le; lia).
    assert (H2 : (IZR (2 ^ 52) <= IZR b)%R) by (apply IZR_le; lia).
    assert (H3 : (bpow (e + 53) <= bpow (e' + 52))%R) by (apply bpow_le; lia).
    rewrite !bpow_add, (bpow_IZR 53), (bpow_IZR 52) in H3 by lia.
    pose proof (bpow_pos e). pose proof (bpow_pos e').
    assert (0 <= IZR a)%R by (apply IZR_le; lia).
    apply Rle_trans with (bpow e * IZR (2 ^ 53))%R; [nra|].
    apply Rle_trans with (1 := H3). nra.
  - apply Rmult_le_compat_r; [pose proof (bpow_pos e); lra|apply IZR_le; lia].
Qed.

Lemma mk_finite a e s m x :
  mk false a e = S754_finite s m x -> s = false /\ a = Zpos m /\ x = e.
Proof.
  destruct a as [|p|p]; cbn; try discriminate.
  destruct (e <=? 971); [|discriminate]. intros [= <- <- <-]. auto.
Qed.

(** Rounding is monotone: as a comparison of floats ... *)
Lemma rounds_to_le x y f g :
  (0 <= x <= y)%R -> rounds_to x f -> rounds_to y g -> SFleb f g = true.
Proof.
  intros Hxy Hf Hg.
  destruct (rounds_to_order x y f g Hxy Hf Hg) as (a & e & b & e' & -> & -> & Ha & Hb & Ho).
  apply mk_le; assumption.
Qed.

(** ... and as a comparison of the values of finite results. *)
Lemma rounds_to_val_le x y s m e s' m' e' :
  (0 <= x <= y)%R ->
  rounds_to x (S754_finite s m e) -> rounds_to y (S754_finite s' m' e') ->
  s = false /\ s' = false /\ (IZR (Zpos m) * bpow e <= IZR (Zpos m') * bpow e')%R.
Proof.
  intros Hxy Hf Hg.
  destruct (rounds_to_order x y _ _ Hxy Hf Hg) as (a & c & b & c' & Ef & Eg & Ha & Hb & Ho).
  symmetry in Ef, Eg.
  apply mk_finite in Ef, Eg. destruct Ef as (-> & -> & ->), Eg as (-> & -> & ->).
  repeat split. apply mk_val_le; assumption.
Qed.

(** The result of rounding a non-negative real is +0, positive finite or
    +Infinity; it is not +0 from 2^-1074 on. *)
Lemma rounds_to_shape x f :
  (0 <= x)%R -> rounds_to x f ->
  f = S754_zero false \/ (exists m e, f = S754_finite false m e) \/ f = S754_infinity false.
Proof.
  intros Hx (v & e & Hv & Hc & ->).
  destruct (rounded_canon x v e Hx Hv Hc) as (Ha & _).
  destruct Hc as (He & _). rewrite finish_eq by assumption.
  destruct (rne v =? 2 ^ 53).
  - cbn. destruct (e + 1 <=? 971); eauto.
  - unfold mk. destruct (rne v) as [|p|p]; try lia; [auto|].
    destruct (e <=? 971); eauto.
Qed.

Lemma rounds_to_pos x f :
  (bpow (-1074) <= x)%R -> rounds_to x f ->
  (exists m e, f = S754_finite false m e) \/ f = S754_infinity false.
Proof.
  intros Hx Hf.
  assert (H0 : (0 <= x)%R) by (pose proof (bpow_pos (-1074)); lra).
  destruct (rounds_to_shape x f H0 Hf) as [-> | H]; [exfalso|assumption].
  destruct Hf as (v & e & Hv & Hc & Hf).
  destruct (rounded_canon x v e H0 Hv Hc) as (Ha & Ha').
  assert (He := Hc). destruct He as (He & _).
  rewrite finish_eq in Hf by assumption.
  destruct (rne v =? 2 ^ 53);
    [cbn in Hf; destruct (e + 1 <=? 971); discriminate|].
  unfold mk in Hf. destruct (rne v) as [|p|p] eqn:Er; try lia.
  - (* a zero mantissa: [x] is at most half the least subnormal *)
    destruct (Z.eq_dec e (-1074)) as [-> | Hne]; [|specialize (Ha' ltac:(lia)); lia].
    assert (Hv4 : 4 <= v).
    { apply (coded_mono (bpow (-1074)) x (4 * 1) v (-1074)); [|assumption|assumption].
      replace (bpow (-1074)) with (IZR 1 * bpow (-1074))%R at 1 by lra. apply coded_exact. }
    apply rne_mono in Hv4. change 4 with (4 * 1) in Hv4 at 1. rewrite rne_exact in Hv4. lia.
  - destruct (e <=? 971); discriminate.
Qed.

(** ** [binary_round], the conversion of an integer mantissa *)

Lemma Pos_iter_xO p d : Zpos (Pos.iter xO p d) = Zpos p * 2 ^ Zpos d.
Proof.
  induction d as [|d IH] using Pos.peano_ind.
  - cbn. lia.
  - rewrite Pos.iter_succ, Pos2Z.inj_succ, Z.pow_succ_r by lia.
    rewrite Pos2Z.inj_xO, IH. lia.
Qed.

Lemma Zdigits2_shift m k : 0 < m -> 0 <= k -> Zdigits2 (m * 2 ^ k) = Zdigits2 m + k.
Proof.
  intros Hm Hk. pose proof (Zdigits2_bounds m Hm). pose proof (Zdigits2_pos m Hm).
  assert (0 < 2 ^ k) by (apply Z.pow_pos_nonneg; lia).
  apply Zdigits2_unique; [lia|].
  replace (Zdigits2 m + k - 1) with (Zdigits2 m - 1 + k) by lia.
  rewrite !Z.pow_add_r by lia. nia.
Qed.

(** [binary_round] rounds the value of its mantissa and exponent. *)
Lemma binary_round_spec p e :
  rounds_to (IZR (Zpos p) * bpow e) (binary_round 53 1024 false p e).
Proof.
  unfold binary_round, shl_align.
  set (c := fexp 53 1024 (Zpos (digits2_pos p) + e)).
  destruct (c - e) as [|d|d] eqn:Ed.
  - apply (binary_round_aux_spec (Zpos p) e loc_Exact).
    + lia.
    + cbn [loc_code]. rewrite Z.add_0_r. apply coded_exact.
    + cbn [Zdigits2]. fold c. lia.
  - apply (binary_round_aux_spec (Zpos p) e loc_Exact).
    + lia.
    + cbn [loc_code]. rewrite Z.add_0_r. apply coded_exact.
    + cbn [Zdigits2]. fold c. lia.
  - assert (Hv : (IZR (Zpos p) * bpow e = IZR (Zpos (Pos.iter xO p d)) * bpow c)%R).
    { rewrite Pos_iter_xO, mult_IZR, <- bpow_IZR by lia.
      rewrite Rmult_assoc, <- bpow_add. f_equal. f_equal. lia. }
    rewrite Hv.
    apply (binary_round_aux_spec (Zpos (Pos.iter xO p d)) c loc_Exact).
    + lia.
    + cbn [loc_code]. rewrite Z.add_0_r. apply coded_exact.
    + rewrite Pos_iter_xO, Zdigits2_shift by lia. cbn [Zdigits2].
      replace (Zpos (digits2_pos p) + Zpos d + c) with (Zpos (digits2_pos p) + e) by lia.
      fold c. lia.
Qed.

(** ** Division of finite numbers *)

(** The location of a remainder [r] of a division by [m2]. *)
Lemma new_location_code m2 r :
  0 < m2 -> 0 <= r < m2 ->
  loc_code (new_location m2 r) =
  if r =? 0 then 0 else match 2 * r ?= m2 with Lt => 1 | Eq => 2 | Gt => 3 end.
Proof.
  intros Hm Hr. unfold new_location, new_location_even, new_location_odd.
  destruct (Z.even m2) eqn:Ev; destruct (r =? 0); try reflexivity.
  destruct (Z.compare_spec (2 * r + 1) m2), (Z.compare_spec (2 * r) m2);
    try reflexivity; try lia.
  subst m2. rewrite Z.even_mul in Ev. discriminate.
Qed.

Lemma div_located q r m2 e x :
  0 < m2 -> 0 <= r < m2 ->
  x = ((IZR q + IZR r / IZR m2) * bpow e)%R ->
  coded x (4 * q + (if r =? 0 then 0
                    else match 2 * r ?= m2 with Lt => 1 | Eq => 2 | Gt => 3 end)) e.
Proof.
  intros Hm Hr ->.
  assert (HM : (0 < IZR m2)%R) by (apply IZR_lt; lia).
  set (rho := (IZR r / IZR m2)%R).
  assert (Hrho : (rho * IZR m2 = IZR r)%R) by (unfold rho; field; lra).
  unfold coded.
  replace (bpow e) with (4 * bpow (e - 2))%R
    by (replace e with (e - 2 + 1 + 1) at 2 by lia; rewrite !bpow_succ; lra).
  pose proof (bpow_pos (e - 2)) as HB. set (B := bpow (e - 2)) in *.
  assert (Hq4 : Z.even (4 * q) = true) by (rewrite Z.even_mul; reflexivity).
  destruct (Z.eqb_spec r 0) as [-> | Hr0].
  - rewrite Z.add_0_r, Hq4, mult_IZR. nra.
  - assert (0 < IZR r)%R by (apply IZR_lt; lia).
    assert (IZR r < IZR m2)%R by (apply IZR_lt; lia).
    assert (0 < rho)%R by nra. assert (rho < 1)%R by nra.
    destruct (Z.compare_spec (2 * r) m2) as [Heq | Hlt | Hgt];
      rewrite Z.even_add, Hq4; cbn [Z.even Bool.eqb];
      push_IZR.
    + assert (2 * IZR r = IZR m2)%R by (rewrite <- Heq, mult_IZR; reflexivity).
      assert (2 * rho = 1)%R by nra. nra.
    + assert (2 * IZR r < IZR m2)%R by (rewrite <- mult_IZR; apply IZR_lt; assumption).
      assert (2 * rho < 1)%R by nra. nra.
    + assert (IZR m2 < 2 * IZR r)%R by (rewrite <- mult_IZR; apply IZR_lt; lia).
      assert (1 < 2 * rho)%R by nra. nra.
Qed.

(** The integer quotient computed by [SFdiv_core_binary] locates the real
    quotient, at an exponent fine enough for the rounding. *)
Lemma SFdiv_core_binary_spec m1 e1 m2 e2 :
  0 < m1 -> 0 < m2 ->
  let '(q, e', l) := SFdiv_core_binary 53 1024 m1 e1 m2 e2 in
  0 <= q
  /\ coded (IZR m1 * bpow e1 / (IZR m2 * bpow e2)) (4 * q + loc_code l) e'
  /\ e' <= fexp 53 1024 (Zdigits2 q + e').
Proof.
  intros H1 H2. unfold SFdiv_core_binary.
  set (D := Zdigits2 m1 + e1 - (Zdigits2 m2 + e2)).
  set (e' := Z.min (fexp 53 1024 D) (e1 - e2)).
  set (s := e1 - e2 - e').
  assert (Hs : 0 <= s) by (unfold s, e'; lia).
  set (m' := match s with Zpos _ => Z.shiftl m1 s | Z0 => m1 | Zneg _ => 0 end).
  assert (Hm' : m' = m1 * 2 ^ s).
  { unfold m'. destruct s as [|p|p] eqn:Es; [lia| |lia].
    apply Z.shiftl_mul_pow2. lia. }
  pose proof (Z_div_mod m' m2 ltac:(lia)) as Hdiv.
  destruct (Z.div_eucl m' m2) as [q r]. destruct Hdiv as [Hqr Hr].
  assert (HP : 0 < 2 ^ s) by (apply Z.pow_pos_nonneg; lia).
  assert (Hq : 0 <= q) by nia.
  set (X := (IZR m1 * bpow e1 / (IZR m2 * bpow e2))%R).
  assert (HM1 : (0 < IZR m1)%R) by (apply IZR_lt; lia).
  assert (HM2 : (0 < IZR m2)%R) by (apply IZR_lt; lia).
  pose proof (bpow_pos e1) as HB1. pose proof (bpow_pos e2) as HB2.
  pose proof (bpow_pos e') as HB'.
  assert (HX : X = ((IZR q + IZR r / IZR m2) * bpow e')%R).
  { unfold X. replace e1 with (s + e' + e2) at 1 by (unfold s; lia).
    rewrite !bpow_add, (bpow_IZR s) by assumption.
    assert (E : (IZR m1 * IZR (2 ^ s) = IZR m2 * IZR q + IZR r)%R)
      by (rewrite <- !mult_IZR, <- plus_IZR; f_equal; lia).
    transitivity ((IZR m1 * IZR (2 ^ s)) / IZR m2 * bpow e')%R; [field; lra|].
    rewrite E. field. lra. }
  split; [assumption|]. split.
  - rewrite new_location_code by lia. apply div_located; assumption.
  - pose proof (Zdigits2_bounds m1 H1) as Hd1. pose proof (Zdigits2_pos m1 H1) as Hp1.
    pose proof (Zdigits2_bounds m2 H2) as Hd2. pose proof (Zdigits2_pos m2 H2) as Hp2.
    assert (HXlow : (bpow (D - 1) < X)%R).
    { assert (A1 : (bpow (Zdigits2 m1 - 1) <= IZR m1)%R)
        by (rewrite bpow_IZR by lia; apply IZR_le; lia).
      assert (A2 : (IZR m2 < bpow (Zdigits2 m2))%R)
        by (rewrite bpow_IZR by lia; apply IZR_lt; lia).
      assert (A3 : (X * (IZR m2 * bpow e2) = IZR m1 * bpow e1)%R)
        by (unfold X; field; lra).
      assert (A4 : (bpow (D - 1) * (bpow (Zdigits2 m2) * bpow e2)
                    = bpow (Zdigits2 m1 - 1) * bpow e1)%R).
      { rewrite <- !bpow_add. f_equal. unfold D. lia. }
      pose proof (bpow_pos (D - 1)). pose proof (bpow_pos (Zdigits2 m2)).
      pose proof (bpow_pos (Zdigits2 m1 - 1)).
      assert (A5 : (bpow (D - 1) * (IZR m2 * bpow e2) < X * (IZR m2 * bpow e2))%R).
      { rewrite A3.
        apply Rlt_le_trans with (bpow (D - 1) * (bpow (Zdigits2 m2) * bpow e2))%R.
        - apply Rmult_lt_compat_l; [assumption|]. apply Rmult_lt_compat_r; assumption.
        - rewrite A4. apply Rmult_le_compat_r; lra. }
      apply Rmult_lt_reg_r with (2 := A5). nra. }
    assert (HXup : (X < IZR (q + 1) * bpow e')%R).
    { rewrite HX, plus_IZR.
      assert (IZR r / IZR m2 < 1)%R.
      { apply Rmult_lt_reg_r with (IZR m2); [assumption|].
        replace (IZR r / IZR m2 * IZR m2)%R with (IZR r) by (field; lra).
        rewrite Rmult_1_l. apply IZR_lt; lia. }
      nra. }
    assert (He' : e' <= fexp 53 1024 D) by (unfold e'; lia).
    rewrite fexp_eq in *.
    destruct (Z.eq_dec q 0) as [-> | Hq0].
    + cbn [Zdigits2]. rewrite Rmult_1_l in HXup.
      assert (D - 1 < e') by (apply bpow_lt_inv; lra). lia.
    + pose proof (Zdigits2_bounds q ltac:(lia)) as Hdq.
      pose proof (Zdigits2_pos q ltac:(lia)) as Hpq.
      assert (IZR (q + 1) <= bpow (Zdigits2 q))%R
        by (rewrite bpow_IZR by lia; apply IZR_le; lia).
      assert (X < bpow (Zdigits2 q + e'))%R by (rewrite bpow_add; nra).
      assert (D - 1 < Zdigits2 q + e') by (apply bpow_lt_inv; lra). lia.
Qed.

(** The quotient of two positive finite numbers is the rounding of the
    quotient of their values. *)
Lemma SFdiv_finite_spec mx ex my ey :
  rounds_to (IZR (Zpos mx) * bpow ex / (IZR (Zpos my) * bpow ey))
    (SFdiv 53 1024 (S754_finite false mx ex) (S754_finite false my ey)).
Proof.
  cbn [SFdiv xorb].
  pose proof (SFdiv_core_binary_spec (Zpos mx) ex (Zpos my) ey ltac:(lia) ltac:(lia)) as H.
  destruct (SFdiv_core_binary 53 1024 (Zpos mx) ex (Zpos my) ey) as [[q e'] l].
  destruct H as (Hq & Hc & He).
  apply binary_round_aux_spec; assumption.
Qed.

(** ** [Number(b)] and the sign symmetry *)

(** [Number(b)] is the rounding of a positive bigint [b]. *)
Lemma Number_rounds z : 0 < z -> rounds_to (IZR z) (Number z).
Proof.
  destruct z as [|p|p]; try lia. intros _. unfold Number, Js.prec, Js.emax, binary_normalize.
  replace (IZR (Zpos p)) with (IZR (Zpos p) * bpow 0)%R by (unfold bpow; simpl; lra).
  apply binary_round_spec.
Qed.

Lemma Number_pos_shape z :
  0 < z -> (exists m e, Number z = S754_finite false m e) \/ Number z = S754_infinity false.
Proof.
  intros Hz. apply (rounds_to_pos (IZR z)); [|apply Number_rounds; assumption].
  apply Rle_trans with (bpow 0); [apply bpow_le; lia|].
  unfold bpow. simpl. apply IZR_le. lia.
Qed.

Lemma binary_round_aux_negb s m e l :
  binary_round_aux 53 1024 (negb s) m e l = SFopp (binary_round_aux 53 1024 s m e l).
Proof.
  unfold binary_round_aux.
  destruct (shr_fexp 53 1024 m e l) as [mrs' e'].
  destruct (shr_fexp 53 1024 _ e' loc_Exact) as [mrs'' e''].
  destruct (shr_m mrs''); [reflexivity| |reflexivity].
  destruct (e'' <=? 1024 - 53); reflexivity.
Qed.

(** Conversion and division commute with the change of sign, and the
    order is reversed by it. *)
Lemma Number_opp z : 0 < z -> Number (- z) = SFopp (Number z).
Proof.
  destruct z as [|p|p]; try lia. intros _. cbn [Z.opp]. unfold Number, Js.prec, Js.emax, binary_normalize, binary_round.
  destruct (shl_align p 0 _) as [mz ez].
  apply (binary_round_aux_negb false).
Qed.

Lemma div_opp_l x y : Js.div (SFopp x) y = SFopp (div x y).
Proof.
  unfold Js.div, Js.prec, Js.emax.
  destruct x as [sx|sx| |sx mx ex], y as [sy|sy| |sy my ey]; cbn [SFdiv SFopp];
    try reflexivity; try (destruct sx, sy; reflexivity).
  destruct (SFdiv_core_binary 53 1024 (Zpos mx) ex (Zpos my) ey) as [[q e'] l].
  replace (xorb (negb sx) sy) with (negb (xorb sx sy)) by (destruct sx, sy; reflexivity).
  apply binary_round_aux_negb.
Qed.

Lemma SFleb_opp a b : SFleb (SFopp a) (SFopp b) = SFleb b a.
Proof.
  unfold SFleb.
  destruct a as [sa|sa| |sa ma ea], b as [sb|sb| |sb mb eb]; cbn [SFopp SFcompare];
    try reflexivity; try (destruct sa; reflexivity); try (destruct sb; reflexivity);
    try (destruct sa, sb; reflexivity).
  destruct sa, sb; cbn [negb]; try reflexivity.
  - rewrite (Z.compare_antisym ea eb).
    destruct (ea ?= eb); cbn [CompOpp]; try reflexivity.
    change (Pos.compare_cont Eq mb ma) with (Pos.compare mb ma).
    change (Pos.compare_cont Eq ma mb) with (Pos.compare ma mb).
    rewrite (Pos.compare_antisym ma mb). destruct (ma ?= mb)%positive; reflexivity.
  - rewrite (Z.compare_antisym ea eb).
    destruct (ea ?= eb); cbn [CompOpp]; try reflexivity.
    change (Pos.compare_cont Eq mb ma) with (Pos.compare mb ma).
    change (Pos.compare_cont Eq ma mb) with (Pos.compare ma mb).
    rewrite (Pos.compare_antisym ma mb). destruct (ma ?= mb)%positive; reflexivity.
Qed.

(** Quotients by a fixed positive finite number [mg * 2^eg]. *)
Section Quotient.

Variables (mg : positive) (eg : Z).

Lemma quotient_nonneg z :
  0 <= z -> nonneg_shape (Js.div (Number z) (S754_finite false mg eg)).
Proof.
  intros Hz. destruct (Z.eq_dec z 0) as [-> | Hne].
  - left. reflexivity.
  - destruct (Number_pos_shape z ltac:(lia)) as [(m & e & ->) | ->].
    + apply (rounds_to_shape (IZR (Zpos m) * bpow e / (IZR (Zpos mg) * bpow eg))).
      * apply Rmult_le_pos.
        -- apply Rmult_le_pos; [apply IZR_le; lia|pose proof (bpow_pos e); lra].
        -- apply Rlt_le, Rinv_0_lt_compat, Rmult_lt_0_compat;
             [apply IZR_lt; lia|apply bpow_pos].
      * apply SFdiv_finite_spec.
    + right. right. reflexivity.
Qed.

Lemma shape_le_infinity f : nonneg_shape f -> SFleb f (S754_infinity false) = true.
Proof. intros [-> | [(m & e & ->) | ->]]; reflexivity. Qed.

Lemma zero_le_shape f : nonneg_shape f -> SFleb (S754_zero false) f = true.
Proof. intros [-> | [(m & e & ->) | ->]]; reflexivity. Qed.

Lemma opp_shape_le_shape f g :
  nonneg_shape f -> nonneg_shape g -> SFleb (SFopp f) g = true.
Proof.
  intros [-> | [(m & e & ->) | ->]] [-> | [(m' & e' & ->) | ->]]; reflexivity.
Qed.

Lemma quotient_mono_pos z1 z2 :
  0 < z1 <= z2 ->
  SFleb (Js.div (Number z1) (S754_finite false mg eg))
        (Js.div (Number z2) (S754_finite false mg eg)) = true.
Proof.
  intros [H1 H12].
  pose proof (Number_rounds z1 H1) as R1. pose proof (Number_rounds z2 ltac:(lia)) as R2.
  assert (Hxy : (0 <= IZR z1 <= IZR z2)%R) by (split; apply IZR_le; lia).
  pose proof (rounds_to_le _ _ _ _ Hxy R1 R2) as Hle.
  pose proof (quotient_nonneg z1 ltac:(lia)) as S1.
  destruct (Number_pos_shape z1 H1) as [(m1 & e1 & E1) | E1],
           (Number_pos_shape z2 ltac:(lia)) as [(m2 & e2 & E2) | E2].
  - rewrite E1, E2 in *.
    destruct (rounds_to_val_le _ _ _ _ _ _ _ _ Hxy R1 R2) as (_ & _ & Hv).
    assert (HG : (0 < IZR (Zpos mg) * bpow eg)%R)
      by (apply Rmult_lt_0_compat; [apply IZR_lt; lia|apply bpow_pos]).
    apply (rounds_to_le (IZR (Zpos m1) * bpow e1 / (IZR (Zpos mg) * bpow eg))
                        (IZR (Zpos m2) * bpow e2 / (IZR (Zpos mg) * bpow eg)));
      [|apply SFdiv_finite_spec|apply SFdiv_finite_spec].
    assert (0 <= IZR (Zpos m1) * bpow e1)%R
      by (apply Rmult_le_pos; [apply IZR_le; lia|pose proof (bpow_pos e1); lra]).
    pose proof (Rinv_0_lt_compat _ HG). unfold Rdiv. split; nra.
  - rewrite E2. apply shape_le_infinity. assumption.
  - rewrite E1, E2 in Hle. discriminate.
  - rewrite E1, E2. reflexivity.
Qed.

(** The quotient by a positive finite number is monotone in the bigint
    that is converted, negative ones included. *)
Lemma quotient_mono z1 z2 :
  z1 <= z2 ->
  SFleb (Js.div (Number z1) (S754_finite false mg eg))
        (Js.div (Number z2) (S754_finite false mg eg)) = true.
Proof.
  intros H12.
  destruct (Z.lt_trichotomy z1 0) as [Hn | [-> | Hp]].
  - assert (Hz1 : 0 < - z1) by lia.
    rewrite <- (Z.opp_involutive z1), (Number_opp _ Hz1), div_opp_l.
    destruct (Z_lt_le_dec z2 0) as [Hn2 | Hp2].
    + assert (Hz2 : 0 < - z2) by lia.
      rewrite <- (Z.opp_involutive z2), (Number_opp _ Hz2), div_opp_l.
      rewrite SFleb_opp. apply quotient_mono_pos. lia.
    + apply opp_shape_le_shape; apply quotient_nonneg; lia.
  - apply zero_le_shape. apply quotient_nonneg. assumption.
  - apply quotient_mono_pos. lia.
Qed.

End Quotient.

(** ** Uniqueness, exact results and the rounding error *)

Lemma cexp_unique x e1 e2 : cexp_of x e1 -> cexp_of x e2 -> e1 = e2.
Proof.
  intros (H1 & L1 & G1) (H2 & L2 & G2).
  destruct (Z.lt_trichotomy e1 e2) as [Hlt | [Heq | Hgt]]; [exfalso|assumption|exfalso].
  - specialize (G2 ltac:(lia)).
    assert (bpow (e2 + 52) < bpow (e1 + 53))%R by lra.
    apply bpow_lt_inv in H. lia.
  - specialize (G1 ltac:(lia)).
    assert (bpow (e1 + 52) < bpow (e2 + 53))%R by lra.
    apply bpow_lt_inv in H. lia.
Qed.

Lemma coded_unique x v w e : coded x v e -> coded x w e -> v = w.
Proof.
  intros Hv Hw.
  pose proof (coded_mono x x v w e Hv Hw ltac:(lra)).
  pose proof (coded_mono x x w v e Hw Hv ltac:(lra)). lia.
Qed.

(** A real has one rounding. *)
Lemma rounds_to_fun x f g : rounds_to x f -> rounds_to x g -> f = g.
Proof.
  intros (v & e & Hv & Hc & ->) (w & e' & Hw & Hc' & ->).
  pose proof (cexp_unique x e e' Hc Hc'). subst e'.
  pose proof (coded_unique x v w e Hv Hw). subst w. reflexivity.
Qed.

(** A representable real rounds to itself. *)
Lemma rounds_to_exact a e : canon a e -> rounds_to (IZR a * bpow e) (mk false a e).
Proof.
  intros (Ha & He & Ha'). exists (4 * a), e.
  split; [apply coded_exact|]. split.
  - split; [assumption|]. pose proof (bpow_pos e) as HB. split.
    + rewrite bpow_add, (bpow_IZR 53), Rmult_comm by lia.
      apply Rmult_lt_compat_l; [assumption|apply IZR_lt; lia].
    + intros Hgt. specialize (Ha' Hgt).
      rewrite bpow_add, (bpow_IZR 52), Rmult_comm by lia.
      apply Rmult_le_compat_r; [lra|apply IZR_le; lia].
  - rewrite rne_exact, finish_eq by lia.
    destruct (Z.eqb_spec a (2 ^ 53)); [lia|reflexivity].
Qed.

(** Integers below 2^53 convert without rounding. *)
Lemma Number_exact z :
  0 < z < 2 ^ 53 ->
  exists m e, Number z = S754_finite false m e /\ (IZR (Zpos m) * bpow e = IZR z)%R.
Proof.
  intros Hz.
  pose proof (Zdigits2_bounds z ltac:(lia)) as Hd.
  pose proof (Zdigits2_pos z ltac:(lia)) as Hp.
  pose proof (Zdigits2_le_53 z Hz) as H53.
  set (d := Zdigits2 z) in *.
  assert (HP : 0 < 2 ^ (53 - d)) by (apply Z.pow_pos_nonneg; lia).
  assert (E53 : 2 ^ d * 2 ^ (53 - d) = 2 ^ 53)
    by (rewrite <- Z.pow_add_r by lia; f_equal; lia).
  assert (E52 : 2 ^ (d - 1) * 2 ^ (53 - d) = 2 ^ 52)
    by (rewrite <- Z.pow_add_r by lia; f_equal; lia).
  assert (Hc : canon (z * 2 ^ (53 - d)) (d - 53)).
  { unfold canon. split; [|split]; [nia|lia|intros _; nia]. }
  assert (Hv : (IZR (z * 2 ^ (53 - d)) * bpow (d - 53) = IZR z)%R).
  { rewrite mult_IZR, <- bpow_IZR, Rmult_assoc, <- bpow_add by lia.
    replace (53 - d + (d - 53)) with 0 by lia. unfold bpow. simpl. lra. }
  pose proof (rounds_to_exact _ _ Hc) as Hr. rewrite Hv in Hr.
  pose proof (rounds_to_fun _ _ _ (Number_rounds z ltac:(lia)) Hr) as E.
  destruct (z * 2 ^ (53 - d)) as [|m|m] eqn:Em; try lia.
  unfold mk in E. destruct (Z.leb_spec (d - 53) 971); [|lia].
  exists m, (d - 53). split; assumption.
Qed.

(** The quotient of two integers below 2^53 that divide exactly is the
    conversion of the exact quotient. *)
Lemma div_exact_pos n d k :
  0 < d -> 0 < k -> n = k * d -> n < 2 ^ 53 -> Js.div (Number n) (Number d) = Number k.
Proof.
  intros Hd Hk -> Hn.
  destruct (Number_exact (k * d) ltac:(nia)) as (mn & en & En & Vn).
  destruct (Number_exact d ltac:(nia)) as (md & ed & Ed & Vd).
  rewrite En, Ed.
  apply (rounds_to_fun (IZR k)); [|apply Number_rounds; assumption].
  replace (IZR k) with (IZR (Zpos mn) * bpow en / (IZR (Zpos md) * bpow ed))%R.
  - apply SFdiv_finite_spec.
  - rewrite Vn, Vd, mult_IZR. field. apply eq_IZR_contrapositive. lia.
Qed.

Lemma div_exact n d k :
  0 < d -> n = k * d -> Z.abs n < 2 ^ 53 -> Js.div (Number n) (Number d) = Number k.
Proof.
  intros Hd -> Hn.
  destruct (Z.lt_trichotomy k 0) as [Hneg | [-> | Hpos]].
  - assert (Hk : 0 < - k) by lia.
    assert (Hkd : 0 < - k * d) by nia.
    assert (Hb : - k * d < 2 ^ 53) by lia.
    replace (k * d) with (- (- k * d)) by ring.
    rewrite (Number_opp _ Hkd), div_opp_l.
    rewrite (div_exact_pos (- k * d) d (- k) Hd Hk eq_refl Hb).
    rewrite <- (Number_opp _ Hk). f_equal. lia.
  - cbn [Z.mul]. destruct (Number_pos_shape d Hd) as [(md & ed & ->) | ->]; reflexivity.
  - apply div_exact_pos; nia.
Qed.

Lemma rne_error x v e :
  coded x v e -> (Rabs (IZR (rne v) * bpow e - x) <= bpow e / 2)%R.
Proof.
  destruct (quarters v) as (m & c & -> & Hc).
  rewrite rne_quarters by lia. unfold coded.
  replace (bpow e) with (4 * bpow (e - 2))%R
    by (replace e with (e - 2 + 1 + 1) at 2 by lia; rewrite !bpow_succ; lra).
  pose proof (bpow_pos (e - 2)) as HB. set (B := bpow (e - 2)) in *.
  assert (Hm4 : Z.even (4 * m) = true) by (rewrite Z.even_mul; reflexivity).
  destruct Hc as [-> | [-> | [-> | ->]]]; cbv [Z.leb Z.eqb Z.compare Pos.compare Pos.compare_cont Pos.eqb];
    rewrite !Z.even_add, ?Hm4; cbn [Z.even Bool.eqb]; try destruct (Z.even m);
    push_IZR;
    intros H; apply Rabs_le; nra.
Qed.

(** In the range of the normal and subnormal numbers the rounding is a
    positive finite number within half a unit in the last place. *)
Lemma rounds_to_nearest x f :
  (bpow (-1074) <= x < bpow 1023)%R -> rounds_to x f ->
  exists m e, f = S754_finite false m e
              /\ (Rabs (IZR (Zpos m) * bpow e - x) <= bpow e / 2)%R.
Proof.
  intros [Hlo Hhi] Hf.
  assert (H0 : (0 <= x)%R) by (pose proof (bpow_pos (-1074)); lra).
  destruct (rounds_to_pos x f Hlo Hf) as [(m & e & E) | E].
  - exists m, e. split; [assumption|]. subst f.
    destruct Hf as (v & e0 & Hv & Hc & Hf).
    destruct (rounded_canon x v e0 H0 Hv Hc) as (Ha & _).
    pose proof (rne_error x v e0 Hv) as Herr.
    assert (He0 := Hc). destruct He0 as (He0 & _).
    rewrite finish_eq in Hf by assumption.
    destruct (Z.eqb_spec (rne v) (2 ^ 53)) as [Ea | Ea].
    + symmetry in Hf. apply mk_finite in Hf. destruct Hf as (_ & Em & ->).
      rewrite <- Em, bpow_succ. rewrite Ea in Herr.
      pose proof (bpow_pos e0).
      replace (IZR (2 ^ 52) * (2 * bpow e0))%R with (IZR (2 ^ 53) * bpow e0)%R
        by (change (2 ^ 53) with (2 * 2 ^ 52); rewrite mult_IZR; lra).
      apply Rle_trans with (1 := Herr). lra.
    + symmetry in Hf. apply mk_finite in Hf. destruct Hf as (_ & Em & ->).
      rewrite <- Em. assumption.
  - exfalso. subst f. destruct Hf as (v & e0 & Hv & Hc & Hf).
    destruct (rounded_canon x v e0 H0 Hv Hc) as (Ha & _).
    assert (He0 : e0 <= 970).
    { destruct Hc as (_ & _ & Hge).
      destruct (Z_le_gt_dec e0 970) as [|Hgt]; [assumption|exfalso].
      specialize (Hge ltac:(lia)).
      assert (bpow (e0 + 52) < bpow 1023)%R by lra.
      apply bpow_lt_inv in H. lia. }
    destruct Hc as (Hlow & _).
    rewrite finish_eq in Hf by assumption.
    destruct (rne v =? 2 ^ 53).
    + cbn in Hf. destruct (Z.leb_spec (e0 + 1) 971); [discriminate|lia].
    + unfold mk in Hf. destruct (rne v); try discriminate.
      destruct (Z.leb_spec e0 971); [discriminate|lia].
Qed.

End Rounding.

(** * Facts about the comparison of a number with a bigint *)

Module Comparison.

Import Binary64 Rounding.

Lemma geb_bigint_zero s b : geb_bigint (S754_zero s) b = true <-> (IZR b <= 0)%R.
Proof.
  unfold geb_bigint, compare_bigint.
  destruct (Z.compare_spec 0 b) as [H | H | H]; split; intros H';
    try reflexivity; try discriminate; try (apply IZR_le; lia).
  apply le_IZR in H'. lia.
Qed.

Lemma geb_bigint_finite s m e b :
  geb_bigint (S754_finite s m e) b = true
  <-> (IZR b <= val (S754_finite s m e))%R.
Proof.
  unfold geb_bigint, compare_bigint, val, signed.
  set (n := cond_Zopp s (Zpos m)).
  destruct (Z.leb_spec 0 e) as [He | He].
  - rewrite bpow_IZR, <- mult_IZR by assumption.
    destruct (Z.compare_spec (n * 2 ^ e) b) as [H | H | H]; split; intros H';
      try reflexivity; try discriminate; try (apply IZR_le; lia).
    apply le_IZR in H'. lia.
  - assert (HP : (bpow e * IZR (2 ^ (- e)) = 1)%R).
    { rewrite <- bpow_IZR, <- bpow_add by lia.
      replace (e + - e) with 0 by lia. reflexivity. }
    pose proof (bpow_pos e) as HB.
    assert (HQ : (0 < IZR (2 ^ (- e)))%R)
      by (apply IZR_lt, Z.pow_pos_nonneg; lia).
    assert (Hiff : (IZR b <= IZR n * bpow e)%R <-> b * 2 ^ (- e) <= n).
    { split; intros H.
      - apply le_IZR. rewrite mult_IZR.
        apply Rmult_le_compat_r with (r := IZR (2 ^ (- e))) in H; [|lra].
        rewrite Rmult_assoc, HP in H. lra.
      - apply IZR_le in H. rewrite mult_IZR in H.
        apply Rmult_le_compat_r with (r := bpow e) in H; [|lra].
        rewrite Rmult_assoc, (Rmult_comm (IZR (2 ^ (- e)))), HP in H. lra. }
    rewrite Hiff.
    destruct (Z.compare_spec n (b * 2 ^ (- e))) as [H | H | H]; split; intros H';
      try reflexivity; try discriminate; lia.
Qed.

(** [x >= b] holds for +Infinity and for the zeros and finite numbers whose
    value is at least [b]; it fails for NaN and -Infinity. *)
Lemma geb_bigint_spec x b :
  geb_bigint x b = true
  <-> x = Infinity \/ (is_finite x = true /\ (IZR b <= val x)%R).
Proof.
  destruct x as [s|s| |s m e].
  - rewrite geb_bigint_zero. cbn. split; [auto|intros [H | [_ H]]; [discriminate|assumption]].
  - destruct s; cbn; split; auto; try discriminate.
    + intros [H | [H _]]; discriminate.
  - cbn. split; [discriminate|intros [H | [H _]]; discriminate].
  - rewrite geb_bigint_finite. cbn [is_finite].
    split; [auto|intros [H | [_ H]]; [discriminate|assumption]].
Qed.

End Comparison.

(** * The engine *)

Import Binary64 Rounding Comparison.

Lemma price_nonzero withCDN : getPricePerTBPerMonth withCDN <> 0.
Proof. destruct withCDN; discriminate. Qed.

Lemma price_pos withCDN : 0 < getPricePerTBPerMonth withCDN.
Proof. destruct withCDN; reflexivity. Qed.

(** The capacity estimate never throws: the price is not zero. *)
Lemma calculateRateAllowanceGB_ok sdk withCDN rateAllowance :
  calculateRateAllowanceGB sdk withCDN rateAllowance =
  Ok (Js.div
        (Number (Z.quot (rateAllowance * EPOCHS_PER_MONTH (TIME_CONSTANTS sdk)
                         * TiB (SIZE_CONSTANTS sdk))
                        (getPricePerTBPerMonth withCDN)))
        (Number (GiB (SIZE_CONSTANTS sdk)))).
Proof.
  unfold calculateRateAllowanceGB, bigint_div.
  destruct (Z.eqb_spec (getPricePerTBPerMonth withCDN) 0) as [E | _];
    [destruct (price_nonzero withCDN E)|reflexivity].
Qed.

(** Once the snapshot is fetched, the engine returns, and these are the
    fields of its result. *)
Lemma calculateStorageMetrics_ok sdk withCDN check days capacity threshold pb :
  check capacity withCDN days = Ok pb ->
  calculateStorageMetrics sdk withCDN check days capacity threshold =
  Ok (let rateNeeded := perEpoch (PandoraBalanceData.costs pb) in
      let remaining :=
        PandoraBalanceData.currentLockupAllowance pb
        - PandoraBalanceData.currentLockupUsed pb in
      let atCurrentRate :=
        EPOCHS_PER_DAY (TIME_CONSTANTS sdk)
        * PandoraBalanceData.currentRateUsed pb in
      let daysLeft :=
        Js.div (Number remaining)
               (Number (EPOCHS_PER_DAY (TIME_CONSTANTS sdk) * rateNeeded)) in
      let rateOk := PandoraBalanceData.currentRateAllowance pb >=? rateNeeded in
      let lockupOk := geb_bigint daysLeft threshold in
      {|
        StorageCalculationResult.rateNeeded := rateNeeded;
        StorageCalculationResult.rateUsed := PandoraBalanceData.currentRateUsed pb;
        StorageCalculationResult.currentStorageBytes :=
          fst (calculateCurrentStorageUsage sdk pb capacity);
        StorageCalculationResult.currentStorageGB :=
          snd (calculateCurrentStorageUsage sdk pb capacity);
        StorageCalculationResult.totalLockupNeeded :=
          PandoraBalanceData.lockupAllowanceNeeded pb;
        StorageCalculationResult.depositNeeded :=
          PandoraBalanceData.depositAmountNeeded pb;
        StorageCalculationResult.persistenceDaysLeft := daysLeft;
        StorageCalculationResult.persistenceDaysLeftAtCurrentRate :=
          if atCurrentRate >? 0
          then Js.div (Number remaining) (Number atCurrentRate)
          else if remaining >? 0 then Infinity else Js.zero;
        StorageCalculationResult.isRateSufficient := rateOk;
        StorageCalculationResult.isLockupSufficient := lockupOk;
        StorageCalculationResult.isSufficient := rateOk && lockupOk;
        StorageCalculationResult.currentRateAllowanceGB :=
          Js.div
            (Number (Z.quot (PandoraBalanceData.currentRateAllowance pb
                             * EPOCHS_PER_MONTH (TIME_CONSTANTS sdk)
                             * TiB (SIZE_CONSTANTS sdk))
                            (getPricePerTBPerMonth withCDN)))
            (Number (GiB (SIZE_CONSTANTS sdk)));
        StorageCalculationResult.currentLockupAllowance :=
          PandoraBalanceData.currentLockupAllowance pb
      |}).
Proof.
  intros H. unfold calculateStorageMetrics. rewrite H. cbn [Js.bind].
  destruct (calculateCurrentStorageUsage sdk pb capacity) as [bytes gb].
  rewrite calculateRateAllowanceGB_ok. reflexivity.
Qed.

(** Replace the call by its result once the snapshot [H] is fetched. *)
Ltac fetched H :=
  rewrite (calculateStorageMetrics_ok _ _ _ _ _ _ _ H);
  eexists; split; [reflexivity|].

(** A failure of the service call is passed on unchanged. *)
Lemma calculateStorageMetrics_rejected
    sdk withCDN check days capacity threshold e :
  check capacity withCDN days = Throw e ->
  calculateStorageMetrics sdk withCDN check days capacity threshold = Throw e.
Proof. intros H. unfold calculateStorageMetrics. rewrite H. reflexivity. Qed.

(** C1: For every balance snapshot and configuration, the overall
    sufficiency flag that [calculateStorageMetrics] returns is the boolean
    conjunction of the rate-sufficiency flag and the lockup-sufficiency
    flag. *)
Theorem C1_sufficiency_is_conjunction
    sdk withCDN check days capacity threshold pb :
  check capacity withCDN days = Ok pb ->
  exists r,
    calculateStorageMetrics sdk withCDN check days capacity threshold = Ok r
    /\ StorageCalculationResult.isSufficient r
       = StorageCalculationResult.isRateSufficient r
         && StorageCalculationResult.isLockupSufficient r.
Proof.
  intros H. fetched H. reflexivity.
Qed.

Lemma C1_witness :
  answer (scenarioBalance 10 10 500) tenGiB false thirtyDays
  = Ok (scenarioBalance 10 10 500)
  /\ exists r,
       calculateStorageMetrics sdkScenario false
         (answer (scenarioBalance 10 10 500)) thirtyDays tenGiB 10 = Ok r
       /\ StorageCalculationResult.isSufficient r
          = StorageCalculationResult.isRateSufficient r
            && StorageCalculationResult.isLockupSufficient r.
Proof.
  split; [reflexivity|].
  apply (C1_sufficiency_is_conjunction sdkScenario false
           (answer (scenarioBalance 10 10 500)) thirtyDays tenGiB 10
           (scenarioBalance 10 10 500)).
  reflexivity.
Defined.

(** Each of the four combinations of the two flags is produced by some
    snapshot and threshold, and the overall flag is their conjunction. *)
Lemma sufficiency_combinations (rate lockup : bool) :
  exists pb threshold r,
    calculateStorageMetrics sdkScenario false (answer pb)
      thirtyDays tenGiB threshold = Ok r
    /\ StorageCalculationResult.isRateSufficient r = rate
    /\ StorageCalculationResult.isLockupSufficient r = lockup
    /\ StorageCalculationResult.isSufficient r = rate && lockup.
Proof.
  exists (scenarioBalance (if rate then 10 else 5) 10 500),
         (if lockup then 10 else 20).
  eexists. split; [apply calculateStorageMetrics_ok; reflexivity|].
  destruct rate, lockup; vm_compute; auto.
Qed.

(** With a zero required rate the runway at the required rate is the
    quotient of the remaining lockup by zero: +Infinity, NaN or -Infinity
    with the sign of the remaining lockup. *)
Lemma zero_required_rate_runway sdk withCDN check days capacity threshold pb :
  check capacity withCDN days = Ok pb ->
  perEpoch (PandoraBalanceData.costs pb) = 0 ->
  exists r,
    calculateStorageMetrics sdk withCDN check days capacity threshold = Ok r
    /\ StorageCalculationResult.persistenceDaysLeft r
       = match PandoraBalanceData.currentLockupAllowance pb
               - PandoraBalanceData.currentLockupUsed pb ?= 0 with
         | Gt => Infinity
         | Eq => NaN
         | Lt => S754_infinity true
         end.
Proof.
  intros H Hrate. fetched H. cbn [StorageCalculationResult.persistenceDaysLeft].
  rewrite Hrate, Z.mul_0_r.
  set (remaining := PandoraBalanceData.currentLockupAllowance pb
                    - PandoraBalanceData.currentLockupUsed pb).
  destruct (Z.compare_spec remaining 0) as [-> | Hneg | Hpos].
  - reflexivity.
  - assert (Hp : 0 < - remaining) by lia.
    rewrite <- (Z.opp_involutive remaining), (Number_opp _ Hp), div_opp_l.
    destruct (Number_pos_shape _ Hp) as [(m & e & ->) | ->]; reflexivity.
  - destruct (Number_pos_shape _ Hpos) as [(m & e & ->) | ->]; reflexivity.
Qed.

(** C2 (as amended): For every snapshot whose required rate is zero,
    [calculateStorageMetrics] does not raise, and while the remaining
    lockup is strictly positive the runway at the required rate is
    +Infinity, not zero. *)
Theorem C2_zero_required_rate sdk withCDN check days capacity threshold pb :
  check capacity withCDN days = Ok pb ->
  perEpoch (PandoraBalanceData.costs pb) = 0 ->
  exists r,
    calculateStorageMetrics sdk withCDN check days capacity threshold = Ok r
    /\ (0 < PandoraBalanceData.currentLockupAllowance pb
            - PandoraBalanceData.currentLockupUsed pb ->
        StorageCalculationResult.persistenceDaysLeft r = Infinity).
Proof.
  intros H Hrate.
  destruct (zero_required_rate_runway sdk withCDN check days capacity threshold
              pb H Hrate) as (r & Hr & Hdays).
  exists r. split; [assumption|]. intros Hpos. rewrite Hdays.
  destruct (Z.compare_spec (PandoraBalanceData.currentLockupAllowance pb
                            - PandoraBalanceData.currentLockupUsed pb) 0);
    [lia|lia|reflexivity].
Qed.

Lemma C2_witness :
  answer (scenarioBalance 10 0 500) tenGiB false thirtyDays
  = Ok (scenarioBalance 10 0 500)
  /\ perEpoch (PandoraBalanceData.costs (scenarioBalance 10 0 500)) = 0
  /\ exists r,
       calculateStorageMetrics sdkScenario false
         (answer (scenarioBalance 10 0 500)) thirtyDays tenGiB 10 = Ok r
       /\ (0 < PandoraBalanceData.currentLockupAllowance (scenarioBalance 10 0 500)
               - PandoraBalanceData.currentLockupUsed (scenarioBalance 10 0 500) ->
           StorageCalculationResult.persistenceDaysLeft r = Infinity).
Proof.
  split; [reflexivity|]. split; [reflexivity|].
  apply (C2_zero_required_rate sdkScenario false
           (answer (scenarioBalance 10 0 500)) thirtyDays tenGiB 10
           (scenarioBalance 10 0 500)); reflexivity.
Defined.

(** C2 as stated fails: with a required rate of zero and 900 of lockup
    remaining, the runway at the required rate is +Infinity and not zero. *)
Lemma C2_counterexample :
  perEpoch (PandoraBalanceData.costs (scenarioBalance 10 0 500)) = 0
  /\ exists r,
       calculateStorageMetrics sdkScenario false
         (answer (scenarioBalance 10 0 500)) thirtyDays tenGiB 10 = Ok r
       /\ StorageCalculationResult.persistenceDaysLeft r = Infinity
       /\ StorageCalculationResult.persistenceDaysLeft r <> Js.zero.
Proof.
  split; [reflexivity|]. eexists. split; [reflexivity|].
  split; [reflexivity|discriminate].
Qed.

(** C3: For every snapshot with no rate in use, the runway at the current
    rate is +Infinity when the remaining lockup is strictly positive and
    exactly 0 when it is zero or negative. *)
Theorem C3_runway_at_current_rate_without_usage
    sdk withCDN check days capacity threshold pb :
  check capacity withCDN days = Ok pb ->
  PandoraBalanceData.currentRateUsed pb = 0 ->
  exists r,
    calculateStorageMetrics sdk withCDN check days capacity threshold = Ok r
    /\ (0 < PandoraBalanceData.currentLockupAllowance pb
            - PandoraBalanceData.currentLockupUsed pb ->
        StorageCalculationResult.persistenceDaysLeftAtCurrentRate r = Infinity)
    /\ (PandoraBalanceData.currentLockupAllowance pb
        - PandoraBalanceData.currentLockupUsed pb <= 0 ->
        StorageCalculationResult.persistenceDaysLeftAtCurrentRate r = Js.zero).
Proof.
  intros H Hused. fetched H.
  cbn [StorageCalculationResult.persistenceDaysLeftAtCurrentRate].
  rewrite Hused, Z.mul_0_r. change (0 >? 0) with false. cbv iota.
  rewrite Z.gtb_ltb.
  split; intros Hrem; destruct (Z.ltb_spec 0
    (PandoraBalanceData.currentLockupAllowance pb
     - PandoraBalanceData.currentLockupUsed pb)); try reflexivity; lia.
Qed.

Lemma C3_witness :
  answer (scenarioBalance 10 10 500) tenGiB false thirtyDays
  = Ok (scenarioBalance 10 10 500)
  /\ PandoraBalanceData.currentRateUsed (scenarioBalance 10 10 500) = 0
  /\ exists r,
       calculateStorageMetrics sdkScenario false
         (answer (scenarioBalance 10 10 500)) thirtyDays tenGiB 10 = Ok r
       /\ StorageCalculationResult.persistenceDaysLeftAtCurrentRate r = Infinity.
Proof.
  split; [reflexivity|]. split; [reflexivity|].
  destruct (C3_runway_at_current_rate_without_usage sdkScenario false
              (answer (scenarioBalance 10 10 500)) thirtyDays tenGiB 10
              (scenarioBalance 10 10 500) eq_refl eq_refl) as (r & Hr & Hpos & _).
  exists r. split; [exact Hr|]. apply Hpos. reflexivity.
Defined.

(** The real quotient of two positive integers below 2^53 lies in the
    range of the finite numbers. *)
Lemma ratio_in_range n d :
  0 < n < 2 ^ 53 -> 0 < d < 2 ^ 53 ->
  (bpow (-1074) <= IZR n / IZR d < bpow 1023)%R.
Proof.
  intros Hn Hd.
  assert (N1 : (1 <= IZR n)%R) by (apply IZR_le; lia).
  assert (N2 : (IZR n < bpow 53)%R) by (rewrite bpow_IZR by lia; apply IZR_lt; lia).
  assert (D1 : (1 <= IZR d)%R) by (apply IZR_le; lia).
  assert (D2 : (IZR d < bpow 53)%R) by (rewrite bpow_IZR by lia; apply IZR_lt; lia).
  assert (HI : (0 < / IZR d <= 1)%R).
  { split; [apply Rinv_0_lt_compat; lra|].
    rewrite <- Rinv_1. apply Rinv_le_contravar; lra. }
  assert (HP : (bpow (-53) * bpow 53 = 1)%R)
    by (rewrite <- bpow_add; reflexivity).
  pose proof (bpow_pos (-53)) as HB.
  assert (HX : (IZR n / IZR d * IZR d = IZR n)%R) by (field; lra).
  split.
  - apply Rle_trans with (bpow (-53)); [apply bpow_le; lia|].
    apply Rmult_le_reg_r with (IZR d); [lra|]. rewrite HX. nra.
  - apply Rle_lt_trans with (IZR n).
    + unfold Rdiv. nra.
    + apply Rlt_le_trans with (1 := N2). apply bpow_le. lia.
Qed.

(** C4: For every snapshot with a strictly positive required rate [r],
    the runway at the required rate is the remaining lockup divided by
    [EPOCHS_PER_DAY * r]: it is the binary64 quotient of the two converted
    bigints; when the division is exact on integers below 2^53 it is the
    exact quotient, and for positive operands below 2^53 it is a finite
    number within half a unit in the last place of the real quotient. *)
Theorem C4_runway_at_required_rate
    sdk withCDN check days capacity threshold pb :
  check capacity withCDN days = Ok pb ->
  0 < perEpoch (PandoraBalanceData.costs pb) ->
  exists r,
    calculateStorageMetrics sdk withCDN check days capacity threshold = Ok r
    /\ let remaining :=
         PandoraBalanceData.currentLockupAllowance pb
         - PandoraBalanceData.currentLockupUsed pb in
       let lockupPerDay :=
         EPOCHS_PER_DAY (TIME_CONSTANTS sdk)
         * perEpoch (PandoraBalanceData.costs pb) in
       StorageCalculationResult.persistenceDaysLeft r
       = Js.div (Number remaining) (Number lockupPerDay)
       /\ (0 < EPOCHS_PER_DAY (TIME_CONSTANTS sdk) ->
           forall days, remaining = days * lockupPerDay ->
           Z.abs remaining < 2 ^ 53 ->
           StorageCalculationResult.persistenceDaysLeft r = Number days)
       /\ (0 < EPOCHS_PER_DAY (TIME_CONSTANTS sdk) ->
           0 < remaining < 2 ^ 53 -> lockupPerDay < 2 ^ 53 ->
           exists m e,
             StorageCalculationResult.persistenceDaysLeft r
             = S754_finite false m e
             /\ (Rabs (IZR (Zpos m) * bpow e - IZR remaining / IZR lockupPerDay)
                 <= bpow e / 2)%R).
Proof.
  intros H Hrate. fetched H.
  cbn [StorageCalculationResult.persistenceDaysLeft]. cbv zeta.
  set (remaining := PandoraBalanceData.currentLockupAllowance pb
                    - PandoraBalanceData.currentLockupUsed pb).
  set (lockupPerDay := EPOCHS_PER_DAY (TIME_CONSTANTS sdk)
                       * perEpoch (PandoraBalanceData.costs pb)).
  split; [reflexivity|]. split.
  - intros HE k Hk Habs.
    apply div_exact; [apply Z.mul_pos_pos|..]; assumption.
  - intros HE Hrem Hlpd.
    assert (Hpos : 0 < lockupPerDay) by (apply Z.mul_pos_pos; assumption).
    destruct (Number_exact remaining Hrem) as (mn & en & En & Vn).
    destruct (Number_exact lockupPerDay (conj Hpos Hlpd)) as (md & ed & Ed & Vd).
    rewrite En, Ed.
    apply rounds_to_nearest; [apply ratio_in_range; lia|].
    rewrite <- Vn, <- Vd. apply SFdiv_finite_spec.
Qed.

(** The runway scenario: a lockup allowance of 1000 with 100 used, a
    required rate of 10 and five epochs per day give a lockup per day of 50
    and a runway of 18.0 days. *)
Lemma C4_witness :
  answer (scenarioBalance 10 10 500) tenGiB false thirtyDays
  = Ok (scenarioBalance 10 10 500)
  /\ 0 < perEpoch (PandoraBalanceData.costs (scenarioBalance 10 10 500))
  /\ EPOCHS_PER_DAY (TIME_CONSTANTS sdkScenario)
     * perEpoch (PandoraBalanceData.costs (scenarioBalance 10 10 500)) = 50
  /\ exists r,
       calculateStorageMetrics sdkScenario false
         (answer (scenarioBalance 10 10 500)) thirtyDays tenGiB 10 = Ok r
       /\ StorageCalculationResult.persistenceDaysLeft r = Number 18.
Proof.
  split; [reflexivity|]. split; [reflexivity|]. split; [reflexivity|].
  destruct (C4_runway_at_required_rate sdkScenario false
              (answer (scenarioBalance 10 10 500)) thirtyDays tenGiB 10
              (scenarioBalance 10 10 500) eq_refl eq_refl)
    as (r & Hr & _ & Hexact & _).
  exists r. split; [exact Hr|].
  apply Hexact; reflexivity.
Defined.

(** C5: Both sufficiency comparisons are non-strict: the rate is
    sufficient exactly when the current rate allowance is at least the rate
    needed, and the lockup is sufficient exactly when the runway at the
    required rate is at least the threshold (it is +Infinity, or a zero or
    finite number whose value is at least the threshold); equality counts
    as sufficient in both. *)
Theorem C5_sufficiency_comparisons
    sdk withCDN check days capacity threshold pb :
  check capacity withCDN days = Ok pb ->
  exists r,
    calculateStorageMetrics sdk withCDN check days capacity threshold = Ok r
    /\ (StorageCalculationResult.isRateSufficient r = true
        <-> StorageCalculationResult.rateNeeded r
            <= PandoraBalanceData.currentRateAllowance pb)
    /\ (StorageCalculationResult.isLockupSufficient r = true
        <-> StorageCalculationResult.persistenceDaysLeft r = Infinity
            \/ (is_finite (StorageCalculationResult.persistenceDaysLeft r) = true
                /\ (IZR threshold
                    <= val (StorageCalculationResult.persistenceDaysLeft r))%R))
    /\ (PandoraBalanceData.currentRateAllowance pb
        = StorageCalculationResult.rateNeeded r ->
        StorageCalculationResult.isRateSufficient r = true)
    /\ (is_finite (StorageCalculationResult.persistenceDaysLeft r) = true ->
        val (StorageCalculationResult.persistenceDaysLeft r) = IZR threshold ->
        StorageCalculationResult.isLockupSufficient r = true).
Proof.
  intros H. fetched H.
  cbn [StorageCalculationResult.isRateSufficient
       StorageCalculationResult.isLockupSufficient
       StorageCalculationResult.rateNeeded
       StorageCalculationResult.persistenceDaysLeft]. cbv zeta.
  split; [apply Z.geb_le|]. split; [apply geb_bigint_spec|]. split.
  - intros E. apply Z.geb_le. lia.
  - intros Hfin Hval. apply geb_bigint_spec. right. split; [assumption|lra].
Qed.

Lemma C5_witness :
  answer (scenarioBalance 10 10 500) tenGiB false thirtyDays
  = Ok (scenarioBalance 10 10 500)
  /\ exists r,
       calculateStorageMetrics sdkScenario false
         (answer (scenarioBalance 10 10 500)) thirtyDays tenGiB 18 = Ok r
       /\ (StorageCalculationResult.isRateSufficient r = true
           <-> StorageCalculationResult.rateNeeded r
               <= PandoraBalanceData.currentRateAllowance
                    (scenarioBalance 10 10 500))
       /\ (is_finite (StorageCalculationResult.persistenceDaysLeft r) = true ->
           val (StorageCalculationResult.persistenceDaysLeft r) = IZR 18 ->
           StorageCalculationResult.isLockupSufficient r = true).
Proof.
  split; [reflexivity|].
  destruct (C5_sufficiency_comparisons sdkScenario false
              (answer (scenarioBalance 10 10 500)) thirtyDays tenGiB 18
              (scenarioBalance 10 10 500) eq_refl)
    as (r & Hr & Hrate & _ & _ & Hequal).
  exists r. split; [exact Hr|]. split; [exact Hrate|exact Hequal].
Defined.

(** The threshold scenarios: a runway of 18.0 days is sufficient against
    thresholds of 10 and of 18 days and insufficient against 20, and a
    rate allowance equal to the rate needed is sufficient. *)
Lemma threshold_scenarios :
  StorageCalculationResult.persistenceDaysLeft
    (scenarioMetrics (scenarioBalance 10 10 500) 10) = Number 18
  /\ StorageCalculationResult.isLockupSufficient
       (scenarioMetrics (scenarioBalance 10 10 500) 10) = true
  /\ StorageCalculationResult.isLockupSufficient
       (scenarioMetrics (scenarioBalance 10 10 500) 18) = true
  /\ StorageCalculationResult.isLockupSufficient
       (scenarioMetrics (scenarioBalance 10 10 500) 20) = false
  /\ StorageCalculationResult.isRateSufficient
       (scenarioMetrics (scenarioBalance 10 10 500) 10) = true
  /\ StorageCalculationResult.isRateSufficient
       (scenarioMetrics (scenarioBalance 9 10 500) 10) = false.
Proof. repeat split; vm_compute; reflexivity. Qed.

(** C8: The current-usage estimate is zero unless both the rate in use
    and the rate allowance needed are strictly positive, in particular
    whenever the rate allowance needed is zero; when both are strictly
    positive and the capacity is a whole number [bytes] of bytes, the
    estimate is [currentRateUsed * bytes / rateAllowanceNeeded] in bigint
    division.  (A capacity that is not a whole number makes the conversion
    throw; the fault is caught and the estimate stays zero.) *)
Theorem C8_current_usage_estimate
    sdk withCDN check days capacity threshold pb :
  check capacity withCDN days = Ok pb ->
  exists r,
    calculateStorageMetrics sdk withCDN check days capacity threshold = Ok r
    /\ (~ (0 < PandoraBalanceData.currentRateUsed pb
           /\ 0 < PandoraBalanceData.rateAllowanceNeeded pb) ->
        StorageCalculationResult.currentStorageBytes r = 0
        /\ StorageCalculationResult.currentStorageGB r = Js.zero)
    /\ (PandoraBalanceData.rateAllowanceNeeded pb = 0 ->
        StorageCalculationResult.currentStorageBytes r = 0
        /\ StorageCalculationResult.currentStorageGB r = Js.zero)
    /\ (0 < PandoraBalanceData.currentRateUsed pb ->
        0 < PandoraBalanceData.rateAllowanceNeeded pb ->
        forall bytes, BigInt capacity = Ok bytes ->
        StorageCalculationResult.currentStorageBytes r
        = Z.quot (PandoraBalanceData.currentRateUsed pb * bytes)
                 (PandoraBalanceData.rateAllowanceNeeded pb)
        /\ StorageCalculationResult.currentStorageGB r
           = Js.div (Number (StorageCalculationResult.currentStorageBytes r))
                    (Number (GiB (SIZE_CONSTANTS sdk))))
    /\ (forall e, BigInt capacity = Throw e ->
        StorageCalculationResult.currentStorageBytes r = 0
        /\ StorageCalculationResult.currentStorageGB r = Js.zero).
Proof.
  intros H. fetched H.
  cbn [StorageCalculationResult.currentStorageBytes
       StorageCalculationResult.currentStorageGB].
  unfold calculateCurrentStorageUsage. rewrite !Z.gtb_ltb.
  destruct (Z.ltb_spec 0 (PandoraBalanceData.currentRateUsed pb)) as [Hu | Hu],
           (Z.ltb_spec 0 (PandoraBalanceData.rateAllowanceNeeded pb)) as [Hn | Hn];
    cbn [andb fst snd];
    (split; [intros Hnot|split; [intros Hzero|split; [intros Hu' Hn' c Hc|intros e He]]]);
    try (split; reflexivity); try lia; try (exfalso; apply Hnot; split; assumption).
  - rewrite Hc. unfold bigint_div. cbn [Js.bind].
    destruct (Z.eqb_spec (PandoraBalanceData.rateAllowanceNeeded pb) 0); [lia|].
    split; reflexivity.
  - rewrite He. split; reflexivity.
Qed.

Lemma C8_witness :
  answer (usageBalance 5 10) tenGiB false thirtyDays = Ok (usageBalance 5 10)
  /\ BigInt tenGiB = Ok (10 * 2 ^ 30)
  /\ exists r,
       calculateStorageMetrics sdkScenario false (answer (usageBalance 5 10))
         thirtyDays tenGiB 10 = Ok r
       /\ StorageCalculationResult.currentStorageBytes r = 5 * 2 ^ 30.
Proof.
  split; [reflexivity|]. split; [reflexivity|].
  destruct (C8_current_usage_estimate sdkScenario false (answer (usageBalance 5 10))
              thirtyDays tenGiB 10 (usageBalance 5 10) eq_refl)
    as (r & Hr & _ & _ & Hpos & _).
  exists r. split; [exact Hr|].
  destruct (Hpos eq_refl eq_refl (10 * 2 ^ 30) eq_refl) as [Hbytes _].
  rewrite Hbytes. reflexivity.
Defined.

(** Positive bigints below 2^1023 convert to positive finite numbers. *)
Lemma Number_finite z :
  0 < z < 2 ^ 1023 -> exists m e, Number z = S754_finite false m e.
Proof.
  intros Hz.
  destruct (rounds_to_nearest (IZR z) (Number z)) as (m & e & E & _).
  - split.
    + apply Rle_trans with (bpow 0); [apply bpow_le; lia|].
      change (bpow 0) with (IZR 1). apply IZR_le. lia.
    + rewrite bpow_IZR by lia. apply IZR_lt. lia.
  - apply Number_rounds. lia.
  - exists m, e. assumption.
Qed.

(** C9: The capacity that a rate allowance supports is monotonically
    non-decreasing in the rate allowance: for rate allowances [a <= b] the
    capacity in GB computed for [a] is at most the one computed for [b].
    The SDK constants are taken non-negative, and the size of a GiB
    positive and below 2^1023. *)
Theorem C9_capacity_from_rate_monotone sdk withCDN a b :
  0 <= EPOCHS_PER_MONTH (TIME_CONSTANTS sdk) ->
  0 <= TiB (SIZE_CONSTANTS sdk) ->
  0 < GiB (SIZE_CONSTANTS sdk) < 2 ^ 1023 ->
  a <= b ->
  exists ca cb,
    calculateRateAllowanceGB sdk withCDN a = Ok ca
    /\ calculateRateAllowanceGB sdk withCDN b = Ok cb
    /\ Js.leb ca cb = true.
Proof.
  intros HE HT HG Hab. rewrite !calculateRateAllowanceGB_ok.
  do 2 eexists. split; [reflexivity|]. split; [reflexivity|].
  destruct (Number_finite (GiB (SIZE_CONSTANTS sdk)) HG) as (mg & eg & ->).
  apply quotient_mono. apply Z.quot_le_mono; [apply price_pos|].
  apply Z.mul_le_mono_nonneg_r; [assumption|].
  apply Z.mul_le_mono_nonneg_r; assumption.
Qed.

Lemma C9_witness :
  0 <= EPOCHS_PER_MONTH (TIME_CONSTANTS sdkScenario)
  /\ 0 <= TiB (SIZE_CONSTANTS sdkScenario)
  /\ 0 < GiB (SIZE_CONSTANTS sdkScenario) < 2 ^ 1023
  /\ 10 ^ 15 <= 2 * 10 ^ 15
  /\ exists ca cb,
       calculateRateAllowanceGB sdkScenario false (10 ^ 15) = Ok ca
       /\ calculateRateAllowanceGB sdkScenario false (2 * 10 ^ 15) = Ok cb
       /\ Js.leb ca cb = true.
Proof.
  assert (HE : 0 <= EPOCHS_PER_MONTH (TIME_CONSTANTS sdkScenario))
    by (simpl; lia).
  assert (HT : 0 <= TiB (SIZE_CONSTANTS sdkScenario)) by (simpl; lia).
  assert (HG : 0 < GiB (SIZE_CONSTANTS sdkScenario) < 2 ^ 1023)
    by (split; reflexivity).
  assert (Hab : 10 ^ 15 <= 2 * 10 ^ 15) by (apply Z.leb_le; reflexivity).
  repeat (split; [assumption|]).
  exact (C9_capacity_from_rate_monotone sdkScenario false (10 ^ 15) (2 * 10 ^ 15)
           HE HT HG Hab).
Defined.

(** * The payment actions *)

(** The lockup action renders nothing exactly when one of its three
    amounts is missing or zero, and otherwise a card whose button submits
    the three amounts as they are. *)
Lemma LockupIncreaseAction_null totalLockupNeeded depositNeeded rateNeeded busy :
  LockupIncreaseAction totalLockupNeeded depositNeeded rateNeeded busy = None
  <-> falsy totalLockupNeeded || falsy depositNeeded || falsy rateNeeded = true.
Proof.
  unfold LockupIncreaseAction.
  destruct totalLockupNeeded as [l|], depositNeeded as [d|], rateNeeded as [r|];
    cbn [falsy orb]; rewrite ?orb_true_r;
    try (split; reflexivity).
  destruct ((l =? 0) || (d =? 0) || (r =? 0)); split; auto; discriminate.
Qed.

Lemma LockupIncreaseAction_payments l d r busy :
  l <> 0 -> d <> 0 -> r <> 0 ->
  cardPayments (LockupIncreaseAction (Some l) (Some d) (Some r) busy)
  = [ {| lockupAllowance := l; epochRateAllowance := r; depositAmount := d |} ].
Proof.
  intros Hl Hd Hr. unfold LockupIncreaseAction. cbn [falsy].
  destruct (Z.eqb_spec l 0), (Z.eqb_spec d 0), (Z.eqb_spec r 0); try lia.
  reflexivity.
Qed.

Lemma LockupIncreaseAction_payments_incl l d r busy a :
  In a (cardPayments (LockupIncreaseAction (Some l) (Some d) (Some r) busy)) ->
  a = {| lockupAllowance := l; epochRateAllowance := r; depositAmount := d |}.
Proof.
  unfold LockupIncreaseAction. cbn [falsy].
  destruct ((l =? 0) || (d =? 0) || (r =? 0)); cbn;
    [intros []|intros [<- | []]; reflexivity].
Qed.

(** The rate action renders nothing exactly when the current lockup
    allowance or the rate needed is missing or zero. *)
Lemma RateIncreaseAction_null currentLockupAllowance rateNeeded busy :
  RateIncreaseAction currentLockupAllowance rateNeeded busy = None
  <-> falsy currentLockupAllowance || falsy rateNeeded = true.
Proof.
  unfold RateIncreaseAction.
  destruct currentLockupAllowance as [l|], rateNeeded as [r|];
    cbn [falsy orb]; rewrite ?orb_true_r;
    try (split; reflexivity).
  destruct ((l =? 0) || (r =? 0)); split; auto; discriminate.
Qed.

Lemma RateIncreaseAction_payments_incl l r busy a :
  In a (cardPayments (RateIncreaseAction (Some l) (Some r) busy)) ->
  a = {| lockupAllowance := l; epochRateAllowance := r; depositAmount := 0 |}.
Proof.
  unfold RateIncreaseAction. cbn [falsy].
  destruct ((l =? 0) || (r =? 0)); cbn;
    [intros []|intros [<- | []]; reflexivity].
Qed.

(** C6 (as amended): In the branch taken when the rate is sufficient and
    the lockup is not, every payment the section can submit carries the
    lockup allowance needed, the deposit needed and, as its rate allowance,
    the rate needed, which is at most the current rate allowance: the rate
    allowance is never raised, and it is lowered to the rate needed when the
    current allowance exceeds it.  The payment is offered once the balances
    are loaded, both wallet balances are non-zero and the three amounts are
    non-zero. *)
Theorem C6_lockup_increase_payment
    sdk withCDN check days capacity threshold pb r balances isLoading busy :
  check capacity withCDN days = Ok pb ->
  calculateStorageMetrics sdk withCDN check days capacity threshold = Ok r ->
  UseBalancesResponse.storage balances = r ->
  StorageCalculationResult.isRateSufficient r = true ->
  StorageCalculationResult.isLockupSufficient r = false ->
  let view := ActionSection (Some balances) isLoading busy in
  let payment := {|
    lockupAllowance := PandoraBalanceData.lockupAllowanceNeeded pb;
    epochRateAllowance := perEpoch (PandoraBalanceData.costs pb);
    depositAmount := PandoraBalanceData.depositAmountNeeded pb |} in
  (forall a, In a (payments view) -> a = payment)
  /\ epochRateAllowance payment <= PandoraBalanceData.currentRateAllowance pb
  /\ (isLoading = false ->
      UseBalancesResponse.filBalance balances <> 0 ->
      UseBalancesResponse.usdfcBalance balances <> 0 ->
      PandoraBalanceData.lockupAllowanceNeeded pb <> 0 ->
      PandoraBalanceData.depositAmountNeeded pb <> 0 ->
      perEpoch (PandoraBalanceData.costs pb) <> 0 ->
      payments view = [payment]).
Proof.
  intros H Hr Hs Hrate Hlockup view payment.
  rewrite (calculateStorageMetrics_ok _ _ _ _ _ _ _ H) in Hr.
  injection Hr as Hr.
  assert (Hneeded : StorageCalculationResult.totalLockupNeeded r
                    = PandoraBalanceData.lockupAllowanceNeeded pb)
    by (rewrite <- Hr; reflexivity).
  assert (Hdeposit : StorageCalculationResult.depositNeeded r
                     = PandoraBalanceData.depositAmountNeeded pb)
    by (rewrite <- Hr; reflexivity).
  assert (Hneed : StorageCalculationResult.rateNeeded r
                  = perEpoch (PandoraBalanceData.costs pb))
    by (rewrite <- Hr; reflexivity).
  assert (Hsuff : StorageCalculationResult.isSufficient r = false).
  { rewrite <- Hr in Hlockup |- *. cbn in Hlockup |- *.
    rewrite Hlockup. apply andb_false_r. }
  assert (Hle : perEpoch (PandoraBalanceData.costs pb)
                <= PandoraBalanceData.currentRateAllowance pb).
  { rewrite <- Hr in Hrate. cbn in Hrate. apply Z.geb_le. assumption. }
  clear Hr. subst view payment. unfold ActionSection.
  rewrite Hs, Hsuff, Hrate, Hlockup, Hneeded, Hdeposit, Hneed. cbn [negb andb].
  split; [|split; [exact Hle|]].
  - intros a. destruct isLoading; [intros []|].
    destruct ((UseBalancesResponse.filBalance balances =? 0)
              || (UseBalancesResponse.usdfcBalance balances =? 0)); [intros []|].
    cbn [payments flat_map slotPayments app]. rewrite !app_nil_r.
    apply LockupIncreaseAction_payments_incl.
  - intros -> Hfil Husdfc Hl Hd Hn.
    destruct (Z.eqb_spec (UseBalancesResponse.filBalance balances) 0); [lia|].
    destruct (Z.eqb_spec (UseBalancesResponse.usdfcBalance balances) 0); [lia|].
    cbn [orb payments flat_map slotPayments app]. rewrite !app_nil_r.
    apply LockupIncreaseAction_payments; assumption.
Qed.

Lemma C6_witness :
  answer (scenarioBalance 20 10 500) tenGiB false thirtyDays
  = Ok (scenarioBalance 20 10 500)
  /\ calculateStorageMetrics sdkScenario false (answer (scenarioBalance 20 10 500))
       thirtyDays tenGiB 20
     = Ok (scenarioMetrics (scenarioBalance 20 10 500) 20)
  /\ StorageCalculationResult.isRateSufficient
       (scenarioMetrics (scenarioBalance 20 10 500) 20) = true
  /\ StorageCalculationResult.isLockupSufficient
       (scenarioMetrics (scenarioBalance 20 10 500) 20) = false
  /\ payments (ActionSection
                 (Some (scenarioBalances 1 1 (scenarioBalance 20 10 500) 20))
                 false false)
     = [ {| lockupAllowance := 3000; epochRateAllowance := 10;
            depositAmount := 500 |} ].
Proof.
  split; [reflexivity|]. split; [reflexivity|].
  split; [reflexivity|]. split; [reflexivity|].
  apply (C6_lockup_increase_payment sdkScenario false
           (answer (scenarioBalance 20 10 500)) thirtyDays tenGiB 20
           (scenarioBalance 20 10 500)
           (scenarioMetrics (scenarioBalance 20 10 500) 20)
           (scenarioBalances 1 1 (scenarioBalance 20 10 500) 20) false false);
    try reflexivity; simpl; lia.
Defined.

(** C6 as stated fails: with a current rate allowance of 20, no rate in
    use and a rate needed of 10, the rate is sufficient, the lockup (18 days
    against a threshold of 20) is not, and the payment submitted carries a
    rate allowance of 10: neither the current allowance nor the rate in
    use. *)
Lemma C6_counterexample :
  PandoraBalanceData.currentRateAllowance (scenarioBalance 20 10 500) = 20
  /\ PandoraBalanceData.currentRateUsed (scenarioBalance 20 10 500) = 0
  /\ StorageCalculationResult.isRateSufficient
       (scenarioMetrics (scenarioBalance 20 10 500) 20) = true
  /\ StorageCalculationResult.isLockupSufficient
       (scenarioMetrics (scenarioBalance 20 10 500) 20) = false
  /\ exists a,
       payments (ActionSection
                   (Some (scenarioBalances 1 1 (scenarioBalance 20 10 500) 20))
                   false false) = [a]
       /\ epochRateAllowance a = 10
       /\ epochRateAllowance a
          <> PandoraBalanceData.currentRateAllowance (scenarioBalance 20 10 500)
       /\ epochRateAllowance a
          <> PandoraBalanceData.currentRateUsed (scenarioBalance 20 10 500).
Proof.
  split; [reflexivity|]. split; [reflexivity|].
  split; [reflexivity|]. split; [reflexivity|].
  eexists. split; [reflexivity|]. split; [reflexivity|].
  split; discriminate.
Qed.

(** C7 (as amended): The four branches are mutually exclusive, and the
    deposit-only and rate-only paths never fire together; once the balances
    are loaded and, in an insufficient state, both wallet balances are
    non-zero, exactly one branch applies for every flag pair, the one the
    case distinction assigns to it, and the payments offered are those of
    that branch.  In an insufficient state with a zero FIL or USDFC balance
    the section shows the tokens-required notice and no branch applies. *)
Theorem C7_remediation_branches balances isLoading busy :
  let s := UseBalancesResponse.storage balances in
  StorageCalculationResult.isSufficient s
  = StorageCalculationResult.isRateSufficient s
    && StorageCalculationResult.isLockupSufficient s ->
  let view := ActionSection (Some balances) isLoading busy in
  let taken := branchesTaken view in
  let branch := branchOfFlags (StorageCalculationResult.isRateSufficient s)
                              (StorageCalculationResult.isLockupSufficient s) in
  (taken = [] \/ taken = [branch])
  /\ ~ (In DepositAndExtendLockup taken /\ In RaiseRateOnly taken)
  /\ (isLoading = false ->
      StorageCalculationResult.isSufficient s = true
      \/ (UseBalancesResponse.filBalance balances <> 0
          /\ UseBalancesResponse.usdfcBalance balances <> 0) ->
      taken = [branch])
  /\ (isLoading = false ->
      StorageCalculationResult.isSufficient s = false ->
      UseBalancesResponse.filBalance balances = 0
      \/ UseBalancesResponse.usdfcBalance balances = 0 ->
      taken = [])
  /\ (forall a, In a (payments view) -> In a (branchPayments branch s)).
Proof.
  intros s Hs view taken branch. subst view taken branch.
  unfold ActionSection. fold s. rewrite Hs.
  split; [|split; [|split; [|split]]].
  - destruct isLoading; [left; reflexivity|].
    destruct (StorageCalculationResult.isRateSufficient s),
             (StorageCalculationResult.isLockupSufficient s);
      cbn [andb]; [right; reflexivity|..];
      destruct ((UseBalancesResponse.filBalance balances =? 0)
                || (UseBalancesResponse.usdfcBalance balances =? 0));
      (left; reflexivity) || (right; reflexivity).
  - destruct isLoading; [intros [[] _]|].
    destruct (StorageCalculationResult.isRateSufficient s),
             (StorageCalculationResult.isLockupSufficient s);
      cbn [andb];
      try destruct ((UseBalancesResponse.filBalance balances =? 0)
                    || (UseBalancesResponse.usdfcBalance balances =? 0));
      cbn; intros [H1 H2];
      repeat (destruct H1 as [H1 | H1]; try discriminate);
      repeat (destruct H2 as [H2 | H2]; try discriminate); tauto.
  - intros -> Hgate.
    destruct (StorageCalculationResult.isRateSufficient s),
             (StorageCalculationResult.isLockupSufficient s);
      cbn [andb] in *; [reflexivity|..];
      (destruct Hgate as [Hgate | [Hf Hu]]; [discriminate|]);
      destruct (Z.eqb_spec (UseBalancesResponse.filBalance balances) 0); try lia;
      destruct (Z.eqb_spec (UseBalancesResponse.usdfcBalance balances) 0); try lia;
      reflexivity.
  - intros -> Hinsufficient Hgate. rewrite Hinsufficient.
    assert (E : (UseBalancesResponse.filBalance balances =? 0)
                || (UseBalancesResponse.usdfcBalance balances =? 0) = true).
    { destruct Hgate as [-> | ->]; [reflexivity|apply orb_true_r]. }
    rewrite E. reflexivity.
  - intros a. destruct isLoading; [intros []|].
    destruct (StorageCalculationResult.isRateSufficient s),
             (StorageCalculationResult.isLockupSufficient s);
      cbn [andb negb]; [intros []|..];
      (destruct ((UseBalancesResponse.filBalance balances =? 0)
                 || (UseBalancesResponse.usdfcBalance balances =? 0));
       [intros []|]);
      cbn [payments flat_map slotPayments app branchOfFlags branchPayments];
      rewrite ?app_nil_r; intros Ha.
    + left. symmetry. apply (LockupIncreaseAction_payments_incl _ _ _ _ _ Ha).
    + left. symmetry. apply (RateIncreaseAction_payments_incl _ _ _ _ Ha).
    + exact Ha.
Qed.

Lemma C7_witness :
  StorageCalculationResult.isSufficient
    (scenarioMetrics (scenarioBalance 5 10 500) 20)
  = StorageCalculationResult.isRateSufficient
      (scenarioMetrics (scenarioBalance 5 10 500) 20)
    && StorageCalculationResult.isLockupSufficient
         (scenarioMetrics (scenarioBalance 5 10 500) 20)
  /\ branchesTaken
       (ActionSection (Some (scenarioBalances 1 1 (scenarioBalance 5 10 500) 20))
          false false)
     = [DepositAndRaiseRate].
Proof.
  split; [reflexivity|].
  destruct (C7_remediation_branches
              (scenarioBalances 1 1 (scenarioBalance 5 10 500) 20) false false
              eq_refl) as (_ & _ & Hone & _).
  apply Hone; [reflexivity|]. right. simpl. lia.
Defined.

(** C7 as stated fails: with both flags false and a FIL balance of zero,
    the section shows the tokens-required notice and none of the four
    branches applies. *)
Lemma C7_counterexample :
  StorageCalculationResult.isRateSufficient
    (scenarioMetrics (scenarioBalance 5 10 500) 20) = false
  /\ StorageCalculationResult.isLockupSufficient
       (scenarioMetrics (scenarioBalance 5 10 500) 20) = false
  /\ ActionSection (Some (scenarioBalances 0 1 (scenarioBalance 5 10 500) 20))
       false false
     = TokensRequired true false
  /\ branchesTaken
       (ActionSection (Some (scenarioBalances 0 1 (scenarioBalance 5 10 500) 20))
          false false)
     <> [branchOfFlags false false].
Proof.
  split; [reflexivity|]. split; [reflexivity|]. split; [reflexivity|discriminate].
Qed.

(** C10: In an insufficient state the remediation is suppressed whenever
    one of its amounts is zero.  In the branch for a sufficient rate and an
    insufficient lockup, a zero lockup needed, deposit needed or rate needed
    leaves no payment to submit, and the mounted lockup action renders
    nothing; in the branch for an insufficient rate and a sufficient lockup
    the same holds for a zero current lockup allowance or rate needed.  The
    two action components render nothing exactly in these cases. *)
Theorem C10_suppressed_remediation balances isLoading busy :
  let s := UseBalancesResponse.storage balances in
  let view := ActionSection (Some balances) isLoading busy in
  StorageCalculationResult.isSufficient s = false ->
  (StorageCalculationResult.isRateSufficient s = true ->
   StorageCalculationResult.isLockupSufficient s = false ->
   StorageCalculationResult.totalLockupNeeded s = 0
   \/ StorageCalculationResult.depositNeeded s = 0
   \/ StorageCalculationResult.rateNeeded s = 0 ->
   payments view = []
   /\ (isLoading = false ->
       UseBalancesResponse.filBalance balances <> 0 ->
       UseBalancesResponse.usdfcBalance balances <> 0 ->
       view = Actions [LockupIncrease None; Skipped; Skipped]))
  /\ (StorageCalculationResult.isRateSufficient s = false ->
      StorageCalculationResult.isLockupSufficient s = true ->
      StorageCalculationResult.currentLockupAllowance s = 0
      \/ StorageCalculationResult.rateNeeded s = 0 ->
      payments view = []
      /\ (isLoading = false ->
          UseBalancesResponse.filBalance balances <> 0 ->
          UseBalancesResponse.usdfcBalance balances <> 0 ->
          view = Actions [Skipped; RateIncrease None; Skipped]))
  /\ (forall totalLockupNeeded depositNeeded rateNeeded,
      LockupIncreaseAction (Some totalLockupNeeded) (Some depositNeeded)
        (Some rateNeeded) busy = None
      <-> totalLockupNeeded = 0 \/ depositNeeded = 0 \/ rateNeeded = 0)
  /\ (forall currentLockupAllowance rateNeeded,
      RateIncreaseAction (Some currentLockupAllowance) (Some rateNeeded) busy
      = None
      <-> currentLockupAllowance = 0 \/ rateNeeded = 0).
Proof.
  intros s view Hs. subst view. unfold ActionSection. fold s. rewrite Hs.
  split; [|split; [|split]];
    [intros Hrate Hlockup Hzero; rewrite Hrate, Hlockup; cbn [negb andb]
    |intros Hrate Hlockup Hzero; rewrite Hrate, Hlockup; cbn [negb andb]
    |intros l d r; rewrite LockupIncreaseAction_null; cbn [falsy];
     rewrite !orb_true_iff, !Z.eqb_eq; tauto
    |intros l r; rewrite RateIncreaseAction_null; cbn [falsy];
     rewrite !orb_true_iff, !Z.eqb_eq; tauto].
  - assert (E : LockupIncreaseAction
                  (Some (StorageCalculationResult.totalLockupNeeded s))
                  (Some (StorageCalculationResult.depositNeeded s))
                  (Some (StorageCalculationResult.rateNeeded s)) busy = None).
    { apply LockupIncreaseAction_null. cbn [falsy].
      destruct Hzero as [-> | [-> | ->]]; cbn; rewrite ?orb_true_r; reflexivity. }
    rewrite E.
    destruct (Z.eqb_spec (UseBalancesResponse.filBalance balances) 0),
             (Z.eqb_spec (UseBalancesResponse.usdfcBalance balances) 0),
             isLoading; cbn; split; try reflexivity; intros; try lia; discriminate.
  - assert (E : RateIncreaseAction
                  (Some (StorageCalculationResult.currentLockupAllowance s))
                  (Some (StorageCalculationResult.rateNeeded s)) busy = None).
    { apply RateIncreaseAction_null. cbn [falsy].
      destruct Hzero as [-> | ->]; cbn; rewrite ?orb_true_r; reflexivity. }
    rewrite E.
    destruct (Z.eqb_spec (UseBalancesResponse.filBalance balances) 0),
             (Z.eqb_spec (UseBalancesResponse.usdfcBalance balances) 0),
             isLoading; cbn; split; try reflexivity; intros; try lia; discriminate.
Qed.

Lemma C10_witness :
  StorageCalculationResult.isSufficient
    (scenarioMetrics (scenarioBalance 20 10 0) 20) = false
  /\ StorageCalculationResult.isRateSufficient
       (scenarioMetrics (scenarioBalance 20 10 0) 20) = true
  /\ StorageCalculationResult.isLockupSufficient
       (scenarioMetrics (scenarioBalance 20 10 0) 20) = false
  /\ StorageCalculationResult.depositNeeded
       (scenarioMetrics (scenarioBalance 20 10 0) 20) = 0
  /\ payments
       (ActionSection (Some (scenarioBalances 1 1 (scenarioBalance 20 10 0) 20))
          false false) = []
  /\ ActionSection (Some (scenarioBalances 1 1 (scenarioBalance 20 10 0) 20))
       false false
     = Actions [LockupIncrease None; Skipped; Skipped].
Proof.
  split; [reflexivity|]. split; [reflexivity|].
  split; [reflexivity|]. split; [reflexivity|].
  destruct (C10_suppressed_remediation
              (scenarioBalances 1 1 (scenarioBalance 20 10 0) 20) false false
              eq_refl) as [Hlockup _].
  destruct (Hlockup eq_refl eq_refl (or_intror (or_introl eq_refl)))
    as [Hnone Hview].
  split; [exact Hnone|]. apply Hview; [reflexivity|simpl; lia|simpl; lia].
Defined.

(** * Further properties of the engine and of the components

    More facts about numbers first, then the default parameters and the
    results of the engine, and the components that display them. *)

(** The mantissa of a converted positive bigint fills the 53 bits. *)
Lemma Number_normal z m e :
  0 < z -> Number z = S754_finite false m e -> 2 ^ 52 <= Zpos m < 2 ^ 53.
Proof.
  intros Hz E. pose proof (Number_rounds z Hz) as (v & c & Hv & Hc & Hf).
  rewrite E in Hf.
  assert (H0 : (0 <= IZR z)%R) by (apply IZR_le; lia).
  destruct (rounded_canon _ v c H0 Hv Hc) as (Ha & Ha').
  assert (Hc' : -1074 < c).
  { destruct Hc as (_ & Hlt & _).
    assert (H1 : (bpow 0 < bpow (c + 53))%R).
    { apply Rle_lt_trans with (2 := Hlt). unfold bpow. simpl. apply IZR_le. lia. }
    apply bpow_lt_inv in H1. lia. }
  specialize (Ha' Hc').
  rewrite finish_eq in Hf by (destruct Hc; lia || assumption).
  symmetry in Hf.
  destruct (Z.eqb_spec (rne v) (2 ^ 53)) as [E53 | N53].
  - apply mk_finite in Hf. destruct Hf as (_ & Hm & _). lia.
  - apply mk_finite in Hf. destruct Hf as (_ & Hm & _). lia.
Qed.

(** The product of two positive finite numbers, one of them with a full
    mantissa, is the rounded product of their values. *)
Lemma SFmul_finite_spec mx ex my ey :
  2 ^ 52 <= Zpos my ->
  rounds_to (IZR (Zpos mx) * bpow ex * (IZR (Zpos my) * bpow ey))
    (SFmul 53 1024 (S754_finite false mx ex) (S754_finite false my ey)).
Proof.
  intros Hy. cbn [SFmul xorb].
  apply (binary_round_aux_spec (Zpos (mx * my)) (ex + ey) loc_Exact).
  - lia.
  - cbn [loc_code]. rewrite Z.add_0_r.
    replace (IZR (Zpos mx) * bpow ex * (IZR (Zpos my) * bpow ey))%R
      with (IZR (Zpos (mx * my)) * bpow (ex + ey))%R
      by (rewrite Pos2Z.inj_mul, mult_IZR, bpow_add; ring).
    apply coded_exact.
  - rewrite fexp_eq.
    assert (Hd : 53 <= Zdigits2 (Zpos (mx * my))).
    { pose proof (Zdigits2_bounds (Zpos (mx * my)) ltac:(lia)) as [_ Hu].
      set (d := Zdigits2 (Zpos (mx * my))) in *.
      destruct (Z_lt_le_dec d 53) as [Hlt | Hge];
        [exfalso|exact Hge].
      assert (2 ^ d <= 2 ^ 52)
        by (apply Z.pow_le_mono_r; lia).
      rewrite Pos2Z.inj_mul in Hu.
      assert (1 * Zpos my <= Zpos mx * Zpos my)
        by (apply Z.mul_le_mono_nonneg_r; lia).
      lia. }
    lia.
Qed.

(** Converting a bigint below 2^53 to a number and back gives it again. *)
Lemma BigInt_Number z : 0 <= z < 2 ^ 53 -> BigInt (Number z) = Ok z.
Proof.
  intros Hz. destruct (Z.eq_dec z 0) as [-> | Hne]; [reflexivity|].
  destruct (Number_exact z ltac:(lia)) as (m & e & -> & Hv).
  unfold BigInt. cbn [signed].
  destruct (Z.leb_spec 0 e) as [He | He].
  - rewrite bpow_IZR, <- mult_IZR in Hv by assumption.
    apply eq_IZR in Hv. cbn [signed cond_Zopp]. rewrite <- Hv. reflexivity.
  - assert (Hm : Zpos m = z * 2 ^ (- e)).
    { apply eq_IZR. rewrite mult_IZR, <- bpow_IZR, <- Hv, Rmult_assoc by lia.
      rewrite <- bpow_add. replace (e + - e) with 0 by lia.
      unfold bpow. simpl. ring. }
    assert (HP : 0 < 2 ^ (- e)) by (apply Z.pow_pos_nonneg; lia).
    rewrite Hm, Z.mod_mul by lia. cbn [Z.eqb signed cond_Zopp].
    rewrite Hm, Z.div_mul by lia. reflexivity.
Qed.

(** The product of two converted bigints below 2^53 is their product,
    converted. *)
Lemma mul_Number a b :
  0 < a < 2 ^ 53 -> 0 < b < 2 ^ 53 ->
  mul (Number a) (Number b) = Number (a * b).
Proof.
  intros Ha Hb.
  destruct (Number_exact a Ha) as (ma & ea & Ea & Va).
  destruct (Number_exact b Hb) as (mb & eb & Eb & Vb).
  pose proof (Number_normal b mb eb ltac:(lia) Eb) as [Hn _].
  apply (rounds_to_fun (IZR (a * b))); [|apply Number_rounds; nia].
  rewrite Ea, Eb, mult_IZR, <- Va, <- Vb. unfold mul, Js.prec, Js.emax.
  apply SFmul_finite_spec. assumption.
Qed.

(** [BigInt] returns the value of a finite number that is an integer, and
    throws a [RangeError] for every other number. *)
Lemma BigInt_spec x :
  (exists z, is_finite x = true /\ val x = IZR z /\ BigInt x = Ok z)
  \/ ((is_finite x = false \/ forall z, val x <> IZR z)
      /\ BigInt x = Throw RangeError).
Proof.
  destruct x as [s | s | | s m e]; cbn [BigInt is_finite].
  - left. exists 0. repeat split.
  - right. split; [left|]; reflexivity.
  - right. split; [left|]; reflexivity.
  - destruct (Z.leb_spec 0 e) as [He | He].
    + left. eexists. split; [reflexivity|]. split; [|reflexivity].
      cbn [val]. unfold signed. rewrite mult_IZR, bpow_IZR by assumption.
      reflexivity.
    + assert (HP : 0 < 2 ^ (- e)) by (apply Z.pow_pos_nonneg; lia).
      assert (HB : (bpow e * IZR (2 ^ (- e)) = 1)%R).
      { rewrite <- bpow_IZR, <- bpow_add by lia.
        replace (e + - e) with 0 by lia. reflexivity. }
      destruct (Z.eqb_spec (Zpos m mod 2 ^ (- e)) 0) as [Hm | Hm].
      * left. eexists. split; [reflexivity|]. split; [|reflexivity].
        apply Z.mod_divide in Hm; [|lia]. destruct Hm as [k Hk].
        assert (Hs : signed s m = (if s then - k else k) * 2 ^ (- e))
          by (unfold signed; destruct s; cbn [cond_Zopp]; lia).
        rewrite Hs, Z.div_mul by lia. cbn [val]. fold (signed s m).
        rewrite Hs, mult_IZR, Rmult_assoc, (Rmult_comm (IZR (2 ^ (- e)))), HB.
        ring.
      * right. split; [|reflexivity]. right. intros z Hz. apply Hm.
        cbn [val] in Hz.
        assert (Hs : cond_Zopp s (Zpos m) = z * 2 ^ (- e)).
        { apply eq_IZR. rewrite mult_IZR, <- Hz, Rmult_assoc, HB. ring. }
        assert (Hp : Zpos m = (if s then - z else z) * 2 ^ (- e))
          by (destruct s; cbn [cond_Zopp] in Hs; lia).
        rewrite Hp. apply Z.mod_mul. lia.
Qed.

(** A quotient of converted bigints does not grow with the divisor. *)
Lemma div_antitone n d1 d2 :
  0 <= n < 2 ^ 1023 -> 0 < d1 <= d2 -> d2 < 2 ^ 1023 ->
  SFleb (Js.div (Number n) (Number d2)) (Js.div (Number n) (Number d1)) = true.
Proof.
  intros Hn Hd H2.
  destruct (Number_finite d1 ltac:(lia)) as (m1 & e1 & E1).
  destruct (Number_finite d2 ltac:(lia)) as (m2 & e2 & E2).
  pose proof (Number_rounds d1 ltac:(lia)) as R1.
  pose proof (Number_rounds d2 ltac:(lia)) as R2.
  rewrite E1 in *. rewrite E2 in *.
  destruct (Z.eq_dec n 0) as [-> | Hne]; [reflexivity|].
  destruct (Number_finite n ltac:(lia)) as (m & e & ->).
  assert (Hxy : (0 <= IZR d1 <= IZR d2)%R) by (split; apply IZR_le; lia).
  destruct (rounds_to_val_le _ _ _ _ _ _ _ _ Hxy R1 R2) as (_ & _ & Hv).
  assert (P1 : (0 < IZR (Zpos m1) * bpow e1)%R)
    by (apply Rmult_lt_0_compat; [apply IZR_lt; lia|apply bpow_pos]).
  assert (P : (0 < IZR (Zpos m) * bpow e)%R)
    by (apply Rmult_lt_0_compat; [apply IZR_lt; lia|apply bpow_pos]).
  apply (rounds_to_le (IZR (Zpos m) * bpow e / (IZR (Zpos m2) * bpow e2))
                      (IZR (Zpos m) * bpow e / (IZR (Zpos m1) * bpow e1)));
    [|apply SFdiv_finite_spec|apply SFdiv_finite_spec].
  split.
  - apply Rlt_le, Rdiv_lt_0_compat; lra.
  - unfold Rdiv. apply Rmult_le_compat_l; [lra|].
    apply Rinv_le_contravar; lra.
Qed.

(** A number that is at least a bigint is at least any smaller bigint,
    and so is any number above it. *)
Lemma geb_bigint_mono f g s t :
  nonneg_shape f -> nonneg_shape g ->
  (forall m e m' e', f = S754_finite false m e -> g = S754_finite false m' e' ->
     (val f <= val g)%R) ->
  SFleb f g = true ->
  t <= s -> geb_bigint f s = true -> geb_bigint g t = true.
Proof.
  intros Sf Sg Hv Hle Hts Hf.
  assert (Hst : (IZR t <= IZR s)%R) by (apply IZR_le; assumption).
  apply geb_bigint_spec in Hf. apply geb_bigint_spec.
  destruct Sg as [-> | [(m' & e' & ->) | ->]]; [| |left; reflexivity]; right;
    (split; [reflexivity|]);
    destruct Sf as [-> | [(m & e & ->) | ->]]; try discriminate Hle;
    destruct Hf as [Hf | [_ Hf]]; try discriminate Hf.
  - cbn [val] in *. lra.
  - cbn [val] in Hf. apply Rle_trans with 0%R; [lra|].
    cbn [val cond_Zopp]. apply Rmult_le_pos;
      [apply IZR_le; lia|pose proof (bpow_pos e'); lra].
  - specialize (Hv _ _ _ _ eq_refl eq_refl). lra.
Qed.

(** Quotients of non-negative bigints by a positive finite number: the
    values are ordered as the bigints are. *)
Lemma quotient_val_mono mg eg z1 z2 m e m' e' :
  0 <= z1 <= z2 ->
  Js.div (Number z1) (S754_finite false mg eg) = S754_finite false m e ->
  Js.div (Number z2) (S754_finite false mg eg) = S754_finite false m' e' ->
  (val (S754_finite false m e) <= val (S754_finite false m' e'))%R.
Proof.
  intros Hz E1 E2.
  destruct (Z.eq_dec z1 0) as [-> | N1]; [discriminate E1|].
  destruct (Number_pos_shape z1 ltac:(lia)) as [(m1 & e1 & F1) | F1];
    [|rewrite F1 in E1; discriminate E1].
  destruct (Number_pos_shape z2 ltac:(lia)) as [(m2 & e2 & F2) | F2];
    [|rewrite F2 in E2; discriminate E2].
  pose proof (Number_rounds z1 ltac:(lia)) as R1.
  pose proof (Number_rounds z2 ltac:(lia)) as R2.
  rewrite F1 in *. rewrite F2 in *.
  assert (Hxy : (0 <= IZR z1 <= IZR z2)%R) by (split; apply IZR_le; lia).
  destruct (rounds_to_val_le _ _ _ _ _ _ _ _ Hxy R1 R2) as (_ & _ & Hv).
  assert (HG : (0 < IZR (Zpos mg) * bpow eg)%R)
    by (apply Rmult_lt_0_compat; [apply IZR_lt; lia|apply bpow_pos]).
  assert (P1 : (0 < IZR (Zpos m1) * bpow e1)%R)
    by (apply Rmult_lt_0_compat; [apply IZR_lt; lia|apply bpow_pos]).
  pose proof (SFdiv_finite_spec m1 e1 mg eg) as D1.
  pose proof (SFdiv_finite_spec m2 e2 mg eg) as D2.
  unfold Js.div, Js.prec, Js.emax in E1, E2. rewrite E1 in D1. rewrite E2 in D2.
  cbn [val cond_Zopp].
  refine (proj2 (proj2 (rounds_to_val_le _ _ _ _ _ _ _ _ _ D1 D2))).
  split.
  - apply Rlt_le, Rdiv_lt_0_compat; lra.
  - unfold Rdiv. apply Rmult_le_compat_r; [|lra].
    apply Rlt_le, Rinv_0_lt_compat. lra.
Qed.

(** The quotient of two positive bigints below 2^53 is a positive finite
    number that rounds the quotient of the two. *)
Lemma div_Number_finite n d :
  0 < n < 2 ^ 53 -> 0 < d < 2 ^ 53 ->
  exists m e, Js.div (Number n) (Number d) = S754_finite false m e
              /\ rounds_to (IZR n / IZR d) (S754_finite false m e).
Proof.
  intros Hn Hd.
  destruct (Number_exact n Hn) as (mn & en & En & Vn).
  destruct (Number_exact d Hd) as (md & ed & Ed & Vd).
  pose proof (SFdiv_finite_spec mn en md ed) as R. rewrite Vn, Vd in R.
  destruct (rounds_to_nearest _ _ (ratio_in_range n d Hn Hd) R) as (m & e & E & _).
  exists m, e. rewrite En, Ed. unfold Js.div, Js.prec, Js.emax.
  rewrite E in *. split; [reflexivity|assumption].
Qed.

Lemma val_pos m e : (0 < val (S754_finite false m e))%R.
Proof.
  cbn [val cond_Zopp]. apply Rmult_lt_0_compat; [apply IZR_lt; lia|apply bpow_pos].
Qed.

(** The share of one quotient in a larger one, in percent. *)
Lemma percent_range a b g :
  0 < a <= b -> b < 2 ^ 53 -> 0 < g < 2 ^ 53 ->
  let p := mul (Js.div (Js.div (Number a) (Number g))
                       (Js.div (Number b) (Number g))) (Number 100) in
  SFleb Js.zero p = true /\ SFleb p (Number 100) = true.
Proof.
  intros Ha Hb Hg.
  destruct (div_Number_finite a g ltac:(lia) Hg) as (mc & ec & -> & Rc).
  destruct (div_Number_finite b g ltac:(lia) Hg) as (ml & el & -> & Rl).
  assert (Pg : (0 < IZR g)%R) by (apply IZR_lt; lia).
  assert (Pa : (0 < IZR a)%R) by (apply IZR_lt; lia).
  assert (Pab : (IZR a <= IZR b)%R) by (apply IZR_le; lia).
  assert (Hcl : (0 <= IZR a / IZR g <= IZR b / IZR g)%R).
  { pose proof (Rinv_0_lt_compat _ Pg). unfold Rdiv. split; nra. }
  destruct (rounds_to_val_le _ _ _ _ _ _ _ _ Hcl Rc Rl) as (_ & _ & Hv).
  pose proof (val_pos mc ec) as Pc. pose proof (val_pos ml el) as Pl.
  cbn [val cond_Zopp] in Pc, Pl.
  pose proof (SFdiv_finite_spec mc ec ml el) as Rq.
  set (x := (IZR (Zpos mc) * bpow ec / (IZR (Zpos ml) * bpow el))%R) in *.
  assert (Hx : (0 <= x <= 1)%R).
  { unfold x. split.
    - apply Rlt_le, Rdiv_lt_0_compat; lra.
    - apply Rmult_le_reg_r with (IZR (Zpos ml) * bpow el)%R; [lra|].
      unfold Rdiv. rewrite Rmult_assoc, Rinv_l by lra. lra. }
  destruct (Number_exact 1 ltac:(lia)) as (m1 & e1 & E1 & V1).
  pose proof (Number_rounds 1 ltac:(lia)) as R1. rewrite E1 in R1.
  destruct (Number_exact 100 ltac:(lia)) as (mh & eh & Eh & Vh).
  pose proof (Number_normal 100 mh eh ltac:(lia) Eh) as [Nh _].
  pose proof (Number_rounds 100 ltac:(lia)) as Rh.
  cbv zeta. unfold Js.div, Js.prec, Js.emax, mul, Js.zero.
  destruct (rounds_to_shape x _ (proj1 Hx) Rq) as [-> | [(mq & eq & Eq) | Eq]].
  - rewrite Eh. split; reflexivity.
  - rewrite Eq in *.
    destruct (rounds_to_val_le _ _ _ _ _ _ _ _ Hx Rq R1) as (_ & _ & Hq).
    rewrite V1 in Hq. pose proof (val_pos mq eq) as Pq. cbn [val cond_Zopp] in Pq.
    rewrite Eh. pose proof (SFmul_finite_spec mq eq mh eh Nh) as Rp.
    rewrite Vh in Rp. rewrite <- Eh.
    assert (Hp : (0 <= IZR (Zpos mq) * bpow eq * IZR 100 <= IZR 100)%R)
      by (split; nra).
    rewrite <- (Eh) in Rp.
    split.
    + apply zero_le_shape. unfold nonneg_shape.
      apply (rounds_to_shape _ _ (proj1 Hp) Rp).
    + apply (rounds_to_le _ _ _ _ Hp Rp Rh).
  - exfalso. rewrite Eq in Rq.
    pose proof (rounds_to_le _ _ _ _ Hx Rq R1) as F. discriminate F.
Qed.

(** Two positive finite numbers in the order [<=] are equal or in the
    order [<]. *)
Lemma SFleb_ltb m e m' e' :
  SFleb (S754_finite false m e) (S754_finite false m' e') = true ->
  (m, e) <> (m', e') ->
  SFltb (S754_finite false m e) (S754_finite false m' e') = true.
Proof.
  unfold SFleb, SFltb, SFcompare.
  destruct (Z.compare_spec e e') as [<- | _ | _]; try (intros; assumption).
  change (Pos.compare_cont Eq m m') with (Pos.compare m m').
  destruct (Pos.compare_spec m m') as [<- | _ | _]; try (intros; assumption).
  intros _ N. destruct N. reflexivity.
Qed.

(** A persistence badge is of the default variant exactly for more than
    seven days: what is above seven is truthy. *)
Lemma persistenceVariant_spec days :
  persistenceVariant (Some days) = DefaultVariant
  <-> gtb days (Number 7) = true.
Proof.
  unfold persistenceVariant.
  destruct days as [s | s | | s m e]; cbn [truthy andb].
  - split; discriminate.
  - destruct (gtb _ _); split; congruence.
  - split; discriminate.
  - destruct (gtb _ _); split; congruence.
Qed.

Lemma strictEq_eq a b : strictEq a b = true <-> a = b.
Proof.
  destruct a as [a|], b as [b|]; cbn; try (split; congruence).
  rewrite String.eqb_eq. split; congruence.
Qed.

(** Settle membership in a list that is written out. *)
Ltac listed H :=
  repeat match type of H with
         | In _ (_ :: _) => cbn [In] in H
         | In _ [] => destruct H
         | ex _ => destruct H as [? H]
         | _ \/ _ => destruct H as [H | H]
         | False => destruct H
         | _ = _ => first [discriminate H | subst]
         end;
  repeat match goal with
         | |- ex _ => eexists
         | |- _ \/ _ => first [left; reflexivity | right]
         end;
  try reflexivity.

(** X1: [calculateStorageMetrics] rejects exactly when the service call that
    fetches the snapshot rejects, and with the same error: the computation
    after the fetch never throws. *)
Theorem calculateStorageMetrics_throws_iff
    sdk withCDN check days capacity threshold e :
  calculateStorageMetrics sdk withCDN check days capacity threshold = Throw e
  <-> check capacity withCDN days = Throw e.
Proof.
  split.
  - destruct (check capacity withCDN days) as [pb | e'] eqn:H.
    + rewrite (calculateStorageMetrics_ok _ _ _ _ _ _ _ H). discriminate.
    + rewrite (calculateStorageMetrics_rejected _ _ _ _ _ _ _ H). congruence.
  - apply calculateStorageMetrics_rejected.
Qed.

(** X2: a call that leaves out the threshold converts the configured one
    with [BigInt] before the snapshot is fetched.  When the configured
    threshold is a finite integer the call is the call with that integer;
    for every other number it rejects with a RangeError, whatever the service
    answers. *)
Theorem calculateStorageMetricsCall_threshold sdk config check days capacity :
  let configured := Config.minDaysThreshold config in
  let call := calculateStorageMetricsCall sdk config check days capacity in
  (exists z, is_finite configured = true /\ val configured = IZR z
             /\ call None = call (Some z))
  \/ ((is_finite configured = false \/ forall z, val configured <> IZR z)
      /\ call None = Throw RangeError).
Proof.
  cbv zeta. unfold calculateStorageMetricsCall.
  destruct (BigInt_spec (Config.minDaysThreshold config))
    as [(z & Hf & Hv & ->) | (Hn & ->)].
  - left. exists z. repeat split; assumption.
  - right. split; [assumption|reflexivity].
Qed.

(** X3: with a configured capacity of [g] GB and a configured threshold [t],
    both integers below 2^53, the call without arguments is the engine at the
    capacity of exactly [g * GiB] bytes and at the threshold [t]; when the
    byte count is below 2^53 too, the usage estimate of a snapshot with a rate
    in use is that share of [g * GiB] bytes. *)
Theorem calculateStorageMetricsCall_defaults sdk config check g t :
  Config.storageCapacity config = Number g -> 0 < g < 2 ^ 53 ->
  0 < GiB (SIZE_CONSTANTS sdk) < 2 ^ 53 ->
  Config.minDaysThreshold config = Number t -> 0 <= t < 2 ^ 53 ->
  let capacity := Number (g * GiB (SIZE_CONSTANTS sdk)) in
  calculateStorageMetricsCall sdk config check None None None
  = calculateStorageMetrics sdk (Config.withCDN config) check
      (Config.persistencePeriod config) capacity t
  /\ (g * GiB (SIZE_CONSTANTS sdk) < 2 ^ 53 ->
      forall pb,
      check capacity (Config.withCDN config) (Config.persistencePeriod config)
      = Ok pb ->
      0 < PandoraBalanceData.currentRateUsed pb ->
      0 < PandoraBalanceData.rateAllowanceNeeded pb ->
      exists r,
        calculateStorageMetricsCall sdk config check None None None = Ok r
        /\ StorageCalculationResult.currentStorageBytes r
           = Z.quot (PandoraBalanceData.currentRateUsed pb
                     * (g * GiB (SIZE_CONSTANTS sdk)))
                    (PandoraBalanceData.rateAllowanceNeeded pb)).
Proof.
  intros Eg Hg HG Et Ht capacity.
  assert (E : calculateStorageMetricsCall sdk config check None None None
              = calculateStorageMetrics sdk (Config.withCDN config) check
                  (Config.persistencePeriod config) capacity t).
  { unfold calculateStorageMetricsCall. cbn [orElse].
    rewrite Et, (BigInt_Number t Ht), Eg, (mul_Number _ _ Hg HG).
    reflexivity. }
  split; [exact E|].
  intros Hc pb Hpb Hu Hn. rewrite E.
  rewrite (calculateStorageMetrics_ok _ _ _ _ _ _ _ Hpb).
  eexists. split; [reflexivity|].
  cbn [StorageCalculationResult.currentStorageBytes].
  unfold calculateCurrentStorageUsage.
  apply Z.gtb_lt in Hu, Hn. rewrite Hu, Hn. cbn [andb].
  unfold capacity. rewrite BigInt_Number by nia.
  cbn [Js.bind]. unfold bigint_div.
  apply Z.gtb_lt in Hn.
  destruct (Z.eqb_spec (PandoraBalanceData.rateAllowanceNeeded pb) 0); [lia|].
  reflexivity.
Qed.

Lemma calculateStorageMetricsCall_defaults_witness :
  Config.storageCapacity scenarioConfig = Number 10
  /\ 0 < 10 < 2 ^ 53
  /\ 0 < GiB (SIZE_CONSTANTS sdkScenario) < 2 ^ 53
  /\ Config.minDaysThreshold scenarioConfig = Number 10
  /\ 0 <= 10 < 2 ^ 53
  /\ calculateStorageMetricsCall sdkScenario scenarioConfig
       (answer (usageBalance 5 10)) None None None
     = calculateStorageMetrics sdkScenario false (answer (usageBalance 5 10))
         (Number 30) (Number (10 * 2 ^ 30)) 10.
Proof.
  split; [reflexivity|]. split; [split; reflexivity|].
  split; [split; reflexivity|]. split; [reflexivity|].
  split; [split; [discriminate|reflexivity]|].
  apply (calculateStorageMetricsCall_defaults sdkScenario scenarioConfig
           (answer (usageBalance 5 10)) 10 10);
    [reflexivity | split; reflexivity | split; reflexivity | reflexivity
    | split; [simpl; lia | reflexivity]].
Defined.

(** X4: when the required rate is zero the threshold plays no role: the
    lockup counts as sufficient exactly when some lockup allowance remains,
    and the storage as sufficient when moreover the rate allowance is not
    negative. *)
Theorem zero_required_rate_ignores_threshold
    sdk withCDN check days capacity threshold pb :
  check capacity withCDN days = Ok pb ->
  perEpoch (PandoraBalanceData.costs pb) = 0 ->
  exists r,
    calculateStorageMetrics sdk withCDN check days capacity threshold = Ok r
    /\ StorageCalculationResult.isLockupSufficient r
       = (0 <? PandoraBalanceData.currentLockupAllowance pb
               - PandoraBalanceData.currentLockupUsed pb)
    /\ StorageCalculationResult.isSufficient r
       = (0 <=? PandoraBalanceData.currentRateAllowance pb)
         && (0 <? PandoraBalanceData.currentLockupAllowance pb
                  - PandoraBalanceData.currentLockupUsed pb).
Proof.
  intros H Hrate. rewrite (calculateStorageMetrics_ok _ _ _ _ _ _ _ H).
  eexists. split; [reflexivity|].
  cbn [StorageCalculationResult.isLockupSufficient
       StorageCalculationResult.isSufficient].
  rewrite Hrate, Z.mul_0_r.
  set (remaining := PandoraBalanceData.currentLockupAllowance pb
                    - PandoraBalanceData.currentLockupUsed pb).
  assert (E : geb_bigint (Js.div (Number remaining) (Number 0)) threshold
              = (0 <? remaining)).
  { destruct (Z.compare_spec remaining 0) as [-> | Hneg | Hpos].
    - reflexivity.
    - assert (Hp : 0 < - remaining) by lia.
      rewrite <- (Z.opp_involutive remaining), (Number_opp _ Hp), div_opp_l.
      rewrite Z.opp_involutive.
      destruct (Z.ltb_spec 0 remaining); [lia|].
      destruct (Number_pos_shape _ Hp) as [(m & e & ->) | ->]; reflexivity.
    - destruct (Z.ltb_spec 0 remaining); [|lia].
      destruct (Number_pos_shape _ Hpos) as [(m & e & ->) | ->]; reflexivity. }
  rewrite E. split; [reflexivity|]. f_equal.
  rewrite Z.geb_leb. reflexivity.
Qed.

Lemma zero_required_rate_ignores_threshold_witness :
  answer (scenarioBalance 10 0 500) tenGiB false thirtyDays
  = Ok (scenarioBalance 10 0 500)
  /\ perEpoch (PandoraBalanceData.costs (scenarioBalance 10 0 500)) = 0
  /\ exists r,
       calculateStorageMetrics sdkScenario false
         (answer (scenarioBalance 10 0 500)) thirtyDays tenGiB (10 ^ 6) = Ok r
       /\ StorageCalculationResult.isLockupSufficient r = true
       /\ StorageCalculationResult.isSufficient r = true.
Proof.
  split; [reflexivity|]. split; [reflexivity|].
  apply (zero_required_rate_ignores_threshold sdkScenario false
           (answer (scenarioBalance 10 0 500)) thirtyDays tenGiB (10 ^ 6)
           (scenarioBalance 10 0 500));
    reflexivity.
Defined.

(** X5: with a rate in use, the runway at the current rate is the remaining
    lockup allowance divided by the lockup that the rate in use consumes per
    day; it is the exact number of days when the division is exact below
    2^53, and zero when nothing remains. *)
Theorem runway_at_current_rate_with_usage
    sdk withCDN check days capacity threshold pb :
  check capacity withCDN days = Ok pb ->
  0 < EPOCHS_PER_DAY (TIME_CONSTANTS sdk) ->
  0 < PandoraBalanceData.currentRateUsed pb ->
  exists r,
    calculateStorageMetrics sdk withCDN check days capacity threshold = Ok r
    /\ let remaining :=
         PandoraBalanceData.currentLockupAllowance pb
         - PandoraBalanceData.currentLockupUsed pb in
       let lockupPerDay :=
         EPOCHS_PER_DAY (TIME_CONSTANTS sdk)
         * PandoraBalanceData.currentRateUsed pb in
       StorageCalculationResult.persistenceDaysLeftAtCurrentRate r
       = Js.div (Number remaining) (Number lockupPerDay)
       /\ (forall days, remaining = days * lockupPerDay ->
           Z.abs remaining < 2 ^ 53 ->
           StorageCalculationResult.persistenceDaysLeftAtCurrentRate r
           = Number days)
       /\ (remaining = 0 ->
           StorageCalculationResult.persistenceDaysLeftAtCurrentRate r
           = Js.zero).
Proof.
  intros H HE Hu. rewrite (calculateStorageMetrics_ok _ _ _ _ _ _ _ H).
  eexists. split; [reflexivity|].
  cbn [StorageCalculationResult.persistenceDaysLeftAtCurrentRate]. cbv zeta.
  set (remaining := PandoraBalanceData.currentLockupAllowance pb
                    - PandoraBalanceData.currentLockupUsed pb).
  set (lockupPerDay := EPOCHS_PER_DAY (TIME_CONSTANTS sdk)
                       * PandoraBalanceData.currentRateUsed pb).
  assert (Hpos : 0 < lockupPerDay) by (apply Z.mul_pos_pos; assumption).
  destruct (Z.gtb_spec lockupPerDay 0); [|lia].
  split; [reflexivity|]. split.
  - intros k Hk Habs. apply div_exact; assumption.
  - intros ->. apply (div_exact 0 lockupPerDay 0); [assumption|lia|reflexivity].
Qed.

Lemma runway_at_current_rate_with_usage_witness :
  answer (usageBalance 5 10) tenGiB false thirtyDays = Ok (usageBalance 5 10)
  /\ 0 < PandoraBalanceData.currentRateUsed (usageBalance 5 10)
  /\ exists r,
       calculateStorageMetrics sdkScenario false (answer (usageBalance 5 10))
         thirtyDays tenGiB 10 = Ok r
       /\ StorageCalculationResult.persistenceDaysLeftAtCurrentRate r
          = Js.div (Number 900) (Number 25).
Proof.
  split; [reflexivity|]. split; [reflexivity|].
  destruct (runway_at_current_rate_with_usage sdkScenario false
              (answer (usageBalance 5 10)) thirtyDays tenGiB 10
              (usageBalance 5 10) eq_refl eq_refl eq_refl)
    as (r & Hr & Hd & _).
  exists r. split; [exact Hr | exact Hd].
Defined.

(** X6: when the rate in use does not exceed the required rate, the runway
    at the required rate is at most the runway at the current rate. *)
Theorem runway_at_current_rate_is_longer
    sdk withCDN check days capacity threshold pb :
  check capacity withCDN days = Ok pb ->
  let remaining :=
    PandoraBalanceData.currentLockupAllowance pb
    - PandoraBalanceData.currentLockupUsed pb in
  let rateNeeded := perEpoch (PandoraBalanceData.costs pb) in
  0 < EPOCHS_PER_DAY (TIME_CONSTANTS sdk) ->
  0 <= remaining < 2 ^ 1023 ->
  0 <= PandoraBalanceData.currentRateUsed pb <= rateNeeded ->
  0 < rateNeeded ->
  EPOCHS_PER_DAY (TIME_CONSTANTS sdk) * rateNeeded < 2 ^ 1023 ->
  exists r,
    calculateStorageMetrics sdk withCDN check days capacity threshold = Ok r
    /\ Js.leb (StorageCalculationResult.persistenceDaysLeft r)
              (StorageCalculationResult.persistenceDaysLeftAtCurrentRate r)
       = true.
Proof.
  intros H remaining rateNeeded HE Hrem Hu Hr Hb.
  rewrite (calculateStorageMetrics_ok _ _ _ _ _ _ _ H).
  eexists. split; [reflexivity|].
  cbn [StorageCalculationResult.persistenceDaysLeft
       StorageCalculationResult.persistenceDaysLeftAtCurrentRate].
  fold remaining. fold rateNeeded. unfold Js.leb.
  set (E := EPOCHS_PER_DAY (TIME_CONSTANTS sdk)) in *.
  destruct (Number_finite (E * rateNeeded) ltac:(nia)) as (mg & eg & EG).
  destruct (Z.gtb_spec (E * PandoraBalanceData.currentRateUsed pb) 0) as [Hp | Hz].
  - apply div_antitone; [assumption| |assumption]. nia.
  - rewrite EG.
    destruct (Z.gtb_spec remaining 0) as [Hp' | Hz'].
    + apply shape_le_infinity, quotient_nonneg. lia.
    + replace remaining with 0 by lia. reflexivity.
Qed.

Lemma runway_at_current_rate_is_longer_witness :
  answer (usageBalance 5 10) tenGiB false thirtyDays = Ok (usageBalance 5 10)
  /\ 0 <= PandoraBalanceData.currentRateUsed (usageBalance 5 10)
       <= perEpoch (PandoraBalanceData.costs (usageBalance 5 10))
  /\ exists r,
       calculateStorageMetrics sdkScenario false (answer (usageBalance 5 10))
         thirtyDays tenGiB 10 = Ok r
       /\ Js.leb (StorageCalculationResult.persistenceDaysLeft r)
                 (StorageCalculationResult.persistenceDaysLeftAtCurrentRate r)
          = true.
Proof.
  split; [reflexivity|]. split; [simpl; lia|].
  apply (runway_at_current_rate_is_longer sdkScenario false
           (answer (usageBalance 5 10)) thirtyDays tenGiB 10
           (usageBalance 5 10));
    [reflexivity | reflexivity | simpl; lia | simpl; lia | reflexivity
    | simpl; lia].
Defined.

(** X7: at the same required rate, a lockup that is sufficient stays
    sufficient when more lockup allowance remains and when the threshold is
    lowered. *)
Theorem lockup_sufficiency_monotone
    sdk withCDN check check' days capacity threshold threshold' pb pb' :
  check capacity withCDN days = Ok pb ->
  check' capacity withCDN days = Ok pb' ->
  let remaining :=
    PandoraBalanceData.currentLockupAllowance pb
    - PandoraBalanceData.currentLockupUsed pb in
  let remaining' :=
    PandoraBalanceData.currentLockupAllowance pb'
    - PandoraBalanceData.currentLockupUsed pb' in
  let lockupPerDay :=
    EPOCHS_PER_DAY (TIME_CONSTANTS sdk)
    * perEpoch (PandoraBalanceData.costs pb) in
  perEpoch (PandoraBalanceData.costs pb')
  = perEpoch (PandoraBalanceData.costs pb) ->
  0 < lockupPerDay < 2 ^ 1023 ->
  0 <= remaining <= remaining' ->
  threshold' <= threshold ->
  exists r r',
    calculateStorageMetrics sdk withCDN check days capacity threshold = Ok r
    /\ calculateStorageMetrics sdk withCDN check' days capacity threshold'
       = Ok r'
    /\ (StorageCalculationResult.isLockupSufficient r = true ->
        StorageCalculationResult.isLockupSufficient r' = true).
Proof.
  intros H H' remaining remaining' lockupPerDay Ec Hl Hr Ht.
  rewrite (calculateStorageMetrics_ok _ _ _ _ _ _ _ H),
          (calculateStorageMetrics_ok _ _ _ _ _ _ _ H').
  do 2 eexists. split; [reflexivity|]. split; [reflexivity|].
  cbn [StorageCalculationResult.isLockupSufficient]. rewrite Ec.
  fold remaining. fold remaining'. fold lockupPerDay.
  destruct (Number_finite lockupPerDay Hl) as (mg & eg & ->).
  apply geb_bigint_mono; try assumption.
  - apply quotient_nonneg. lia.
  - apply quotient_nonneg. lia.
  - intros m e m' e' E1 E2. rewrite E1, E2.
    apply (quotient_val_mono mg eg remaining remaining'); assumption.
  - apply quotient_mono. lia.
Qed.

Lemma lockup_sufficiency_monotone_witness :
  answer (scenarioBalance 10 10 500) tenGiB false thirtyDays
  = Ok (scenarioBalance 10 10 500)
  /\ 15 <= 18
  /\ exists r r',
       calculateStorageMetrics sdkScenario false
         (answer (scenarioBalance 10 10 500)) thirtyDays tenGiB 18 = Ok r
       /\ calculateStorageMetrics sdkScenario false
            (answer (scenarioBalance 10 10 500)) thirtyDays tenGiB 15 = Ok r'
       /\ (StorageCalculationResult.isLockupSufficient r = true ->
           StorageCalculationResult.isLockupSufficient r' = true).
Proof.
  split; [reflexivity|]. split; [lia|].
  apply (lockup_sufficiency_monotone sdkScenario false
           (answer (scenarioBalance 10 10 500))
           (answer (scenarioBalance 10 10 500)) thirtyDays tenGiB 18 15
           (scenarioBalance 10 10 500) (scenarioBalance 10 10 500));
    [reflexivity | reflexivity | reflexivity | simpl; lia | simpl; lia | lia].
Defined.

(** X8: [calculateRateAllowanceGB] returns for either price, and a rate
    allowance supports at most as much storage with CDN as without. *)
Theorem capacity_with_CDN_is_smaller sdk rateAllowance :
  0 <= rateAllowance ->
  0 <= EPOCHS_PER_MONTH (TIME_CONSTANTS sdk) ->
  0 <= TiB (SIZE_CONSTANTS sdk) ->
  0 < GiB (SIZE_CONSTANTS sdk) < 2 ^ 1023 ->
  exists withCDN without,
    calculateRateAllowanceGB sdk true rateAllowance = Ok withCDN
    /\ calculateRateAllowanceGB sdk false rateAllowance = Ok without
    /\ Js.leb withCDN without = true.
Proof.
  intros Ha HE HT HG. rewrite !calculateRateAllowanceGB_ok.
  do 2 eexists. split; [reflexivity|]. split; [reflexivity|].
  destruct (Number_finite _ HG) as (mg & eg & ->).
  apply quotient_mono. apply Z.quot_le_compat_l.
  - apply Z.mul_nonneg_nonneg; [apply Z.mul_nonneg_nonneg|]; assumption.
  - cbv [getPricePerTBPerMonth STORAGE_CONSTANTS.PRICE_PER_TB_PER_MONTH
         STORAGE_CONSTANTS.PRICE_PER_TB_PER_MONTH_CDN]. lia.
Qed.

Lemma capacity_with_CDN_is_smaller_witness :
  0 <= 10 ^ 15
  /\ 0 <= EPOCHS_PER_MONTH (TIME_CONSTANTS sdkScenario)
  /\ 0 <= TiB (SIZE_CONSTANTS sdkScenario)
  /\ 0 < GiB (SIZE_CONSTANTS sdkScenario) < 2 ^ 1023
  /\ exists withCDN without,
       calculateRateAllowanceGB sdkScenario true (10 ^ 15) = Ok withCDN
       /\ calculateRateAllowanceGB sdkScenario false (10 ^ 15) = Ok without
       /\ Js.leb withCDN without = true.
Proof.
  split; [lia|]. split; [simpl; lia|]. split; [simpl; lia|].
  split; [simpl; lia|].
  apply (capacity_with_CDN_is_smaller sdkScenario (10 ^ 15));
    [lia | simpl; lia | simpl; lia | simpl; lia].
Defined.

(** X9: when the rate in use is positive and at most the rate needed for
    the capacity, the estimated usage lies between zero and the capacity, in
    bytes and in GB. *)
Theorem usage_estimate_within_capacity
    sdk withCDN check days capacity threshold pb bytes :
  check capacity withCDN days = Ok pb ->
  BigInt capacity = Ok bytes ->
  0 <= bytes ->
  0 < PandoraBalanceData.currentRateUsed pb
    <= PandoraBalanceData.rateAllowanceNeeded pb ->
  0 < GiB (SIZE_CONSTANTS sdk) < 2 ^ 1023 ->
  exists r,
    calculateStorageMetrics sdk withCDN check days capacity threshold = Ok r
    /\ 0 <= StorageCalculationResult.currentStorageBytes r <= bytes
    /\ Js.leb Js.zero (StorageCalculationResult.currentStorageGB r) = true
    /\ Js.leb (StorageCalculationResult.currentStorageGB r)
              (Js.div (Number bytes) (Number (GiB (SIZE_CONSTANTS sdk))))
       = true.
Proof.
  intros H Hb Hc Hu HG.
  rewrite (calculateStorageMetrics_ok _ _ _ _ _ _ _ H).
  eexists. split; [reflexivity|].
  cbn [StorageCalculationResult.currentStorageBytes
       StorageCalculationResult.currentStorageGB].
  unfold calculateCurrentStorageUsage.
  destruct (Z.gtb_spec (PandoraBalanceData.currentRateUsed pb) 0); [|lia].
  destruct (Z.gtb_spec (PandoraBalanceData.rateAllowanceNeeded pb) 0); [|lia].
  cbn [andb]. rewrite Hb. cbn [Js.bind]. unfold bigint_div.
  destruct (Z.eqb_spec (PandoraBalanceData.rateAllowanceNeeded pb) 0); [lia|].
  cbn [Js.bind try_catch fst snd].
  set (used := PandoraBalanceData.currentRateUsed pb) in *.
  set (needed := PandoraBalanceData.rateAllowanceNeeded pb) in *.
  assert (Hq : 0 <= Z.quot (used * bytes) needed <= bytes).
  { split.
    - apply Z.quot_pos; nia.
    - apply Z.quot_le_upper_bound; nia. }
  destruct (Number_finite _ HG) as (mg & eg & ->).
  split; [exact Hq|]. split.
  - apply zero_le_shape, quotient_nonneg. lia.
  - apply quotient_mono. lia.
Qed.

Lemma usage_estimate_within_capacity_witness :
  answer (usageBalance 5 10) tenGiB false thirtyDays = Ok (usageBalance 5 10)
  /\ BigInt tenGiB = Ok (10 * 2 ^ 30)
  /\ 0 < PandoraBalanceData.currentRateUsed (usageBalance 5 10)
       <= PandoraBalanceData.rateAllowanceNeeded (usageBalance 5 10)
  /\ exists r,
       calculateStorageMetrics sdkScenario false (answer (usageBalance 5 10))
         thirtyDays tenGiB 10 = Ok r
       /\ 0 <= StorageCalculationResult.currentStorageBytes r <= 10 * 2 ^ 30
       /\ Js.leb Js.zero (StorageCalculationResult.currentStorageGB r) = true
       /\ Js.leb (StorageCalculationResult.currentStorageGB r)
                 (Js.div (Number (10 * 2 ^ 30))
                    (Number (GiB (SIZE_CONSTANTS sdkScenario))))
          = true.
Proof.
  split; [reflexivity|]. split; [reflexivity|]. split; [simpl; lia|].
  apply (usage_estimate_within_capacity sdkScenario false
           (answer (usageBalance 5 10)) thirtyDays tenGiB 10
           (usageBalance 5 10) (10 * 2 ^ 30));
    [reflexivity | reflexivity | lia | simpl; lia | simpl; lia].
Defined.

(** X10: the action section offers at most one button.  The button is
    disabled exactly while a payment is processed, and a click submits one
    payment and then refetches the balances; without a button no payment can
    be submitted. *)
Theorem ActionSection_single_button balances isLoading busy :
  let view := ActionSection balances isLoading busy in
  (buttons view = [] /\ payments view = [])
  \/ exists args text,
       buttons view
       = [ {| onClick := [OnPayment args; HandleRefetchBalances];
              disabled := busy; label := text |} ]
       /\ payments view = [args].
Proof.
  unfold ActionSection.
  destruct balances as [balances|]; [|left; split; reflexivity].
  destruct isLoading; [left; split; reflexivity|].
  destruct (StorageCalculationResult.isSufficient _);
    [left; split; reflexivity|].
  destruct (_ || _); [left; split; reflexivity|].
  unfold LockupIncreaseAction, RateIncreaseAction.
  destruct (StorageCalculationResult.isRateSufficient _),
           (StorageCalculationResult.isLockupSufficient _);
    cbn [andb negb]; try destruct (_ || _);
    cbn; solve [left; split; reflexivity | right; eauto].
Qed.

(** X11: when the rate allowance is below the required rate and the lockup
    is insufficient too, a loaded section with both wallet balances not zero
    offers the payment of the lockup allowance, the rate and the deposit of
    the snapshot, zero amounts included: this branch is never suppressed. *)
Theorem deposit_and_increase_payment
    sdk withCDN check days capacity threshold pb fil usdfc busy :
  check capacity withCDN days = Ok pb ->
  PandoraBalanceData.currentRateAllowance pb
  < perEpoch (PandoraBalanceData.costs pb) ->
  fil <> 0 -> usdfc <> 0 ->
  exists r,
    calculateStorageMetrics sdk withCDN check days capacity threshold = Ok r
    /\ (StorageCalculationResult.isLockupSufficient r = false ->
        payments
          (ActionSection
             (Some {| UseBalancesResponse.filBalance := fil;
                      UseBalancesResponse.usdfcBalance := usdfc;
                      UseBalancesResponse.storage := r |}) false busy)
        = [ {| lockupAllowance := PandoraBalanceData.lockupAllowanceNeeded pb;
               epochRateAllowance := perEpoch (PandoraBalanceData.costs pb);
               depositAmount := PandoraBalanceData.depositAmountNeeded pb |} ]).
Proof.
  intros H Hr Hf Hu. rewrite (calculateStorageMetrics_ok _ _ _ _ _ _ _ H).
  eexists. split; [reflexivity|].
  cbn [StorageCalculationResult.isLockupSufficient]. intros Hl.
  unfold ActionSection.
  cbn [UseBalancesResponse.storage UseBalancesResponse.filBalance
       UseBalancesResponse.usdfcBalance
       StorageCalculationResult.isSufficient
       StorageCalculationResult.isRateSufficient
       StorageCalculationResult.isLockupSufficient
       StorageCalculationResult.totalLockupNeeded
       StorageCalculationResult.depositNeeded
       StorageCalculationResult.rateNeeded].
  rewrite Hl.
  destruct (Z.geb_spec (PandoraBalanceData.currentRateAllowance pb)
              (perEpoch (PandoraBalanceData.costs pb))); [lia|].
  apply Z.eqb_neq in Hf, Hu. rewrite Hf, Hu. reflexivity.
Qed.

Lemma deposit_and_increase_payment_witness :
  answer (scenarioBalance 5 10 0) tenGiB false thirtyDays
  = Ok (scenarioBalance 5 10 0)
  /\ PandoraBalanceData.currentRateAllowance (scenarioBalance 5 10 0)
     < perEpoch (PandoraBalanceData.costs (scenarioBalance 5 10 0))
  /\ exists r,
       calculateStorageMetrics sdkScenario false
         (answer (scenarioBalance 5 10 0)) thirtyDays tenGiB 20 = Ok r
       /\ (StorageCalculationResult.isLockupSufficient r = false ->
           payments
             (ActionSection
                (Some {| UseBalancesResponse.filBalance := 1;
                         UseBalancesResponse.usdfcBalance := 1;
                         UseBalancesResponse.storage := r |}) false false)
           = [ {| lockupAllowance := 3000; epochRateAllowance := 10;
                  depositAmount := 0 |} ]).
Proof.
  split; [reflexivity|]. split; [reflexivity|].
  apply (deposit_and_increase_payment sdkScenario false
           (answer (scenarioBalance 5 10 0)) thirtyDays tenGiB 20
           (scenarioBalance 5 10 0) 1 1 false);
    [reflexivity | reflexivity | lia | lia].
Defined.

(** X12: in the allowance section an allowance shows the insufficient badge
    exactly when its warning card is shown; while loading both badges are
    pending and no warning is shown; without balances both are insufficient. *)
Theorem AllowanceStatusSection_warnings config balances isLoading :
  let view := AllowanceStatusSection config balances isLoading in
  (In ("Rate Allowance"%string, InsufficientBadge) (allowanceItems view)
   <-> exists maxGB coveredGB usingGB,
         In (RateInsufficient maxGB coveredGB usingGB) (warnings view))
  /\ (In ("Lockup Allowance"%string, InsufficientBadge) (allowanceItems view)
      <-> exists maxDays coveredDays noticeDays usingGB deposit moreDays,
            In (LockupInsufficient maxDays coveredDays noticeDays usingGB
                  deposit moreDays) (warnings view))
  /\ (isLoading = true ->
      warnings view = []
      /\ forall item, In item (allowanceItems view) -> snd item = PendingBadge)
  /\ (balances = None -> isLoading = false ->
      map snd (allowanceItems view) = [InsufficientBadge; InsufficientBadge]
      /\ List.length (warnings view) = 2%nat).
Proof.
  unfold AllowanceStatusSection, AllowanceItem.
  destruct isLoading; [|destruct balances as [b|]; cbn [optional notFlag];
    [destruct (StorageCalculationResult.isRateSufficient _),
              (StorageCalculationResult.isLockupSufficient _)|]];
    cbn [negb andb app allowanceItems warnings map snd List.length In];
    (split; [|split; [|split]]);
    try (split; intros H; listed H);
    try (intros H; discriminate H);
    try (intros _ _; split; reflexivity).
  - intros _. split; [reflexivity|]. intros item H; listed H.
  - intros _ H; discriminate H.
Qed.

(** X13: for metrics that the engine returned, the sections of a connected,
    loaded storage manager agree: the action section reports sufficient
    storage exactly when the allowance section shows no warning, and a payment
    button comes with a warning. *)
Theorem StorageManager_sections_agree
    sdk withCDN check days capacity threshold r
    config chainId fil usdfc busy status :
  calculateStorageMetrics sdk withCDN check days capacity threshold = Ok r ->
  exists view,
    StorageManager config true chainId
      (Some {| UseBalancesResponse.filBalance := fil;
               UseBalancesResponse.usdfcBalance := usdfc;
               UseBalancesResponse.storage := r |})
      false busy status = Some view
    /\ (warnings (allowanceStatus view) = []
        <-> actionSection view
            = Sufficient (StorageCalculationResult.persistenceDaysLeft r))
    /\ (buttons (actionSection view) <> [] ->
        warnings (allowanceStatus view) <> []).
Proof.
  intros H.
  destruct (check capacity withCDN days) as [pb | e] eqn:Hc.
  2:{ rewrite (calculateStorageMetrics_rejected _ _ _ _ _ _ _ Hc) in H.
      discriminate H. }
  rewrite (calculateStorageMetrics_ok _ _ _ _ _ _ _ Hc) in H.
  injection H as <-.
  eexists. split; [reflexivity|].
  cbn [StorageManager negb allowanceStatus actionSection AllowanceStatusSection
       ActionSection warnings optional UseBalancesResponse.storage
       StorageCalculationResult.isSufficient
       StorageCalculationResult.isRateSufficient
       StorageCalculationResult.isLockupSufficient
       StorageCalculationResult.persistenceDaysLeft andb notFlag].
  destruct (_ >=? _), (geb_bigint _ _); cbn [andb negb notFlag app];
    (split; [split; intros E; first [reflexivity | discriminate E | idtac]|]).
  all: try (intros _; discriminate).
  all: try (intros E; exfalso; apply E; reflexivity).
  all: destruct (_ || _); discriminate E.
Qed.

Lemma StorageManager_sections_agree_witness :
  calculateStorageMetrics sdkScenario false (answer (scenarioBalance 5 10 500))
    thirtyDays tenGiB 20
  = Ok (scenarioMetrics (scenarioBalance 5 10 500) 20)
  /\ exists view,
       StorageManager
         {| Config.storageCapacity := Number 10;
            Config.persistencePeriod := thirtyDays;
            Config.minDaysThreshold := Number 20;
            Config.withCDN := false |}
         true (Some 314159)
         (Some (scenarioBalances 1 1 (scenarioBalance 5 10 500) 20))
         false false EmptyString = Some view
       /\ (warnings (allowanceStatus view) = []
           <-> actionSection view
               = Sufficient
                   (StorageCalculationResult.persistenceDaysLeft
                      (scenarioMetrics (scenarioBalance 5 10 500) 20)))
       /\ (buttons (actionSection view) <> [] ->
           warnings (allowanceStatus view) <> []).
Proof.
  split; [reflexivity|].
  apply (StorageManager_sections_agree sdkScenario false
           (answer (scenarioBalance 5 10 500)) thirtyDays tenGiB 20
           (scenarioMetrics (scenarioBalance 5 10 500) 20)).
  reflexivity.
Defined.

(** X14: the progress bars of the storage status section and of the sidebar
    show the same percentage, present exactly when the balances are loaded.
    For used and covered bytes below 2^53, converted to GB as the engine does,
    with no more used than covered, the percentage lies between 0 and 100, and
    it is 0 when nothing is covered. *)
Theorem storageUsagePercent_range balances usedBytes coveredBytes g :
  let s := UseBalancesResponse.storage balances in
  StorageCalculationResult.currentStorageGB s
  = Js.div (Number usedBytes) (Number g) ->
  StorageCalculationResult.currentRateAllowanceGB s
  = Js.div (Number coveredBytes) (Number g) ->
  0 <= usedBytes <= coveredBytes -> coveredBytes < 2 ^ 53 ->
  0 < g < 2 ^ 53 ->
  forall segment isLoading,
  exists percent,
    progress (StorageStatusSection (Some balances) isLoading)
    = (if isLoading then None else Some percent)
    /\ usage (Sidebar segment (Some balances) isLoading)
       = (if isLoading then None else Some percent)
    /\ Js.leb Js.zero percent = true
    /\ Js.leb percent (Number 100) = true
    /\ (coveredBytes = 0 -> percent = Js.zero).
Proof.
  intros s Eu Ec Hb Hc Hg segment isLoading.
  exists (storageUsagePercent (Some balances)).
  split; [destruct isLoading; reflexivity|].
  split; [destruct isLoading; reflexivity|].
  unfold storageUsagePercent. fold s. rewrite Eu, Ec. unfold Js.leb.
  destruct (Number_exact g Hg) as (mg & eg & EG & _).
  destruct (Z.eq_dec coveredBytes 0) as [-> | Nc].
  - rewrite EG. cbn. repeat split; reflexivity.
  - destruct (div_Number_finite coveredBytes g ltac:(lia) Hg) as (ml & el & El & _).
    assert (T : truthy (Js.div (Number coveredBytes) (Number g)) = true)
      by (rewrite El; reflexivity).
    rewrite T.
    destruct (Z.eq_dec usedBytes 0) as [-> | Nu].
    + rewrite El, EG.
      destruct (Number_exact 100 ltac:(lia)) as (mh & eh & -> & _).
      repeat split; try reflexivity; intros; lia.
    + destruct (percent_range usedBytes coveredBytes g ltac:(lia) Hc Hg) as [P1 P2].
      repeat split; try assumption; intros; lia.
Qed.

Lemma storageUsagePercent_range_witness :
  StorageCalculationResult.currentStorageGB (scenarioMetrics fundedBalance 10)
  = Js.div (Number (5 * 2 ^ 30)) (Number (2 ^ 30))
  /\ StorageCalculationResult.currentRateAllowanceGB
       (scenarioMetrics fundedBalance 10)
     = Js.div (Number (3 * 2 ^ 38)) (Number (2 ^ 30))
  /\ 0 <= 5 * 2 ^ 30 <= 3 * 2 ^ 38
  /\ exists percent,
       progress
         (StorageStatusSection (Some (scenarioBalances 1 1 fundedBalance 10))
            false)
       = Some percent
       /\ usage (Sidebar None (Some (scenarioBalances 1 1 fundedBalance 10))
                   false)
          = Some percent
       /\ Js.leb Js.zero percent = true
       /\ Js.leb percent (Number 100) = true
       /\ (3 * 2 ^ 38 = 0 -> percent = Js.zero).
Proof.
  split; [reflexivity|]. split; [reflexivity|]. split; [lia|].
  apply (storageUsagePercent_range (scenarioBalances 1 1 fundedBalance 10)
           (5 * 2 ^ 30) (3 * 2 ^ 38) (2 ^ 30));
    [reflexivity | reflexivity | lia | lia | lia].
Defined.

(** X15: a persistence badge is of the default variant exactly when its
    runway is more than seven days, the truthiness guard never decides; an
    infinite runway is of the default variant, NaN and missing balances of
    the destructive one. *)
Theorem persistence_badges balances isLoading :
  let s := UseBalancesResponse.storage balances in
  let view := StorageStatusSection (Some balances) isLoading in
  (maxUsageVariant view = DefaultVariant
   <-> gtb (StorageCalculationResult.persistenceDaysLeft s) (Number 7) = true)
  /\ (currentUsageVariant view = DefaultVariant
      <-> gtb (StorageCalculationResult.persistenceDaysLeftAtCurrentRate s)
            (Number 7) = true)
  /\ (StorageCalculationResult.persistenceDaysLeftAtCurrentRate s = Infinity ->
      currentUsageVariant view = DefaultVariant)
  /\ (StorageCalculationResult.persistenceDaysLeft s = NaN ->
      maxUsageVariant view = DestructiveVariant)
  /\ maxUsageVariant (StorageStatusSection None isLoading) = DestructiveVariant
  /\ currentUsageVariant (StorageStatusSection None isLoading)
     = DestructiveVariant.
Proof.
  cbv zeta.
  cbn [StorageStatusSection maxUsageVariant currentUsageVariant optional].
  split; [apply persistenceVariant_spec|].
  split; [apply persistenceVariant_spec|].
  split; [intros ->; reflexivity|].
  split; [intros ->; reflexivity|].
  split; reflexivity.
Qed.

(** X16: with a threshold above seven days, a lockup that the engine finds
    sufficient shows the default variant of the badge at max usage. *)
Theorem sufficient_lockup_default_badge
    sdk withCDN check days capacity threshold pb fil usdfc isLoading :
  check capacity withCDN days = Ok pb ->
  0 < EPOCHS_PER_DAY (TIME_CONSTANTS sdk)
      * perEpoch (PandoraBalanceData.costs pb) < 2 ^ 1023 ->
  7 < threshold ->
  exists r,
    calculateStorageMetrics sdk withCDN check days capacity threshold = Ok r
    /\ (StorageCalculationResult.isLockupSufficient r = true ->
        maxUsageVariant
          (StorageStatusSection
             (Some {| UseBalancesResponse.filBalance := fil;
                      UseBalancesResponse.usdfcBalance := usdfc;
                      UseBalancesResponse.storage := r |}) isLoading)
        = DefaultVariant).
Proof.
  intros H Hl Ht.
  rewrite (calculateStorageMetrics_ok _ _ _ _ _ _ _ H).
  eexists. split; [reflexivity|].
  cbn [StorageCalculationResult.isLockupSufficient StorageStatusSection
       maxUsageVariant optional UseBalancesResponse.storage
       StorageCalculationResult.persistenceDaysLeft].
  set (remaining := PandoraBalanceData.currentLockupAllowance pb
                    - PandoraBalanceData.currentLockupUsed pb).
  destruct (Number_finite _ Hl) as (mg & eg & ->).
  intros Hs. apply persistenceVariant_spec. unfold gtb.
  apply geb_bigint_spec in Hs.
  assert (H8 : (8 <= IZR threshold)%R) by (apply IZR_le; lia).
  destruct Hs as [-> | [Hf Hv]]; [reflexivity|].
  pose proof (quotient_mono mg eg remaining 0) as Hneg.
  pose proof (quotient_mono mg eg 1 remaining) as Hpos.
  destruct (Z_le_gt_dec remaining 0) as [Hle | Hgt].
  - exfalso. specialize (Hneg Hle). change (Js.div (Number 0) _) with (S754_zero false) in Hneg.
    destruct (Js.div (Number remaining) _) as [s | s | | s m e];
      try discriminate Hf; cbn [val] in Hv; [lra|].
    destruct s; [|discriminate Hneg].
    assert (0 < IZR (Zpos m) * bpow e)%R
      by (apply Rmult_lt_0_compat; [apply IZR_lt; lia|apply bpow_pos]).
    cbn [cond_Zopp Z.opp] in Hv. change (Zneg m) with (- Zpos m) in Hv.
    rewrite opp_IZR in Hv. lra.
  - destruct (Number_pos_shape remaining ltac:(lia)) as [(mr & er & Er) | Er];
      [|rewrite Er in Hf; discriminate Hf].
    rewrite Er in *. unfold Js.div, Js.prec, Js.emax in *.
    pose proof (SFdiv_finite_spec mr er mg eg) as Rd.
    set (x := (IZR (Zpos mr) * bpow er / (IZR (Zpos mg) * bpow eg))%R) in *.
    assert (Px : (0 <= x)%R).
    { unfold x. apply Rlt_le, Rdiv_lt_0_compat;
        (apply Rmult_lt_0_compat; [apply IZR_lt; lia|apply bpow_pos]). }
    destruct (Number_exact 7 ltac:(lia)) as (m7 & e7 & E7 & V7).
    pose proof (Number_rounds 7 ltac:(lia)) as R7. rewrite E7 in *.
    destruct (rounds_to_shape x _ Px Rd) as [Ed | [(m & e & Ed) | Ed]];
      rewrite Ed in *; try discriminate Hf.
    + cbn [val] in Hv. lra.
    + cbn [val cond_Zopp] in Hv.
      assert (Hx : (IZR 7 <= x)%R).
      { destruct (Rle_or_lt (IZR 7) x) as [|Hlt]; [assumption|exfalso].
        destruct (rounds_to_val_le x (IZR 7) _ _ _ _ _ _ ltac:(lra) Rd R7)
          as (_ & _ & Hc).
        rewrite V7 in Hc. lra. }
      apply SFleb_ltb.
      * apply (rounds_to_le (IZR 7) x); [lra|assumption|assumption].
      * intros [= -> ->]. lra.
Qed.

Lemma sufficient_lockup_default_badge_witness :
  answer fundedBalance tenGiB false thirtyDays = Ok fundedBalance
  /\ 7 < 10
  /\ exists r,
       calculateStorageMetrics sdkScenario false (answer fundedBalance)
         thirtyDays tenGiB 10 = Ok r
       /\ (StorageCalculationResult.isLockupSufficient r = true ->
           maxUsageVariant
             (StorageStatusSection
                (Some {| UseBalancesResponse.filBalance := 1;
                         UseBalancesResponse.usdfcBalance := 1;
                         UseBalancesResponse.storage := r |}) false)
           = DefaultVariant).
Proof.
  split; [reflexivity|]. split; [lia|].
  apply (sufficient_lockup_default_badge sdkScenario false (answer fundedBalance)
           thirtyDays tenGiB 10 fundedBalance 1 1 false);
    [reflexivity | simpl; lia | lia].
Defined.

(** X17: without a connected account the storage manager renders nothing and
    the home page the connect prompt; with one, the faucet buttons are there
    exactly when the home page shows no network warning. *)
Theorem connection_and_network config chainId data isLoading busy status tab :
  StorageManager config false chainId data isLoading busy status = None
  /\ body (Home false chainId tab) = ConnectPrompt
  /\ exists view tabs panel,
       StorageManager config true chainId data isLoading busy status = Some view
       /\ body (Home true chainId tab) = Content tabs panel
       /\ faucets view = negb (networkWarning (Home true chainId tab)).
Proof.
  split; [reflexivity|]. split; [reflexivity|].
  do 3 eexists. split; [reflexivity|]. split; [reflexivity|].
  destruct chainId as [id|]; cbn; [rewrite negb_involutive|]; reflexivity.
Qed.

(** X18: the connected home page highlights exactly the tab button of the
    active tab and always shows a panel, that of the active tab. *)
Theorem Home_tabs chainId activeTab :
  exists tabs panel,
    body (Home true chainId activeTab) = Content tabs (Some panel)
    /\ (forall t, In t tabs -> (highlighted t = true <-> selects t = activeTab))
    /\ List.length (filter highlighted tabs) = 1%nat
    /\ (panel = StorageManagerPanel <-> activeTab = ManageStorage)
    /\ (panel = FileUploaderPanel <-> activeTab = Upload)
    /\ (panel = ViewProofSetsPanel <-> activeTab = ProofSet).
Proof.
  destruct activeTab; do 2 eexists; (split; [reflexivity|]);
    (split; [intros t H; listed H; cbn; split; congruence|]);
    (split; [reflexivity|]);
    repeat split; congruence.
Qed.

(** X19: after a click on one of the tab buttons, whatever was clicked
    before, the highlighted buttons are those with the label of the clicked
    one, and a panel is shown. *)
Theorem Home_click chainId clicks t :
  let before := Home true chainId (afterClicks clicks) in
  let after := Home true chainId (afterClicks (clicks ++ [t])) in
  exists tabs tabs' panel panel',
    body before = Content tabs panel
    /\ body after = Content tabs' (Some panel')
    /\ (In t tabs ->
        forall t', In t' tabs' ->
        (highlighted t' = true <-> tabLabel t' = tabLabel t)).
Proof.
  cbv zeta. unfold afterClicks. rewrite fold_left_app. cbn [fold_left clickTab].
  set (tab := fold_left _ clicks initialTab). clearbody tab.
  destruct (Home_tabs chainId (selects t)) as (tabs' & panel' & E & _).
  exists 
    [ {| tabLabel := "Manage Storage"; selects := ManageStorage;
         highlighted := Tab_eqb tab ManageStorage |};
      {| tabLabel := "Upload File"; selects := Upload;
         highlighted := Tab_eqb tab Upload |};
      {| tabLabel := "View Proof Sets"; selects := ProofSet;
         highlighted := Tab_eqb tab ProofSet |} ], tabs'.
  do 2 eexists. split; [reflexivity|]. split; [exact E|].
  cbn in E. injection E as <- _.
  intros H t' H'. listed H; listed H'; cbn; split; congruence.
Qed.

(** X20: in the sidebar at most one link is active, the links lead to
    different places, the link to the dashboard itself is active exactly when
    no segment is selected, and an active link leads to the selected segment. *)
Theorem Sidebar_links segment data isBalanceLoading :
  let links := sidebarLinks (Sidebar segment data isBalanceLoading) in
  (forall a b, In a links -> In b links ->
     active a = true -> active b = true -> a = b)
  /\ NoDup (map href links)
  /\ (forall a, In a links -> href a = "/dashboard"%string ->
      (active a = true <-> segment = None))
  /\ (forall a, In a links -> active a = true ->
      segment <> None -> href a = ("/dashboard/" ++ orElse segment "")%string).
Proof.
  cbv [Sidebar sidebarLinks navigation storageLink fileTypeLinks map
       sidebarItems fileTypes app sidebarLink fileTypeLink route navLabel
       nonempty orElse String.append].
  split; [|split; [|split]].
  - intros a b Ha Hb. listed Ha; listed Hb; cbn [active];
      rewrite !strictEq_eq; intros E1 E2; try reflexivity;
      rewrite E1 in E2; discriminate E2.
  - cbn [map href]. repeat constructor; cbn [In]; intuition discriminate.
  - intros a Ha. listed Ha; cbn [active href]; intros E;
      try discriminate E. rewrite strictEq_eq. reflexivity.
  - intros a Ha. listed Ha; cbn [active href]; rewrite strictEq_eq;
      intros ->; try reflexivity. intros E; destruct E; reflexivity.
Qed.

(** [String.prefix] and [includes] against concatenation. *)
Lemma prefix_append sub s :
  String.prefix sub s = true <-> exists post, s = (sub ++ post)%string.
Proof.
  revert s. induction sub as [|c sub IH]; intros s; destruct s as [|d s];
    cbn [String.prefix].
  - split; [intros _; exists EmptyString; reflexivity|reflexivity].
  - split; [intros _; exists (String d s); reflexivity|reflexivity].
  - split; [discriminate|intros [post E]; discriminate E].
  - destruct (Ascii.ascii_dec c d) as [<- | N].
    + rewrite IH. split; intros [post E]; exists post.
      * cbn. rewrite E. reflexivity.
      * cbn in E. injection E as E. exact E.
    + split; [discriminate|]. intros [post E]. cbn in E.
      injection E as E1 _. destruct N. symmetry. exact E1.
Qed.

Lemma includes_unfold s sub :
  includes s sub
  = if String.prefix sub s then true
    else match s with
         | EmptyString => false
         | String _ rest => includes rest sub
         end.
Proof. destruct s; reflexivity. Qed.

Lemma includes_spec s sub :
  includes s sub = true
  <-> exists pre post, s = (pre ++ sub ++ post)%string.
Proof.
  split.
  - induction s as [|c s IH]; rewrite includes_unfold;
      destruct (String.prefix sub _) eqn:P.
    + intros _. apply prefix_append in P. destruct P as [post E].
      exists EmptyString, post. exact E.
    + discriminate.
    + intros _. apply prefix_append in P. destruct P as [post E].
      exists EmptyString, post. exact E.
    + intros H. destruct (IH H) as (pre & post & E).
      exists (String c pre), post. cbn. rewrite E. reflexivity.
  - intros (pre & post & E). revert s E.
    induction pre as [|c pre IH]; intros s E; rewrite includes_unfold.
    + assert (P : String.prefix sub s = true)
        by (apply prefix_append; exists post; exact E).
      rewrite P. reflexivity.
    + destruct (String.prefix sub s); [reflexivity|].
      rewrite E. cbn. apply (IH _ eq_refl).
Qed.

(** X21: a connected storage manager shows the status card exactly for a
    status that is not empty.  The card carries the status text, its border
    and its text have the same colour, and the colour is red exactly when the
    status contains the cross mark, green when it contains the check mark and
    no cross mark, blue when it contains neither: a failure mark wins over a
    success mark. *)
Theorem status_card_tone config chainId data isBalanceLoading busy status :
  let contains mark :=
    exists pre post, status = (pre ++ mark ++ post)%string in
  exists view,
    StorageManager config true chainId data isBalanceLoading busy status
    = Some view
    /\ (statusCard view = None <-> status = EmptyString)
    /\ forall card, statusCard view = Some card ->
       statusText card = status
       /\ borderTone card = textTone card
       /\ (borderTone card = Red <-> contains crossMark)
       /\ (borderTone card = Green
           <-> contains checkMark /\ ~ contains crossMark)
       /\ (borderTone card = Blue
           <-> ~ contains checkMark /\ ~ contains crossMark).
Proof.
  cbv zeta. eexists. split; [reflexivity|].
  cbn [StorageManager negb statusCard].
  split.
  - destruct status; cbn [nonempty]; split; congruence.
  - intros card. destruct (nonempty status); [|discriminate].
    intros [= <-]. cbn [statusText borderTone textTone].
    split; [reflexivity|]. split; [reflexivity|].
    unfold statusTone. rewrite <- !includes_spec.
    destruct (includes status crossMark), (includes status checkMark);
      repeat split; try congruence; try (intros []; congruence);
      try (intros _; discriminate).
Qed.
